(** * Browser Automation API: task lifecycle, session state, downloads, reports

    A shallow embedding of the Python sources of the browser-automation
    service ([utils.py], [llm_factory.py], [models.py],
    [logging_config.py], [result_processing.py], [agent_setup.py],
    [agent_runner.py], [browser_api.py]) together with the properties
    its specification states about them and further properties that
    the code shows.

    Conventions of the embedding.
    - A Python [str] is a Rocq [string]; [+:+] is concatenation.
    - A Python [dict] with string keys is a [gmap string _]; [d.get(k)] is
      [d !! k] and [{**a, **b}] is the right-biased union.
    - A call that may raise returns a [res]; [try]/[except Exception] and
      [try]/[finally] are the combinators [try_except] and [try_finally].
    - A [float] is an exact rational ([Q]); no property below depends on
      rounding.
    - Objects handed over by the browser-use library (the history, the
      browser, the agent) are records of the answers their methods give. *)

From Stdlib Require Import ZArith QArith Lqa String Ascii.
From stdpp Require Import gmap strings list fin_maps pretty.

#[local] Set Warnings "-register-all".

(* ===================================================================== *)
(** * Part I. Definitions                                                 *)
(* ===================================================================== *)

(** ** Python strings *)

(** [str.lower()] on the ASCII range. *)
Definition lower_ascii (c : ascii) : ascii :=
  let n := nat_of_ascii c in
  if (65 <=? n)%nat && (n <=? 90)%nat then ascii_of_nat (n + 32) else c.

Fixpoint lower (s : string) : string :=
  match s with
  | EmptyString => EmptyString
  | String c s' => String (lower_ascii c) (lower s')
  end.

(** [hay.startswith(needle)]. *)
Fixpoint startswith (needle hay : string) : bool :=
  match needle, hay with
  | EmptyString, _ => true
  | String a n', String b h' => if Ascii.eqb a b then startswith n' h' else false
  | String _ _, EmptyString => false
  end.

(** [needle in hay] on strings. *)
Fixpoint str_in (needle hay : string) : bool :=
  if startswith needle hay then true
  else match hay with
       | EmptyString => false
       | String _ h' => str_in needle h'
       end.

(** [s[:n]]. *)
Fixpoint str_take (n : nat) (s : string) : string :=
  match n, s with
  | S n', String c s' => String c (str_take n' s')
  | _, _ => EmptyString
  end.

(** [sep.join(parts)]. *)
Fixpoint join (sep : string) (parts : list string) : string :=
  match parts with
  | [] => ""
  | [p] => p
  | p :: rest => p +:+ sep +:+ join sep rest
  end.

(** Truth value of a string: non-empty. *)
Definition str_truthy (s : string) : bool :=
  match s with EmptyString => false | _ => true end.

(** ** Exceptions *)

(** [TimeoutError] is a subclass of [Exception]; [CancelledError] derives
    from [BaseException] only, so [except Exception] lets it through. *)
Inductive exn :=
  | Exception (msg : string)
  | TimeoutError (msg : string)
  | CancelledError.

(** [str(e)]. *)
Definition exn_str (e : exn) : string :=
  match e with
  | Exception m => m
  | TimeoutError m => m
  | CancelledError => ""
  end.

Definition is_Exception (e : exn) : bool :=
  match e with CancelledError => false | _ => true end.

Definition is_TimeoutError (e : exn) : bool :=
  match e with TimeoutError _ => true | _ => false end.

Inductive res (A : Type) :=
  | Ok (a : A)
  | Raise (e : exn).
Arguments Ok {A} a.
Arguments Raise {A} e.

#[global] Instance res_ret : MRet res := fun A a => Ok a.

#[global] Instance res_bind : MBind res := fun A B k r =>
  match r with
  | Ok a => k a
  | Raise e => Raise e
  end.

#[global] Instance res_fmap : FMap res := fun A B f r =>
  match r with
  | Ok a => Ok (f a)
  | Raise e => Raise e
  end.

(** [try: body except Exception as e: handler(e)]. *)
Definition try_except {A} (body : res A) (handler : exn → res A) : res A :=
  match body with
  | Ok a => Ok a
  | Raise e => if is_Exception e then handler e else Raise e
  end.

(** ** Python values held in result dictionaries *)

Inductive value :=
  | VNone
  | VBool (b : bool)
  | VInt (n : Z)
  | VFloat (q : Q)
  | VStr (s : string)
  | VList (l : list value)
  | VDict (d : gmap string value).

Abbreviation dict := (gmap string value).

(** [bool(v)]. *)
Definition truthy (v : value) : bool :=
  match v with
  | VNone => false
  | VBool b => b
  | VInt n => negb (n =? 0)%Z
  | VFloat q => negb (Qeq_bool q 0)
  | VStr s => str_truthy s
  | VList l => match l with [] => false | _ => true end
  | VDict d => negb (bool_decide (d = ∅))
  end.

(** [d.get(k)]: a missing key reads as [None]. *)
Definition dict_get (d : dict) (k : string) : value := default VNone (d !! k).

(** [d.get(k, dflt)]. *)
Definition dict_get_or (d : dict) (k : string) (dflt : value) : value :=
  default dflt (d !! k).

(** [{**a, **b}]: on a shared key the right operand wins. *)
Definition dict_merge (a b : dict) : dict := b ∪ a.

Definition opt_str (o : option string) : value :=
  match o with None => VNone | Some s => VStr s end.

Definition opt_bool (o : option bool) : value :=
  match o with None => VNone | Some b => VBool b end.

(** ** utils.py *)

Definition empty_json_indicators : list string :=
  [ "EOF while parsing"; "Invalid JSON"; "input_value=''";
    "Expecting value"; "No JSON object could be decoded" ].

Definition is_empty_json_error (error_message : string) : bool :=
  if negb (str_truthy error_message) then false
  else
    let lowered := lower error_message in
    existsb (fun indicator => str_in (lower indicator) lowered)
            empty_json_indicators.

Definition rate_limit_indicators : list string :=
  [ "rate limit"; "rate_limit_exceeded"; "quota exceeded";
    "too many requests"; "429" ].

Definition is_rate_limit_error (error_message : string) : bool :=
  if negb (str_truthy error_message) then false
  else
    let lowered := lower error_message in
    existsb (fun indicator => str_in indicator lowered) rate_limit_indicators.

Definition newline : string := String (ascii_of_nat 10) EmptyString.

Definition empty_json_guidance : string :=
  "OpenAI returned an empty or malformed response. This is usually a transient issue.".

Definition rate_limit_guidance : string :=
  "OpenAI API rate limit reached. Your account exceeded the allowed requests.".

Definition format_openai_error_message
    (original_error error_type : string) : string :=
  let '(base_msg, suggestions) :=
    if String.eqb error_type "empty_json" then
      (empty_json_guidance,
       [ "Retry the task (very likely to succeed)";
         "Check OpenAI status page for outages";
         "Ensure your API key has remaining quota" ])
    else if String.eqb error_type "rate_limit" then
      (rate_limit_guidance,
       [ "Wait a few minutes and retry";
         "Upgrade the OpenAI plan for higher limits";
         "Switch to Gemini (no rate limits on free tier)" ])
    else
      ("OpenAI error: " +:+ str_take 100 original_error,
       [ "Retry the task";
         "Try a different OpenAI model";
         "Check OpenAI status page for outages" ]) in
  let formatted := base_msg +:+ newline +:+ newline +:+ "Suggestions:" +:+ newline in
  let formatted :=
    formatted +:+ join newline (map (fun tip => "  - " +:+ tip) suggestions) in
  if str_truthy original_error then
    formatted +:+ newline +:+ newline +:+ "Original error: "
              +:+ str_take 200 original_error
  else formatted.

(** ** models.py *)

(** The fields of [TaskRequest] that the modelled functions read. *)
Record TaskRequest := {
  rq_task : string;
  rq_task_id : option string;
  rq_llm_provider : string;
  rq_max_steps : Z;
  rq_generate_gif : bool;
  rq_timeout : Z;
  rq_calculate_cost : bool;
  rq_debug_mode : bool;
  rq_save_conversation : bool;
  rq_customer_id : option Z;
  rq_session_enabled : bool;
}.

Record TaskResponse := {
  rs_task_id : string;
  rs_success : bool;
  rs_result : option string;
  rs_final_url : option string;
  rs_urls_visited : list string;
  rs_steps_taken : Z;
  rs_execution_time : Q;
  rs_gif_path : option string;
  rs_error : option string;
  rs_judge_verdict : option string;
  rs_cost : option Q;
  rs_cost_currency : string;
  rs_llm_calls : Z;
  rs_debug_data : option (gmap string value);
  rs_conversation_path : option string;
  rs_downloaded_files : list string;
}.

(** [TaskResponse(task_id=.., success=.., error=.., execution_time=..)]:
    every other field takes the default declared in [models.py]. *)
Definition TaskResponse_defaults (task_id : string) (success : bool) : TaskResponse :=
  {| rs_task_id := task_id;
     rs_success := success;
     rs_result := None;
     rs_final_url := None;
     rs_urls_visited := [];
     rs_steps_taken := 0;
     rs_execution_time := 0;
     rs_gif_path := None;
     rs_error := None;
     rs_judge_verdict := None;
     rs_cost := None;
     rs_cost_currency := "USD";
     rs_llm_calls := 0;
     rs_debug_data := None;
     rs_conversation_path := None;
     rs_downloaded_files := [] |}.

(** ** result_processing.py: the execution history *)

(** The judge's verdict dictionary: booleans and optional texts. *)
Inductive jvalue :=
  | JNone
  | JBool (b : bool)
  | JStr (s : string).

Definition jtruthy (v : jvalue) : bool :=
  match v with
  | JNone => false
  | JBool b => b
  | JStr s => str_truthy s
  end.

(** [str(v)], as an f-string renders it. *)
Definition jstr (v : jvalue) : string :=
  match v with
  | JNone => "None"
  | JBool true => "True"
  | JBool false => "False"
  | JStr s => s
  end.

(** [history.usage]: an attribute is [None] when the object lacks it
    ([hasattr] is false); a present cost is [None] or a number. *)
Record Usage := {
  total_cost : option (option Q);
  cost : option (option Q);
  input_tokens : option Z;
  output_tokens : option Z;
}.

(** One entry of [history.model_thoughts()]. *)
Record Thought := {
  thought_str : string;
  thought_action : option value;
  thought_reasoning : option value;
}.

(** The history object returned by [agent.run]. Methods the code calls
    unconditionally are [res] answers; those it probes with [hasattr] are
    [None] when the attribute is missing. *)
Record History := {
  errors : res (list (option string));
  final_result : res (option string);
  is_done : res bool;
  is_successful : res (option bool);
  has_errors : res bool;
  urls : res (list string);
  number_of_steps : res Z;
  total_duration_seconds : res Q;
  judgement : option (res (option (gmap string jvalue)));
  usage : option (res (option Usage));
  extracted_content : option (res (list string));
  model_thoughts : option (res (list Thought));
}.

(** The judge glyphs, in UTF-8. *)
Definition glyph_pass : string := "✅".
Definition glyph_fail : string := "❌".
Definition glyph_scales : string := "⚖️".
Definition glyph_warning : string := "⚠️".
Definition glyph_robot : string := "🤖".

Definition jget (d : gmap string jvalue) (k : string) : jvalue :=
  default JNone (d !! k).

Definition format_judge_verdict (judgement_dict : gmap string jvalue) : string :=
  let verdict := jtruthy (jget judgement_dict "verdict") in
  let verdict_emoji := if verdict then glyph_pass else glyph_fail in
  let verdict_status := if verdict then "PASS" else "FAIL" in
  let judge_parts :=
    [ glyph_scales +:+ "  Judge Verdict: " +:+ verdict_emoji +:+ " " +:+ verdict_status ] in
  let reasoning := jget judgement_dict "reasoning" in
  let judge_parts :=
    if jtruthy reasoning
    then judge_parts ++ [ "Reasoning: " +:+ jstr reasoning ] else judge_parts in
  let failure_reason := jget judgement_dict "failure_reason" in
  let judge_parts :=
    if jtruthy failure_reason
    then judge_parts ++ [ "Failure Reason: " +:+ jstr failure_reason ] else judge_parts in
  let judge_parts :=
    if jtruthy (jget judgement_dict "impossible_task")
    then judge_parts ++ [ glyph_warning +:+ " Task was impossible to complete" ]
    else judge_parts in
  let judge_parts :=
    if jtruthy (jget judgement_dict "reached_captcha")
    then judge_parts ++ [ glyph_robot +:+ " Encountered CAPTCHA" ]
    else judge_parts in
  join newline judge_parts.

(** [[str(e) for e in history.errors() if e]]. *)
Definition truthy_errors (l : list (option string)) : list string :=
  omap (fun e => match e with
                 | Some s => if str_truthy s then Some s else None
                 | None => None
                 end) l.

(** The [try] block of [extract_basic_results] around the judge verdict. *)
Definition extract_judge_verdict (history : History) : res (option string) :=
  try_except
    (judgement_dict ←
       match judgement history with
       | Some call => call
       | None => Ok None
       end;
     match judgement_dict with
     | Some d => if bool_decide (d = ∅) then Ok None
                 else Ok (Some (format_judge_verdict d))
     | None => Ok None
     end)
    (fun _ => Ok None).

(** The flags set under [if errors:] in [extract_basic_results]:
    [(openai_empty_json, openai_rate_limit)]. *)
Definition classify_errors (llm_provider : string) (errors : list string)
    : bool * bool :=
  match errors with
  | [] => (false, false)
  | _ => if String.eqb llm_provider "openai"
         then (existsb is_empty_json_error errors,
               existsb is_rate_limit_error errors)
         else (false, false)
  end.

Definition extract_basic_results
    (history : History) (request : TaskRequest) (gif_path : option string)
    : res dict :=
  errs ← errors history;
  let errors := truthy_errors errs in
  let openai_empty_json := (classify_errors (rq_llm_provider request) errors).1 in
  let openai_rate_limit := (classify_errors (rq_llm_provider request) errors).2 in
  v_final_result ← final_result history;
  v_is_done ← is_done history;
  v_is_successful ← is_successful history;
  v_has_errors ← has_errors history;
  v_urls ← urls history;
  v_steps ← number_of_steps history;
  v_duration ← total_duration_seconds history;
  let result : dict :=
    <["openai_rate_limit" := VBool openai_rate_limit]>
    (<["openai_empty_json" := VBool openai_empty_json]>
    (<["errors" := VList (VStr <$> errors)]>
    (<["duration" := VFloat v_duration]>
    (<["steps" := VInt v_steps]>
    (<["urls" := VList (VStr <$> v_urls)]>
    (<["has_errors" := VBool v_has_errors]>
    (<["is_successful" := opt_bool v_is_successful]>
    (<["is_done" := VBool v_is_done]>
    (<["final_result" := opt_str v_final_result]> ∅))))))))) in
  judge_verdict ← extract_judge_verdict history;
  let result := <["judge_verdict" := opt_str judge_verdict]> result in
  let result :=
    match gif_path with
    | Some p => if rq_generate_gif request
                then <["gif_path" := VStr p]> result else result
    | None => result
    end in
  mret result.

(** The [try] block of [extract_cost_data]. [cost_data] is mutated in
    place, so the block yields the dictionary as it stands when the block
    ends, normally or not. *)
Definition cost_try_block (history : History) (cost_data : dict) : dict * res () :=
  let after_usage : dict * res () :=
    match usage history with
    | None => (cost_data, Ok ())
    | Some (Raise e) => (cost_data, Raise e)
    | Some (Ok None) => (cost_data, Ok ())
    | Some (Ok (Some u)) =>
        let priced : dict * res () :=
          match total_cost u, cost u with
          | Some (Some c), _ =>
              (<["cost_currency" := VStr "USD"]> (<["cost" := VFloat c]> cost_data), Ok ())
          | Some None, _ =>
              (cost_data, Raise (Exception "float() argument must be a string or a real number"))
          | None, Some (Some c) =>
              (<["cost_currency" := VStr "USD"]> (<["cost" := VFloat c]> cost_data), Ok ())
          | None, Some None =>
              (cost_data, Raise (Exception "float() argument must be a string or a real number"))
          | None, None => (cost_data, Ok ())
          end in
        match priced with
        | (cd, Raise e) => (cd, Raise e)
        | (cd, Ok _) =>
            match input_tokens u, output_tokens u with
            | Some _, Some _ => (<["llm_calls" := VInt 1]> cd, Ok ())
            | _, _ => (cd, Ok ())
            end
        end
    end in
  match after_usage with
  | (cd, Raise e) => (cd, Raise e)
  | (cd, Ok _) =>
      match cd !! "cost" with
      | Some v =>
          match v with
          | VNone =>
              match number_of_steps history with
              | Ok n => (<["llm_calls" := VInt n]> (<["cost" := VNone]> cd), Ok ())
              | Raise e => (<["cost" := VNone]> cd, Raise e)
              end
          | _ => (cd, Ok ())
          end
      | None =>
          match number_of_steps history with
          | Ok n => (<["llm_calls" := VInt n]> (<["cost" := VNone]> cd), Ok ())
          | Raise e => (<["cost" := VNone]> cd, Raise e)
          end
      end
  end.

Definition extract_cost_data (history : History) (request : TaskRequest) : res dict :=
  let cost_data : dict := ∅ in
  if rq_calculate_cost request then
    match cost_try_block history cost_data with
    | (cost_data, Ok _) => Ok cost_data
    | (cost_data, Raise e) =>
        if is_Exception e then
          n ← number_of_steps history;
          Ok (<["llm_calls" := VInt n]> (<["cost" := VNone]> cost_data))
        else Raise e
    end
  else
    Ok (<["llm_calls" := VInt 0]> (<["cost" := VNone]> cost_data)).

(** One element of the [model_thoughts] list comprehension. *)
Definition thought_entry (i : Z) (thought : Thought) : value :=
  VDict (<["reasoning" := default VNone (thought_reasoning thought)]>
        (<["action" := default VNone (thought_action thought)]>
        (<["thought" := VStr (thought_str thought)]>
        (<["step" := VInt i]> ∅)))).

(** [enumerate(thoughts, start)]. *)
Fixpoint enumerate_thoughts (start : Z) (thoughts : list Thought) : list value :=
  match thoughts with
  | [] => []
  | t :: rest => thought_entry start t :: enumerate_thoughts (start + 1) rest
  end.

(** One guarded step of [extract_debug_data]:
    [try: if hasattr(history, attr): debug_data[key] = ...]
    [except Exception: debug_data[key] = []]. *)
Definition debug_step {A} (probe : option (res A)) (key : string)
    (render : A → value) (debug_data : dict) : res dict :=
  match probe with
  | None => Ok debug_data
  | Some call =>
      try_except (x ← call; mret (<[key := render x]> debug_data))
                 (fun _ => Ok (<[key := VList []]> debug_data))
  end.

Definition extract_debug_data (history : History) (request : TaskRequest) : res dict :=
  if negb (rq_debug_mode request) then Ok {[ "debug_data" := VNone ]}
  else
    let debug_data : dict := ∅ in
    debug_data ←
      debug_step (extracted_content history) "extracted_content"
                 (fun extracted => VList (VStr <$> extracted)) debug_data;
    debug_data ←
      debug_step (model_thoughts history) "model_thoughts"
                 (fun thoughts => VList (enumerate_thoughts 1 thoughts)) debug_data;
    v_duration ← total_duration_seconds history;
    v_steps ← number_of_steps history;
    v_urls ← urls history;
    v_has_errors ← has_errors history;
    let performance : dict :=
      <["has_errors" := VBool v_has_errors]>
      (<["urls_visited" := VInt (Z.of_nat (length v_urls))]>
      (<["steps" := VInt v_steps]>
      (<["total_duration" := VFloat v_duration]> ∅))) in
    Ok {[ "debug_data" := VDict (<["performance" := VDict performance]> debug_data) ]}.

Definition assemble_final_result
    (basic_result cost_data debug_data : dict)
    (downloaded_files : list string) (conversation_path : option string) : dict :=
  let result := dict_merge (dict_merge basic_result cost_data) debug_data in
  let result := <["downloaded_files" := VList (VStr <$> downloaded_files)]> result in
  <["conversation_path" := opt_str conversation_path]> result.

(** The tail of [run_agent_task] once the history is in hand: the three
    extractions and the final assembly (the ResultAggregator of the
    specification). *)
Definition aggregate_results
    (history : History) (request : TaskRequest) (gif_path : option string)
    (downloaded_files : list string) (conversation_path : option string)
    : res dict :=
  basic_result ← extract_basic_results history request gif_path;
  cost_data ← extract_cost_data history request;
  debug_result ← extract_debug_data history request;
  mret (assemble_final_result basic_result cost_data debug_result
                              downloaded_files conversation_path).

(** ** browser_api.py: the task registry *)

(** The agent handle of a task, as far as the registry uses it. *)
Record Agent := {
  get_current_state : res (option string);
}.

(** The browser process handle: what [send_signal(SIGTERM)] does. *)
Record Process := {
  send_signal : res ();
}.

Record BrowserTask := {
  bt_task_id : string;
  bt_agent : option Agent;
  bt_browser_process : option Process;
  bt_status : string;
  bt_partial_result : option string;
  bt_cancelled : bool;
}.

(** [BrowserTask.__init__]. *)
Definition BrowserTask_init (task_id : string) (agent : option Agent) : BrowserTask :=
  {| bt_task_id := task_id;
     bt_agent := agent;
     bt_browser_process := None;
     bt_status := "running";
     bt_partial_result := None;
     bt_cancelled := false |}.

(** [BrowserTask.cancel]: the updated object and whether the call raised. *)
Definition BrowserTask_cancel (self : BrowserTask) : BrowserTask * res () :=
  let self :=
    {| bt_task_id := bt_task_id self;
       bt_agent := bt_agent self;
       bt_browser_process := bt_browser_process self;
       bt_status := "cancelled";
       bt_partial_result := bt_partial_result self;
       bt_cancelled := true |} in
  match bt_browser_process self with
  | Some process => (self, try_except (send_signal process) (fun _ => Ok ()))
  | None => (self, Ok ())
  end.

Definition BrowserTask_get_partial_result (self : BrowserTask) : res (option string) :=
  match bt_agent self with
  | Some agent => get_current_state agent
  | None => Ok (bt_partial_result self)
  end.

(** The module-level dictionary [active_tasks] holds references to
    [BrowserTask] objects: [objects] is the store of allocated objects and
    [active_tasks] maps a task id to a reference. Objects are never
    freed, so a registered reference is always allocated. *)
Record Registry := {
  objects : gmap nat BrowserTask;
  active_tasks : gmap string nat;
}.

Definition empty_registry : Registry :=
  {| objects := ∅; active_tasks := ∅ |}.

(** The first reference not yet allocated. *)
Definition fresh_ref (reg : Registry) : nat :=
  fresh (dom (objects reg)).

(** [active_tasks.get(task_id)]. *)
Definition registry_get (reg : Registry) (task_id : string) : option (nat * BrowserTask) :=
  ref ← active_tasks reg !! task_id;
  task ← objects reg !! ref;
  Some (ref, task).

(** [browser_task = BrowserTask(..); active_tasks[task_id] = browser_task]. *)
Definition registry_register (reg : Registry) (task_id : string) : nat * Registry :=
  let ref := fresh_ref reg in
  (ref, {| objects := <[ref := BrowserTask_init task_id None]> (objects reg);
           active_tasks := <[task_id := ref]> (active_tasks reg) |}).

Definition not_found_message : string := "Task not found or already completed".

(** The [/cancel/{task_id}] endpoint. *)
Definition cancel_browser_task (task_id : string) (reg : Registry)
    : Registry * res dict :=
  match registry_get reg task_id with
  | None =>
      (reg, Ok (<["task_id" := VStr task_id]>
               (<["error" := VStr not_found_message]>
               (<["success" := VBool false]> ∅))))
  | Some (ref, task) =>
      let '(task, cancelled) := BrowserTask_cancel task in
      let reg := {| objects := <[ref := task]> (objects reg);
                    active_tasks := active_tasks reg |} in
      (reg,
       _ ← cancelled;
       partial ← BrowserTask_get_partial_result task;
       mret (<["partial_result" := opt_str partial]>
            (<["message" := VStr "Task cancelled"]>
            (<["task_id" := VStr task_id]>
            (<["success" := VBool true]> ∅)))))
  end.

(** Cancel requests served one after another; their replies are dropped. *)
Definition serve_cancels (task_ids : list string) (reg : Registry) : Registry :=
  foldl (fun reg task_id => fst (cancel_browser_task task_id reg)) reg task_ids.

(** ** browser_api.py: building the response *)

Definition validation_error : exn := Exception "validation error".

(** Field validation of [TaskResponse]: a value of the declared type is
    taken as it is; anything else is refused. (The result dictionary
    only ever holds values of the declared types.) *)
Definition as_bool (v : value) : res bool :=
  match v with VBool b => Ok b | _ => Raise validation_error end.

Definition as_int (v : value) : res Z :=
  match v with VInt n => Ok n | _ => Raise validation_error end.

Definition as_str (v : value) : res string :=
  match v with VStr s => Ok s | _ => Raise validation_error end.

Definition as_opt_str (v : value) : res (option string) :=
  match v with
  | VNone => Ok None
  | VStr s => Ok (Some s)
  | _ => Raise validation_error
  end.

Definition as_opt_float (v : value) : res (option Q) :=
  match v with
  | VNone => Ok None
  | VFloat q => Ok (Some q)
  | VInt n => Ok (Some (inject_Z n))
  | _ => Raise validation_error
  end.

Definition as_opt_dict (v : value) : res (option (gmap string value)) :=
  match v with
  | VNone => Ok None
  | VDict d => Ok (Some d)
  | _ => Raise validation_error
  end.

Fixpoint as_str_list_items (l : list value) : res (list string) :=
  match l with
  | [] => Ok []
  | v :: rest =>
      s ← as_str v;
      ss ← as_str_list_items rest;
      mret (s :: ss)
  end.

Definition as_str_list (v : value) : res (list string) :=
  match v with
  | VList l => as_str_list_items l
  | _ => Raise validation_error
  end.

(** Lines 156-166 of [execute_task]: the success flag. *)
Definition determine_success (result : dict) : value :=
  let success := dict_get result "is_successful" in
  match success with
  | VNone =>
      let is_done := dict_get_or result "is_done" (VBool false) in
      let has_result := truthy (dict_get result "final_result") in
      let has_errors := dict_get_or result "has_errors" (VBool false) in
      if truthy is_done then is_done
      else VBool (has_result && negb (truthy has_errors))
  | _ => success
  end.

(** Lines 194-213 of [execute_task]: the error text of the response. *)
Definition determine_error (result : dict) : res (option string) :=
  let error_messages := dict_get_or result "errors" (VList []) in
  if truthy error_messages then
    messages ← as_str_list error_messages;
    let joined_errors := join "; " messages in
    if truthy (dict_get result "openai_rate_limit") then
      mret (Some (format_openai_error_message joined_errors "rate_limit"))
    else if truthy (dict_get result "openai_empty_json") then
      mret (Some (format_openai_error_message joined_errors "empty_json"))
    else mret (Some joined_errors)
  else mret None.

(** The completion path of [execute_task] (lines 154-232): the response
    built from the result dictionary of [run_agent_task]. *)
Definition completed_response
    (task_id : string) (execution_time : Q) (result : dict) : res TaskResponse :=
  let success := determine_success result in
  error ← determine_error result;
  v_success ← as_bool success;
  v_result ← as_opt_str (dict_get result "final_result");
  v_urls ← (if truthy (dict_get result "urls")
            then as_str_list (dict_get result "urls") else Ok []);
  v_urls_visited ← as_str_list (dict_get_or result "urls" (VList []));
  v_steps ← as_int (dict_get_or result "steps" (VInt 0));
  v_gif_path ← as_opt_str (dict_get result "gif_path");
  v_judge ← as_opt_str (dict_get result "judge_verdict");
  v_cost ← as_opt_float (dict_get result "cost");
  v_currency ← as_str (dict_get_or result "cost_currency" (VStr "USD"));
  v_llm_calls ← as_int (dict_get_or result "llm_calls" (VInt 0));
  v_debug ← as_opt_dict (dict_get result "debug_data");
  v_conversation ← as_opt_str (dict_get result "conversation_path");
  v_downloads ← as_str_list (dict_get_or result "downloaded_files" (VList []));
  mret {| rs_task_id := task_id;
          rs_success := v_success;
          rs_result := v_result;
          rs_final_url := last v_urls;
          rs_urls_visited := v_urls_visited;
          rs_steps_taken := v_steps;
          rs_execution_time := execution_time;
          rs_gif_path := v_gif_path;
          rs_error := error;
          rs_judge_verdict := v_judge;
          rs_cost := v_cost;
          rs_cost_currency := v_currency;
          rs_llm_calls := v_llm_calls;
          rs_debug_data := v_debug;
          rs_conversation_path := v_conversation;
          rs_downloaded_files := v_downloads |}.

(** [response.error = ...] on a response built from the defaults. *)
Definition with_error (error : string) (execution_time : Q) (r : TaskResponse)
    : TaskResponse :=
  {| rs_task_id := rs_task_id r;
     rs_success := rs_success r;
     rs_result := rs_result r;
     rs_final_url := rs_final_url r;
     rs_urls_visited := rs_urls_visited r;
     rs_steps_taken := rs_steps_taken r;
     rs_execution_time := execution_time;
     rs_gif_path := rs_gif_path r;
     rs_error := Some error;
     rs_judge_verdict := rs_judge_verdict r;
     rs_cost := rs_cost r;
     rs_cost_currency := rs_cost_currency r;
     rs_llm_calls := rs_llm_calls r;
     rs_debug_data := rs_debug_data r;
     rs_conversation_path := rs_conversation_path r;
     rs_downloaded_files := rs_downloaded_files r |}.

(** The cancelled reply (lines 147-152): no [execution_time] is passed,
    and [partial_result] is not a field of [TaskResponse], so the value
    computed for it is dropped. *)
Definition cancelled_response (task_id : string) : TaskResponse :=
  with_error "Task cancelled" 0 (TaskResponse_defaults task_id false).

(** The reply of the [asyncio.TimeoutError] handler (lines 237-242). *)
Definition timeout_response (task_id : string) (timeout : Z) (execution_time : Q)
    : TaskResponse :=
  with_error ("Task timed out after " +:+ pretty timeout +:+ " seconds")
             execution_time (TaskResponse_defaults task_id false).

(** The reply of the [Exception] handler (lines 247-252). *)
Definition failure_response (task_id : string) (e : exn) (execution_time : Q)
    : TaskResponse :=
  with_error (exn_str e) execution_time (TaskResponse_defaults task_id false).

(** ** browser_api.py: running under the deadline *)

(** [await asyncio.wait_for(aw, timeout)]. The awaited coroutine either
    never finishes ([None]) or finishes after [d] seconds with an
    outcome. It is handed back when it finishes within the deadline;
    otherwise it is cancelled and [TimeoutError] is raised once the
    deadline has passed, [overrun >= 0] seconds later. The result pairs
    the time spent waiting with the outcome. *)
Definition wait_for {A} (aw : option (Q * res A)) (timeout : Z) (overrun : Q)
    : Q * res A :=
  match aw with
  | Some (d, outcome) =>
      if Qle_bool d (inject_Z timeout) then (d, outcome)
      else ((inject_Z timeout + overrun)%Q, Raise (TimeoutError ""))
  | None => ((inject_Z timeout + overrun)%Q, Raise (TimeoutError ""))
  end.

(** What the surroundings contribute to one call of [execute_task]. *)
Record Surroundings := {
  uuid_hex12 : string;             (* [uuid.uuid4().hex[:12]] *)
  start_time : Q;                  (* [time.time()] on entry *)
  before_wait : Q;                 (* seconds from entry to the [wait_for] call *)
  overrun : Q;                     (* seconds [wait_for] needs past the deadline *)
  after_wait : Q;                  (* seconds from [wait_for] to the next [time.time()] *)
  cancels : list string;           (* cancel requests served while awaiting *)
}.

(** Which [return] of [execute_task] produced the reply. *)
Inductive exit_path :=
  | ByCompletion
  | ByCancellation
  | ByTimeout
  | ByFailure.

(** [request.task_id or f"browser_{uuid.uuid4().hex[:12]}"]. *)
Definition assigned_task_id (request : TaskRequest) (env : Surroundings) : string :=
  match rq_task_id request with
  | Some s => if str_truthy s then s else "browser_" +:+ uuid_hex12 env
  | None => "browser_" +:+ uuid_hex12 env
  end.

(** [time.time()] as read after [wait_for] has handed control back. *)
Definition time_after_wait {A} (request : TaskRequest) (run : option (Q * res A))
    (env : Surroundings) : Q :=
  (start_time env + before_wait env
   + (wait_for run (rq_timeout request) (overrun env)).1 + after_wait env)%Q.

Definition execute_task_traced
    (request : TaskRequest) (run : option (Q * res dict))
    (env : Surroundings) (reg : Registry)
    : Registry * res (exit_path * TaskResponse) :=
  let task_id := assigned_task_id request env in
  let start_time := start_time env in
  let '(ref, reg) := registry_register reg task_id in
  let awaited := (wait_for run (rq_timeout request) (overrun env)).2 in
  let reg := serve_cancels (cancels env) reg in
  let now := time_after_wait request run env in
  let body : res (exit_path * TaskResponse) :=
    result ← awaited;
    let cancelled :=
      match objects reg !! ref with
      | Some browser_task => bt_cancelled browser_task
      | None => false
      end in
    if cancelled then
      _ ← match objects reg !! ref with
          | Some browser_task => BrowserTask_get_partial_result browser_task
          | None => Ok None
          end;
      mret (ByCancellation, cancelled_response task_id)
    else
      let execution_time := (now - start_time)%Q in
      response ← completed_response task_id execution_time result;
      mret (ByCompletion, response) in
  (reg,
   match body with
   | Ok reply => Ok reply
   | Raise e =>
       let execution_time := (now - start_time)%Q in
       if is_TimeoutError e then
         Ok (ByTimeout, timeout_response task_id (rq_timeout request) execution_time)
       else if is_Exception e then
         Ok (ByFailure, failure_response task_id e execution_time)
       else Raise e
   end).

(** The [/execute] endpoint. *)
Definition execute_task
    (request : TaskRequest) (run : option (Q * res dict))
    (env : Surroundings) (reg : Registry) : Registry * res TaskResponse :=
  let '(reg, reply) := execute_task_traced request run env reg in
  (reg, snd <$> reply).

(** ** pathlib and datetime, as far as the sources use them *)

(** An absolute path, as the list of its components below [/]. *)
Abbreviation path := (list string) (only parsing).

(** [str(p)] for an absolute path. *)
Definition path_str (p : path) : string := "/" +:+ join "/" p.

(** [Path("/home/browseruser/Downloads")]. *)
Definition downloads_root : path := ["home"; "browseruser"; "Downloads"].

(** [p.relative_to(root)]: [ValueError] unless [root] is a prefix of [p]. *)
Fixpoint relative_to (p root : path) : res path :=
  match root, p with
  | [], _ => Ok p
  | r :: root', c :: p' =>
      if String.eqb r c then relative_to p' root'
      else Raise (Exception "path is not in the subpath of the root")
  | _ :: _, [] => Raise (Exception "path is not in the subpath of the root")
  end.

(** [s[n:]]. *)
Fixpoint str_drop (n : nat) (s : string) : string :=
  match n, s with
  | S n', String _ s' => str_drop n' s'
  | _, _ => s
  end.

(** [name.rfind('.')]. *)
Fixpoint rfind_dot (name : string) : option nat :=
  match name with
  | EmptyString => None
  | String c rest =>
      match rfind_dot rest with
      | Some i => Some (S i)
      | None => if Ascii.eqb c "." then Some 0%nat else None
      end
  end.

(** Where [Path.suffix] and [Path.stem] split a file name: at the last
    dot, unless that dot is the first or the last character. *)
Definition split_point (name : string) : option nat :=
  match rfind_dot name with
  | Some i => if (0 <? i)%nat && (i <? String.length name - 1)%nat
              then Some i else None
  | None => None
  end.

Definition suffix (name : string) : string :=
  match split_point name with
  | Some i => str_drop i name
  | None => ""
  end.

Definition stem (name : string) : string :=
  match split_point name with
  | Some i => str_take i name
  | None => name
  end.

Record datetime := {
  dt_year : nat;
  dt_month : nat;
  dt_day : nat;
  dt_hour : nat;
  dt_minute : nat;
  dt_second : nat;
  dt_microsecond : nat;
}.

(** [%m], [%d], [%H], [%M], [%S]: two digits, zero-padded. *)
Definition pad2 (n : nat) : string :=
  if (n <? 10)%nat then "0" +:+ pretty n else pretty n.

(** [now.strftime("%Y%m%d_%H%M%S")]. *)
Definition strftime_compact (now : datetime) : string :=
  pretty (dt_year now) +:+ pad2 (dt_month now) +:+ pad2 (dt_day now) +:+ "_"
  +:+ pad2 (dt_hour now) +:+ pad2 (dt_minute now) +:+ pad2 (dt_second now).

(** [now.strftime("%Y-%m-%d_%H-%M-%S")]. *)
Definition strftime_dashed (now : datetime) : string :=
  pretty (dt_year now) +:+ "-" +:+ pad2 (dt_month now) +:+ "-" +:+ pad2 (dt_day now)
  +:+ "_" +:+ pad2 (dt_hour now) +:+ "-" +:+ pad2 (dt_minute now) +:+ "-"
  +:+ pad2 (dt_second now).

(** ** result_processing.py: download reconciliation *)

(** An entry of a scratch directory: [is_file()] holds of a regular file. *)
Inductive node :=
  | RegularFile (content : string)
  | OtherNode.

(** What the file system holds for [handle_downloads]: the regular files
    of the target download directory by name, and what
    [Path("/tmp").glob("browser_use_agent_*/browseruse_agent_data")]
    returns, each match with its entries in [iterdir] order ([None] when
    the match is not a directory). *)
Record DownloadFs := {
  target : gmap string string;
  scratch : list (string * option (list (string * node)));
}.

(** What the surroundings answer during reconciliation. *)
Record DownloadEnv := {
  clock : nat → datetime;              (* the successive [datetime.now()] *)
  move_fails : string → string → bool; (* [shutil.move] raises: directory, name *)
  rmtree_fails : string → bool;        (* [shutil.rmtree] raises: directory *)
}.

(** The name the conflict branch builds: [f"{stem}_{timestamp}{suffix}"]. *)
Definition timestamped (now : datetime) (name : string) : string :=
  stem name +:+ "_" +:+ strftime_compact now +:+ suffix name.

(** The variables the loops of [handle_downloads] update. *)
Record DownloadState := {
  ds_target : gmap string string;
  ds_ticks : nat;                      (* clock reads so far *)
  ds_downloaded_files : list string;
  ds_left : list (string * node);      (* entries still in the directory *)
}.

(** The body of the inner loop, for one entry of [tmp_dir]. *)
Definition move_entry (env : DownloadEnv) (download_dir : path) (tmp_dir : string)
    (st : DownloadState) (entry : string * node) : DownloadState :=
  match entry.2 with
  | OtherNode =>
      {| ds_target := ds_target st; ds_ticks := ds_ticks st;
         ds_downloaded_files := ds_downloaded_files st;
         ds_left := ds_left st ++ [entry] |}
  | RegularFile content =>
      let name := entry.1 in
      let '(dest_name, ticks) :=
        if bool_decide (is_Some (ds_target st !! name))
        then (timestamped (clock env (ds_ticks st)) name, S (ds_ticks st))
        else (name, ds_ticks st) in
      if move_fails env tmp_dir name then
        {| ds_target := ds_target st; ds_ticks := ticks;
           ds_downloaded_files := ds_downloaded_files st;
           ds_left := ds_left st ++ [entry] |}
      else
        let moved := <[dest_name := content]> (ds_target st) in
        match relative_to (download_dir ++ [dest_name]) downloads_root with
        | Ok relative_path =>
            {| ds_target := moved; ds_ticks := ticks;
               ds_downloaded_files :=
                 ds_downloaded_files st ++ [join "/" relative_path];
               ds_left := ds_left st |}
        | Raise _ =>
            {| ds_target := moved; ds_ticks := ticks;
               ds_downloaded_files := ds_downloaded_files st;
               ds_left := ds_left st |}
        end
  end.

(** The inner loop over [tmp_dir.iterdir()]. *)
Definition move_entries (env : DownloadEnv) (download_dir : path) (tmp_dir : string)
    (entries : list (string * node)) (st : DownloadState) : DownloadState :=
  foldl (move_entry env download_dir tmp_dir) st entries.

(** The loops' variables together with the scratch directories that are
    still there once their turn has passed. *)
Abbreviation sweep :=
  (DownloadState * list (string * option (list (string * node))))%type
  (only parsing).

(** The body of the outer loop, for one match of the glob. *)
Definition process_scratch (env : DownloadEnv) (download_dir : path)
    (acc : sweep) (dir : string * option (list (string * node))) : sweep :=
  let '(st, remaining) := acc in
  match dir.2 with
  | None => (st, remaining ++ [dir])
  | Some entries =>
      let st := move_entries env download_dir dir.1 entries
                  {| ds_target := ds_target st; ds_ticks := ds_ticks st;
                     ds_downloaded_files := ds_downloaded_files st;
                     ds_left := [] |} in
      if rmtree_fails env dir.1
      then (st, remaining ++ [(dir.1, Some (ds_left st))])
      else (st, remaining)
  end.

Definition handle_downloads (env : DownloadEnv) (download_dir : path) (fs : DownloadFs)
    : list string * DownloadFs :=
  let start := {| ds_target := target fs; ds_ticks := 0;
                  ds_downloaded_files := []; ds_left := [] |} in
  let '(st, remaining) :=
    foldl (process_scratch env download_dir) (start, []) (scratch fs) in
  (ds_downloaded_files st, {| target := ds_target st; scratch := remaining |}).

(** ** The browser session, as the sources drive it *)

(** The live page: its origin and its [sessionStorage]. *)
Record Page := {
  page_origin : string;
  session_storage : gmap string string;
}.

(** The string-valued own properties of a JavaScript object that is
    given these entries, by assignment [data[key] = value] or as the
    object literal that [json.dumps] prints: every entry but one under
    the key [__proto__], which sets no property when its value is a
    string. *)
Definition js_object (entries : gmap string string) : gmap string string :=
  delete "__proto__" entries.

(** The JSON document [{"origin": .., "data": {..}}]. *)
Record SessionDocument := {
  doc_origin : string;
  doc_data : gmap string string;
}.

(** What [session_storage.json] holds: a document of the shape the
    export writes, or text that [json.load] rejects. *)
Inductive file_content :=
  | Document (doc : SessionDocument)
  | Unparsable.

(** The text between the quotes of ['{origin}'] is the origin itself
    when it has no quote, backslash or line break. *)
Fixpoint origin_literal_ok (origin : string) : bool :=
  match origin with
  | EmptyString => true
  | String c rest =>
      negb (Ascii.eqb c "'") && negb (Ascii.eqb c "\")
      && negb (Ascii.eqb c (ascii_of_nat 10)) && negb (Ascii.eqb c (ascii_of_nat 13))
      && origin_literal_ok rest
  end.

(** The restoration script that [restore_session_storage] formats: the
    string its origin test compares with ([None] when the interpolated
    text does not form that literal, in which case the script restores
    nothing) and the object [storage]. *)
Record InitScript := {
  gate : option string;
  storage : gmap string string;
}.

Definition restoration_script (origin : string) (data : gmap string string)
    : InitScript :=
  {| gate := if origin_literal_ok origin then Some origin else None;
     storage := js_object data |}.

(** Running the script in a page:
    [if (window.location.origin === '..') for (const [key, value] of
    Object.entries(storage)) window.sessionStorage.setItem(key, value)]. *)
Definition run_init_script (page : Page) (script : InitScript) : Page :=
  match gate script with
  | Some origin =>
      if String.eqb (page_origin page) origin
      then {| page_origin := page_origin page;
              session_storage := storage script ∪ session_storage page |}
      else page
  | None => page
  end.

(** A page load: the registered init scripts run, in order, before any
    script of the page. *)
Definition load_page (init_scripts : list InitScript) (page : Page) : Page :=
  foldl run_init_script page init_scripts.

(** The export script: [JSON.stringify({origin: window.location.origin,
    data: data})], with [data] filled key by key from [sessionStorage]. *)
Definition capture (page : Page) : SessionDocument :=
  {| doc_origin := page_origin page;
     doc_data := js_object (session_storage page) |}.

(** The calls made on the browser and the agent, in order. *)
Inductive call :=
  | CallStart
  | CallAddInitScript
  | CallAgentRun
  | CallExportStorageState
  | CallGetCurrentPage
  | CallEvaluate
  | CallStop.

#[global] Instance call_eq_dec : EqDecision call.
Proof. solve_decision. Defined.

(** What a run of [run_agent_task] reads and writes. *)
Record Machine := {
  calls : list call;
  init_scripts : list InitScript;
  session_files : gmap path file_content;
  storage_state_files : gmap path string;
  download_fs : DownloadFs;
}.

(** How the collaborators answer during one run. *)
Record Driver := {
  setup_llms_outcome : res ();
  mkdir_outcome : res ();
  create_browser_outcome : res ();
  start_outcome : res ();
  add_init_script_outcome : res ();
  create_agent_outcome : res ();
  run_outcome : res History;
  export_storage_state_outcome : res string;
  current_page : res (option Page);
  evaluate_outcome : res ();
  write_outcome : res ();
  stop_outcome : res ();
  conversation_uuid8 : string;
  conversation_now : datetime;
  task_uuid8 : string;
  download_env : DownloadEnv;
}.

(** Code that updates the machine and may raise. *)
Definition M (A : Type) : Type := Machine → Machine * res A.

#[global] Instance M_ret : MRet M := fun A a m => (m, Ok a).

#[global] Instance M_bind : MBind M := fun A B k c m =>
  match c m with
  | (m', Ok a) => k a m'
  | (m', Raise e) => (m', Raise e)
  end.

Definition lift {A} (r : res A) : M A := fun m => (m, r).

(** [try: body finally: final]: [final] always runs; if it raises, its
    exception is the one that propagates. *)
Definition try_finally {A} (body : M A) (final : M ()) : M A := fun m =>
  let '(m1, r) := body m in
  match final m1 with
  | (m2, Ok _) => (m2, r)
  | (m2, Raise e) => (m2, Raise e)
  end.

(** [try: body except Exception: handler]. *)
Definition try_except_M {A} (body : M A) (handler : exn → M A) : M A := fun m =>
  match body m with
  | (m1, Ok a) => (m1, Ok a)
  | (m1, Raise e) => if is_Exception e then handler e m1 else (m1, Raise e)
  end.

(** A call on the browser or the agent: recorded, then answered. *)
Definition call_driver {A} (c : call) (outcome : res A) : M A := fun m =>
  ({| calls := calls m ++ [c];
      init_scripts := init_scripts m;
      session_files := session_files m;
      storage_state_files := storage_state_files m;
      download_fs := download_fs m |}, outcome).

Definition register_init_script (script : InitScript) : M () := fun m =>
  ({| calls := calls m;
      init_scripts := init_scripts m ++ [script];
      session_files := session_files m;
      storage_state_files := storage_state_files m;
      download_fs := download_fs m |}, Ok ()).

Definition write_session_file (p : path) (doc : SessionDocument) : M () := fun m =>
  ({| calls := calls m;
      init_scripts := init_scripts m;
      session_files := <[p := Document doc]> (session_files m);
      storage_state_files := storage_state_files m;
      download_fs := download_fs m |}, Ok ()).

Definition write_storage_state (p : path) (blob : string) : M () := fun m =>
  ({| calls := calls m;
      init_scripts := init_scripts m;
      session_files := session_files m;
      storage_state_files := <[p := blob]> (storage_state_files m);
      download_fs := download_fs m |}, Ok ()).

Definition read_session_file (p : path) : M (option file_content) := fun m =>
  (m, Ok (session_files m !! p)).

(** ** agent_setup.py *)

(** [f"customer_{request.customer_id}" if request.customer_id else ..]:
    the id [0] is falsy. *)
Definition customer_dir (request : TaskRequest) : option string :=
  match rq_customer_id request with
  | Some n => if (n =? 0)%Z then None else Some ("customer_" +:+ pretty n)
  | None => None
  end.

(** [setup_directories]: the conversation file name, the download
    directory and the task directory name.  The [os.chdir] into the
    download directory is left out. *)
Definition setup_directories (request : TaskRequest) (drv : Driver)
    : M (option string * path * string) :=
  conversation_path ←
    (if rq_save_conversation request then
       let conv_dir := ["home"; "browseruser"; ".conversations";
                        default "default" (customer_dir request)] in
       _ ← lift (mkdir_outcome drv);
       let timestamp := strftime_dashed (conversation_now drv) in
       mret (Some (path_str (conv_dir ++
               ["task_" +:+ conversation_uuid8 drv +:+ "_" +:+ timestamp +:+ ".json"])))
     else mret None);
  let task_dir_name := "task_" +:+ task_uuid8 drv in
  let download_dir :=
    downloads_root ++ [default "default" (customer_dir request); task_dir_name] in
  _ ← lift (mkdir_outcome drv);
  mret (conversation_path, download_dir, task_dir_name).

Definition setup_browser_profile (request : TaskRequest) (drv : Driver)
    : M (option path * option path) :=
  if negb (rq_session_enabled request) then mret (None, None)
  else
    let customer_dir := ["storage"; "auth"; default "default" (customer_dir request)] in
    _ ← lift (mkdir_outcome drv);
    mret (Some (customer_dir ++ ["storage_state.json"]),
          Some (customer_dir ++ ["session_storage.json"])).

Definition restore_session_storage (drv : Driver) (session_storage_path : path)
    : M () :=
  content ← read_session_file session_storage_path;
  match content with
  | None => mret ()
  | Some content =>
      try_except_M
        (session_data ← lift (match content with
                              | Document doc => Ok doc
                              | Unparsable => Raise (Exception "JSONDecodeError")
                              end);
         let origin := doc_origin session_data in
         let data := doc_data session_data in
         if bool_decide (data = ∅) then mret ()
         else
           let script := restoration_script origin data in
           _ ← call_driver CallAddInitScript (add_init_script_outcome drv);
           register_init_script script)
        (fun _ => mret ())
  end.

(** [create_agent]: the GIF path it returns. *)
Definition create_agent (request : TaskRequest) (drv : Driver)
    (download_dir : path) (task_dir_name : string) : M (option string) :=
  _ ← lift (create_agent_outcome drv);
  mret (if rq_generate_gif request
        then Some (path_str (download_dir ++ ["task_" +:+ task_dir_name +:+ ".gif"]))
        else None).

(** ** agent_runner.py *)

Definition export_session_storage (drv : Driver) (output_path : path) : M () :=
  try_except_M
    (page ← call_driver CallGetCurrentPage (current_page drv);
     match page with
     | None => mret ()
     | Some page =>
         _ ← call_driver CallEvaluate (evaluate_outcome drv);
         let session_storage_data := capture page in
         _ ← lift (mkdir_outcome drv);
         _ ← lift (write_outcome drv);
         write_session_file output_path session_storage_data
     end)
    (fun _ => mret ()).

Definition reconcile_downloads (drv : Driver) (download_dir : path)
    : M (list string) := fun m =>
  let '(downloaded_files, fs) :=
    handle_downloads (download_env drv) download_dir (download_fs m) in
  ({| calls := calls m;
      init_scripts := init_scripts m;
      session_files := session_files m;
      storage_state_files := storage_state_files m;
      download_fs := fs |}, Ok downloaded_files).

(** The statements of [run_agent_task] from [agent.run] to the end of
    the [finally] clause. *)
Definition run_and_release (request : TaskRequest) (drv : Driver)
    (storage_state_path session_storage_path : option path) : M History :=
  try_finally
    (history ← call_driver CallAgentRun (run_outcome drv);
     _ ← match storage_state_path with
         | Some state_path =>
             try_except_M
               (_ ← lift (mkdir_outcome drv);
                blob ← call_driver CallExportStorageState
                         (export_storage_state_outcome drv);
                _ ← write_storage_state state_path blob;
                match session_storage_path with
                | Some session_path => export_session_storage drv session_path
                | None => mret ()
                end)
               (fun _ => mret ())
         | None => mret ()
         end;
     mret history)
    (try_except_M (call_driver CallStop (stop_outcome drv)) (fun _ => mret ())).

Definition run_agent_task (request : TaskRequest) (drv : Driver) : M dict :=
  _ ← lift (setup_llms_outcome drv);
  '(conversation_path, download_dir, task_dir_name) ← setup_directories request drv;
  '(storage_state_path, session_storage_path) ← setup_browser_profile request drv;
  _ ← lift (create_browser_outcome drv);
  _ ← call_driver CallStart (start_outcome drv);
  _ ← match session_storage_path with
      | Some session_path => restore_session_storage drv session_path
      | None => mret ()
      end;
  gif_path ← create_agent request drv download_dir task_dir_name;
  history ← run_and_release request drv storage_state_path session_storage_path;
  downloaded_files ← reconcile_downloads drv download_dir;
  lift (aggregate_results history request gif_path downloaded_files conversation_path).

(** [run_agent_task] as [execute_task] awaits it: the run takes
    [elapsed] seconds from the machine [m]. *)
Definition awaited_run (request : TaskRequest) (drv : Driver) (m : Machine)
    (elapsed : Q) : option (Q * res dict) :=
  Some (elapsed, (run_agent_task request drv m).2).

(** ** Vocabulary of the statements *)

(** The answers a history gives to the queries that the code makes
    unconditionally. *)
Record Core := {
  c_errors : list (option string);
  c_final_result : option string;
  c_is_done : bool;
  c_is_successful : option bool;
  c_has_errors : bool;
  c_urls : list string;
  c_steps : Z;
  c_duration : Q;
}.

(** Every unconditional query of [h] succeeds, with the answers [c]. *)
Definition answers (h : History) (c : Core) : Prop :=
  errors h = Ok (c_errors c) ∧ final_result h = Ok (c_final_result c)
  ∧ is_done h = Ok (c_is_done c) ∧ is_successful h = Ok (c_is_successful c)
  ∧ has_errors h = Ok (c_has_errors c) ∧ urls h = Ok (c_urls c)
  ∧ number_of_steps h = Ok (c_steps c)
  ∧ total_duration_seconds h = Ok (c_duration c).

(** An optional query that, if it fails, fails with an [Exception]
    (not with a [BaseException] such as [CancelledError]). *)
Definition guarded {A} (probe : option (res A)) : Prop :=
  ∀ e, probe = Some (Raise e) → is_Exception e = true.

Definition opt_float (o : option Q) : value :=
  match o with None => VNone | Some q => VFloat q end.

(** The keys [extract_basic_results] may set. *)
Definition basic_keys : list string :=
  [ "final_result"; "is_done"; "is_successful"; "has_errors"; "urls"; "steps";
    "duration"; "errors"; "openai_empty_json"; "openai_rate_limit";
    "judge_verdict"; "gif_path" ].

(** [bool(final_result)]. *)
Definition has_result (final : option string) : bool :=
  match final with Some s => str_truthy s | None => false end.

(** The text that lines 194-213 of [execute_task] put in [error], on the
    error strings [errs] of the history. *)
Definition error_text (llm_provider : string) (errs : list string) : option string :=
  match errs with
  | [] => None
  | _ =>
      if (classify_errors llm_provider errs).2
      then Some (format_openai_error_message (join "; " errs) "rate_limit")
      else if (classify_errors llm_provider errs).1
      then Some (format_openai_error_message (join "; " errs) "empty_json")
      else Some (join "; " errs)
  end.

(** The reply of the completion path, field by field. *)
Definition completed_reply (c : Core) (request : TaskRequest)
    (gif_path : option string) (verdict : option string) (price : option Q)
    (calls : option Z) (debug : option value) (conv : option string)
    (downloads : list string) (task_id : string) (t : Q) : TaskResponse :=
  {| rs_task_id := task_id;
     rs_success :=
       match c_is_successful c with
       | Some b => b
       | None => c_is_done c
                 || (has_result (c_final_result c) && negb (c_has_errors c))
       end;
     rs_result := c_final_result c;
     rs_final_url := last (c_urls c);
     rs_urls_visited := c_urls c;
     rs_steps_taken := c_steps c;
     rs_execution_time := t;
     rs_gif_path := if rq_generate_gif request then gif_path else None;
     rs_error :=
       error_text (rq_llm_provider request) (truthy_errors (c_errors c));
     rs_judge_verdict := verdict;
     rs_cost := price;
     rs_cost_currency := "USD";
     rs_llm_calls := default 0%Z calls;
     rs_debug_data :=
       match debug with
       | Some (VDict bundle) => Some bundle
       | _ => None
       end;
     rs_conversation_path := conv;
     rs_downloaded_files := downloads |}.

(** The usage record carries no directly computed cost. *)
Definition lacks_direct_cost (h : History) : Prop :=
  usage h = None ∨ usage h = Some (Ok None)
  ∨ ∃ u, usage h = Some (Ok (Some u)) ∧ total_cost u = None ∧ cost u = None.

(** Reading the cost raises: the [usage] attribute itself, or [float()]
    on a cost that is [None]. *)
Definition cost_extraction_fails (h : History) : Prop :=
  (∃ e, usage h = Some (Raise e))
  ∨ ∃ u, usage h = Some (Ok (Some u))
         ∧ (total_cost u = Some None ∨ (total_cost u = None ∧ cost u = Some None)).

(** ** Concrete inputs of the examples *)

Definition sample_request : TaskRequest :=
  {| rq_task := "Download the monthly report";
     rq_task_id := Some "t1";
     rq_llm_provider := "openai";
     rq_max_steps := 100;
     rq_generate_gif := false;
     rq_timeout := 900;
     rq_calculate_cost := true;
     rq_debug_mode := true;
     rq_save_conversation := false;
     rq_customer_id := Some 7%Z;
     rq_session_enabled := true |}.

Definition sample_core : Core :=
  {| c_errors := [None; Some "Error code: 429 - rate_limit_exceeded"];
     c_final_result := Some "report.pdf saved";
     c_is_done := true;
     c_is_successful := None;
     c_has_errors := true;
     c_urls := ["https://example.com/reports"];
     c_steps := 3;
     c_duration := 12 |}.

(** A history without usage record, whose judge-verdict query raises. *)
Definition sample_history : History :=
  {| errors := Ok (c_errors sample_core);
     final_result := Ok (c_final_result sample_core);
     is_done := Ok (c_is_done sample_core);
     is_successful := Ok (c_is_successful sample_core);
     has_errors := Ok (c_has_errors sample_core);
     urls := Ok (c_urls sample_core);
     number_of_steps := Ok (c_steps sample_core);
     total_duration_seconds := Ok (c_duration sample_core);
     judgement := Some (Raise (Exception "judge unavailable"));
     usage := None;
     extracted_content := Some (Ok ["Monthly report"]);
     model_thoughts := None |}.

(** A history whose usage record carries a total cost. *)
Definition priced_history : History :=
  {| errors := errors sample_history;
     final_result := final_result sample_history;
     is_done := is_done sample_history;
     is_successful := is_successful sample_history;
     has_errors := has_errors sample_history;
     urls := urls sample_history;
     number_of_steps := number_of_steps sample_history;
     total_duration_seconds := total_duration_seconds sample_history;
     judgement := None;
     usage := Some (Ok (Some {| total_cost := Some (Some (1 # 4));
                                cost := None;
                                input_tokens := Some 1200%Z;
                                output_tokens := Some 300%Z |}));
     extracted_content := None;
     model_thoughts := None |}.

Definition sample_surroundings : Surroundings :=
  {| uuid_hex12 := "0123456789ab";
     start_time := 1000;
     before_wait := 0;
     overrun := 1 # 10;
     after_wait := 0;
     cancels := [] |}.

Definition sample_datetime : datetime :=
  {| dt_year := 2024; dt_month := 1; dt_day := 1;
     dt_hour := 12; dt_minute := 0; dt_second := 0; dt_microsecond := 0 |}.

(** A file system on which every move and every removal succeeds. *)
Definition quiet_download_env : DownloadEnv :=
  {| clock := fun _ => sample_datetime;
     move_fails := fun _ _ => false;
     rmtree_fails := fun _ => false |}.

Definition sample_page : Page :=
  {| page_origin := "https://example.com";
     session_storage := {[ "a" := "1"; "b" := "2" ]} |}.

(** Collaborators that answer every call normally. *)
Definition cooperative_driver : Driver :=
  {| setup_llms_outcome := Ok ();
     mkdir_outcome := Ok ();
     create_browser_outcome := Ok ();
     start_outcome := Ok ();
     add_init_script_outcome := Ok ();
     create_agent_outcome := Ok ();
     run_outcome := Ok sample_history;
     export_storage_state_outcome := Ok "{}";
     current_page := Ok (Some sample_page);
     evaluate_outcome := Ok ();
     write_outcome := Ok ();
     stop_outcome := Ok ();
     conversation_uuid8 := "89abcdef";
     conversation_now := sample_datetime;
     task_uuid8 := "01234567";
     download_env := quiet_download_env |}.

(** The same collaborators, except that the [Agent] constructor called
    by [create_agent] raises. *)
Definition failing_agent_driver : Driver :=
  {| setup_llms_outcome := Ok ();
     mkdir_outcome := Ok ();
     create_browser_outcome := Ok ();
     start_outcome := Ok ();
     add_init_script_outcome := Ok ();
     create_agent_outcome := Raise (Exception "Agent could not be created");
     run_outcome := Ok sample_history;
     export_storage_state_outcome := Ok "{}";
     current_page := Ok (Some sample_page);
     evaluate_outcome := Ok ();
     write_outcome := Ok ();
     stop_outcome := Ok ();
     conversation_uuid8 := "89abcdef";
     conversation_now := sample_datetime;
     task_uuid8 := "01234567";
     download_env := quiet_download_env |}.

(** The same collaborators, except that the task is cancelled while
    [restore_session_storage] awaits [_cdp_add_init_script]. *)
Definition cancelled_restore_driver : Driver :=
  {| setup_llms_outcome := Ok ();
     mkdir_outcome := Ok ();
     create_browser_outcome := Ok ();
     start_outcome := Ok ();
     add_init_script_outcome := Raise CancelledError;
     create_agent_outcome := Ok ();
     run_outcome := Ok sample_history;
     export_storage_state_outcome := Ok "{}";
     current_page := Ok (Some sample_page);
     evaluate_outcome := Ok ();
     write_outcome := Ok ();
     stop_outcome := Ok ();
     conversation_uuid8 := "89abcdef";
     conversation_now := sample_datetime;
     task_uuid8 := "01234567";
     download_env := quiet_download_env |}.

Definition empty_machine : Machine :=
  {| calls := [];
     init_scripts := [];
     session_files := ∅;
     storage_state_files := ∅;
     download_fs := {| target := ∅; scratch := [] |} |}.

(** A machine that holds the session storage of customer 7 from an
    earlier run. *)
Definition returning_machine : Machine :=
  {| calls := [];
     init_scripts := [];
     session_files :=
       {[ ["storage"; "auth"; "customer_7"; "session_storage.json"]
          := Document (capture sample_page) ]};
     storage_state_files := ∅;
     download_fs := {| target := ∅; scratch := [] |} |}.

(** A later run: a new browser, with no call made and no init script
    registered yet, on the files the earlier run left. *)
Definition relaunch (m : Machine) : Machine :=
  {| calls := [];
     init_scripts := [];
     session_files := session_files m;
     storage_state_files := storage_state_files m;
     download_fs := download_fs m |}.

(** No directory is left at the scratch path [dir]. *)
Definition scratch_gone (fs : DownloadFs) (dir : string) : Prop :=
  ∀ left, (dir, Some left) ∉ scratch fs.

Definition sample_download_dir : list string :=
  downloads_root ++ ["customer_7"; "task_01234567"].

Definition sample_scratch_dir : string :=
  "/tmp/browser_use_agent_1/browseruse_agent_data".

(** The target directory already holds [report.pdf]; the scratch
    directory holds a new [report.pdf] and [notes.txt]. *)
Definition colliding_fs : DownloadFs :=
  {| target := {[ "report.pdf" := "old report" ]};
     scratch := [ (sample_scratch_dir,
                   Some [ ("report.pdf", RegularFile "new report");
                          ("notes.txt", RegularFile "notes") ]) ] |}.

(** A file system on which the scratch directory cannot be removed. *)
Definition stubborn_download_env : DownloadEnv :=
  {| clock := fun _ => sample_datetime;
     move_fails := fun _ _ => false;
     rmtree_fails := fun _ => true |}.

(** Every path of the returned list is the path, relative to the
    downloads root, of a file of the target directory. *)
Definition tracked (download_dir : list string)
    (target : gmap string string) (files : list string) : Prop :=
  ∀ f, f ∈ files →
    ∃ name relative_path,
      relative_to (download_dir ++ [name]) downloads_root = Ok relative_path
      ∧ f = join "/" relative_path
      ∧ is_Some (target !! name).

(** The file [name] is in the target directory, under its own name or
    under a timestamped one. *)
Definition arrived (env : DownloadEnv) (name : string)
    (target : gmap string string) (_ : list string) : Prop :=
  ∃ dest, is_Some (target !! dest)
          ∧ (dest = name ∨ ∃ k, dest = timestamped (clock env k) name).

(** The file [name] is in the target directory under a timestamped
    name. *)
Definition renamed (env : DownloadEnv) (name : string)
    (target : gmap string string) (_ : list string) : Prop :=
  ∃ k, is_Some (target !! timestamped (clock env k) name).

(** A property of the target directory and of the list being built
    that no step of the inner loop of [handle_downloads] breaks. *)
Definition step_closed (env : DownloadEnv) (download_dir : list string)
    (P : gmap string string → list string → Prop) : Prop :=
  ∀ tmp_dir st entry,
    P (ds_target st) (ds_downloaded_files st) →
    P (ds_target (move_entry env download_dir tmp_dir st entry))
      (ds_downloaded_files (move_entry env download_dir tmp_dir st entry)).

(** The calls that export session state. *)
Definition export_call (c : call) : Prop :=
  c = CallExportStorageState ∨ c = CallGetCurrentPage ∨ c = CallEvaluate.

(** ** utils.py: the vision setting *)

(** [normalize_use_vision]: the argument is a [bool] or a [str]; any
    other value falls through to ["auto"]. *)
Definition normalize_use_vision (v : value) : value :=
  match v with
  | VBool b => VBool b
  | VStr s =>
      let lower := lower s in
      if String.eqb lower "true" then VBool true
      else if String.eqb lower "false" then VBool false
      else VStr "auto"
  | _ => VStr "auto"
  end.

(** ** llm_factory.py *)

(** The LLM object that [create_llm] constructs: the class and the
    arguments passed to it. *)
Inductive LLM :=
  | ChatBrowserUse
  | ChatGoogle (model : string)
  | ChatOpenAI (model : string)
  | ChatAnthropic (model : string) (temperature : Q).

(** The [model=] argument of the constructed object, if it takes one. *)
Definition llm_model (llm : LLM) : option string :=
  match llm with
  | ChatBrowserUse => None
  | ChatGoogle model => Some model
  | ChatOpenAI model => Some model
  | ChatAnthropic model _ => Some model
  end.

(** [from browser_use import name]: [ImportError] when the installed
    library does not provide the class. *)
Definition import_from_browser_use (available : string → bool) (name : string)
    : res () :=
  if available name then Ok ()
  else Raise (Exception ("cannot import name '" +:+ name +:+ "' from 'browser_use'")).

(** [model or dflt]. *)
Definition model_or (model : option string) (dflt : string) : string :=
  match model with
  | Some s => if str_truthy s then s else dflt
  | None => dflt
  end.

Definition create_llm (available : string → bool)
    (provider : string) (model : option string) (temperature : Q) : res LLM :=
  let provider := lower provider in
  if String.eqb provider "browseruse" then
    _ ← import_from_browser_use available "ChatBrowserUse";
    mret ChatBrowserUse
  else if String.eqb provider "gemini" || String.eqb provider "google" then
    _ ← import_from_browser_use available "ChatGoogle";
    let model_name := model_or model "gemini-flash-latest" in
    mret (ChatGoogle model_name)
  else if String.eqb provider "openai" then
    _ ← import_from_browser_use available "ChatOpenAI";
    let model_name := model_or model "gpt-5-mini" in
    mret (ChatOpenAI model_name)
  else if String.eqb provider "anthropic" then
    _ ← import_from_browser_use available "ChatAnthropic";
    let model_name := model_or model "claude-haiku-4-5" in
    mret (ChatAnthropic model_name temperature)
  else
    _ ← import_from_browser_use available "ChatGoogle";
    mret (ChatGoogle "gemini-flash-latest").

Definition get_default_model (provider : string) : string :=
  let defaults : gmap string string :=
    <["anthropic" := "claude-haiku-4-5"]>
    (<["openai" := "gpt-5-mini"]>
    (<["google" := "gemini-flash-latest"]>
    (<["gemini" := "gemini-flash-latest"]>
    (<["browseruse" := "browseruse-default"]> ∅)))) in
  default "gemini-flash-latest" (defaults !! lower provider).

(** The provider names that [create_llm] tells apart. *)
Definition known_providers : list string :=
  ["browseruse"; "gemini"; "google"; "openai"; "anthropic"].

(** ** agent_setup.py: the LLMs, the browser and the agent *)

(** The fields of [TaskRequest] that only the set-up functions read. *)
Record SetupOptions := {
  rq_llm_model : option string;
  rq_page_extraction_llm_provider : option string;
  rq_page_extraction_llm_model : option string;
  rq_use_vision : value;
  rq_llm_timeout : Z;
  rq_step_timeout : Z;
  rq_headless : bool;
  rq_window_width : Z;
  rq_window_height : Z;
}.

(** [setup_llms]; [temperature] takes its default [0.0]. *)
Definition setup_llms (available : string → bool)
    (request : TaskRequest) (options : SetupOptions) : res (LLM * option LLM) :=
  llm ← create_llm available (rq_llm_provider request) (rq_llm_model options) 0;
  page_extraction_llm ←
    match rq_page_extraction_llm_provider options with
    | Some provider =>
        if str_truthy provider
        then Some <$> create_llm available provider
                        (rq_page_extraction_llm_model options) 0
        else Ok None
    | None => Ok None
    end;
  mret (llm, page_extraction_llm).

(** The keyword arguments that [create_browser] passes to [Browser]. *)
Record BrowserKwargs := {
  bk_headless : bool;
  bk_window_size : Z * Z;              (* width, height *)
  bk_chromium_sandbox : bool;
  bk_highlight_elements : bool;
  bk_accept_downloads : bool;
  bk_downloads_path : string;
  bk_storage_state : option string;
  bk_user_data_dir : option string;
  bk_keep_alive : bool;
}.

(** [create_browser]: [storage_state_path.exists()] is read off the
    machine; the import of [Browser] and its constructor answer with
    [create_browser_outcome]. *)
Definition create_browser (options : SetupOptions) (drv : Driver)
    (download_dir : path) (storage_state_path : option path) : M BrowserKwargs :=
  fun m =>
    let storage_state :=
      match storage_state_path with
      | Some p => if bool_decide (is_Some (storage_state_files m !! p))
                  then Some (path_str p) else None
      | None => None
      end in
    (m,
     _ ← create_browser_outcome drv;
     mret {| bk_headless := rq_headless options;
             bk_window_size := (rq_window_width options, rq_window_height options);
             bk_chromium_sandbox := false;
             bk_highlight_elements := true;
             bk_accept_downloads := true;
             bk_downloads_path := path_str download_dir;
             bk_storage_state := storage_state;
             bk_user_data_dir := None;
             bk_keep_alive := true |}).

(** The keyword arguments that [create_agent] passes to [Agent]; a key
    that is set only under a condition is [None] when it is not set. *)
Record AgentKwargs := {
  ak_task : string;
  ak_llm : LLM;
  ak_browser : BrowserKwargs;
  ak_use_vision : value;
  ak_calculate_cost : bool;
  ak_llm_timeout : Z;
  ak_step_timeout : Z;
  ak_available_file_paths : list string;
  ak_save_conversation_path : option string;
  ak_page_extraction_llm : option LLM;
  ak_generate_gif : option string;
}.

Definition agent_kwargs (request : TaskRequest) (options : SetupOptions)
    (llm : LLM) (page_extraction_llm : option LLM) (browser : BrowserKwargs)
    (download_dir : path) (task_dir_name : string)
    (conversation_path : option string) : AgentKwargs :=
  let use_vision := normalize_use_vision (rq_use_vision options) in
  {| ak_task := rq_task request;
     ak_llm := llm;
     ak_browser := browser;
     ak_use_vision := use_vision;
     ak_calculate_cost := rq_calculate_cost request;
     ak_llm_timeout := rq_llm_timeout options;
     ak_step_timeout := rq_step_timeout options;
     ak_available_file_paths := [path_str download_dir];
     ak_save_conversation_path :=
       match conversation_path with
       | Some p => if str_truthy p then Some p else None
       | None => None
       end;
     ak_page_extraction_llm := page_extraction_llm;
     ak_generate_gif :=
       if rq_generate_gif request
       then Some (path_str (download_dir ++ ["task_" +:+ task_dir_name +:+ ".gif"]))
       else None |}.

(** ** logging_config.py *)

Definition PATH_TRIM_PREFIX : string := "/app/".

(** The attribute that the installed record factory adds to a log
    record: [pathname] is [None] when the record has no such attribute
    or holds [None] ([getattr(record, "pathname", "") or ""]). *)
Definition shortpathname (pathname : option string) : string :=
  let pathname := default "" pathname in
  if startswith PATH_TRIM_PREFIX pathname
  then str_drop (String.length PATH_TRIM_PREFIX) pathname
  else pathname.

Inductive log_level := INFO | WARNING.

Inductive handler_target :=
  | StreamStdout
  | TimedRotatingFile (filename when_ : string) (backupCount : Z) (encoding : string).

Record Formatter := {
  fmt : string;
  datefmt : string;
}.

Record Handler := {
  handler_target_of : handler_target;
  handler_level : log_level;
  handler_formatter : Formatter;
}.

Inductive record_factory := OriginalFactory | TrimmingFactory.

(** The module globals of [logging_config] and the part of the
    [logging] module that [setup_logging] touches. *)
Record Logging := {
  LOG_RECORD_FACTORY_CONFIGURED : bool;
  LOGGING_CONFIGURED : bool;
  log_record_factory : record_factory;
  root_level : log_level;
  root_handlers : list Handler;
  logger_levels : gmap string log_level;
  logged : list string;
}.

Definition _install_log_record_factory (st : Logging) : Logging :=
  if LOG_RECORD_FACTORY_CONFIGURED st then st
  else
    {| LOG_RECORD_FACTORY_CONFIGURED := true;
       LOGGING_CONFIGURED := LOGGING_CONFIGURED st;
       log_record_factory := TrimmingFactory;
       root_level := root_level st;
       root_handlers := root_handlers st;
       logger_levels := logger_levels st;
       logged := logged st |}.

(** [setup_logging]: [mkdir] and [open_log_file] are the answers of
    [log_dir.mkdir(parents=True, exist_ok=True)] and of the
    [TimedRotatingFileHandler] constructor, which opens the file. *)
Definition setup_logging (mkdir open_log_file : res ()) (st : Logging)
    : Logging * res () :=
  if LOGGING_CONFIGURED st then (st, Ok ())
  else
    let st := _install_log_record_factory st in
    let formatter :=
      {| fmt := "%(asctime)s %(levelname)s [%(shortpathname)s:%(lineno)d] - %(message)s";
         datefmt := "%Y-%m-%d %H:%M:%S" |} in
    let console_handler :=
      {| handler_target_of := StreamStdout;
         handler_level := INFO;
         handler_formatter := formatter |} in
    match mkdir with
    | Raise e => (st, Raise e)
    | Ok _ =>
        let log_file := path_str ["storage"; "logs"; "browser-automation.log"] in
        match open_log_file with
        | Raise e => (st, Raise e)
        | Ok _ =>
            let file_handler :=
              {| handler_target_of := TimedRotatingFile log_file "midnight" 7 "utf-8";
                 handler_level := INFO;
                 handler_formatter := formatter |} in
            ({| LOG_RECORD_FACTORY_CONFIGURED := LOG_RECORD_FACTORY_CONFIGURED st;
                LOGGING_CONFIGURED := true;
                log_record_factory := log_record_factory st;
                root_level := INFO;
                root_handlers := root_handlers st ++ [console_handler; file_handler];
                logger_levels :=
                  <["httpcore" := WARNING]>
                  (<["httpx" := WARNING]>
                  (<["uvicorn.access" := WARNING]> (logger_levels st)));
                logged :=
                  logged st ++
                  ["Browser automation logging initialized (stdout + file: "
                   +:+ log_file +:+ ")"] |},
             Ok ())
        end
    end.

(** ** browser_api.py: the remaining endpoints *)

Record HealthResponse := {
  hr_status : string;
  hr_display : string;
  hr_browser_use_version : string;
}.

(** The [/health] endpoint: [browser_use_version] is what
    [import browser_use] followed by reading [__version__] gives ([None]
    when the module has no such attribute), [DISPLAY] the environment
    variable. *)
Definition health_check (browser_use_version : res (option string))
    (DISPLAY : option string) : res HealthResponse :=
  version ←
    try_except (v ← browser_use_version; mret (default "unknown" v))
               (fun _ => Ok "unknown");
  mret {| hr_status := "healthy";
          hr_display := default "not set" DISPLAY;
          hr_browser_use_version := version |}.

(** One entry of the [/providers] listing. *)
Definition provider_entry (description default_model requires : string) : value :=
  VDict (<["requires" := VStr requires]>
        (<["default_model" := VStr default_model]>
        (<["description" := VStr description]> ∅))).

(** The [/providers] endpoint. *)
Definition list_providers : dict :=
  <["fastest" := VStr "browseruse"]>
  (<["recommended" := VStr "gemini"]>
  (<["providers" :=
       VDict
         (<["anthropic" :=
              provider_entry "Anthropic Claude models" "claude-sonnet-4-0"
                             "ANTHROPIC_API_KEY"]>
         (<["openai" :=
              provider_entry "OpenAI GPT models" "gpt-4.1-mini" "OPENAI_API_KEY"]>
         (<["gemini" :=
              provider_entry "Google Gemini models (free tier available)"
                             "gemini-flash-latest" "GOOGLE_API_KEY"]>
         (<["browseruse" :=
              provider_entry "Browser Use optimized LLM (fastest, recommended)"
                             "browseruse-default" "BROWSER_USE_API_KEY"]> ∅))))]> ∅)).

(** The default model that the listing advertises for [provider]. *)
Definition advertised_default_model (provider : string) : option value :=
  match list_providers !! "providers" with
  | Some (VDict providers) =>
      match providers !! provider with
      | Some (VDict entry) => entry !! "default_model"
      | _ => None
      end
  | _ => None
  end.

(** ** Further vocabulary of the statements *)

(** The customer a request is filed under: the id [0] counts as none. *)
Definition effective_customer (request : TaskRequest) : option Z :=
  match rq_customer_id request with
  | Some n => if (n =? 0)%Z then None else Some n
  | None => None
  end.

(** A call that, if it raises, raises an [Exception] (not a
    [BaseException] such as [CancelledError]). *)
Definition raises_only_exceptions {A} (outcome : res A) : Prop :=
  ∀ e, outcome = Raise e → is_Exception e = true.

(** ** Further inputs of the examples *)

Definition sample_options : SetupOptions :=
  {| rq_llm_model := None;
     rq_page_extraction_llm_provider := None;
     rq_page_extraction_llm_model := None;
     rq_use_vision := VStr "auto";
     rq_llm_timeout := 120;
     rq_step_timeout := 120;
     rq_headless := false;
     rq_window_width := 1920;
     rq_window_height := 1080 |}.

(** The sample request with the provider spelled with capitals. *)
Definition capitalised_request : TaskRequest :=
  {| rq_task := rq_task sample_request;
     rq_task_id := rq_task_id sample_request;
     rq_llm_provider := "OpenAI";
     rq_max_steps := rq_max_steps sample_request;
     rq_generate_gif := rq_generate_gif sample_request;
     rq_timeout := rq_timeout sample_request;
     rq_calculate_cost := rq_calculate_cost sample_request;
     rq_debug_mode := rq_debug_mode sample_request;
     rq_save_conversation := rq_save_conversation sample_request;
     rq_customer_id := rq_customer_id sample_request;
     rq_session_enabled := rq_session_enabled sample_request |}.

(** The [logging] module before [setup_logging] has run. *)
Definition initial_logging : Logging :=
  {| LOG_RECORD_FACTORY_CONFIGURED := false;
     LOGGING_CONFIGURED := false;
     log_record_factory := OriginalFactory;
     root_level := WARNING;
     root_handlers := [];
     logger_levels := ∅;
     logged := [] |}.

(** A scratch directory that holds a sub-directory and a file that
    cannot be moved. *)
Definition nested_fs : DownloadFs :=
  {| target := {[ "report.pdf" := "old report" ]};
     scratch := [ (sample_scratch_dir,
                   Some [ ("screenshots", OtherNode);
                          ("locked.csv", RegularFile "rows") ]) ] |}.

(** A file system on which [locked.csv] cannot be moved. *)
Definition locked_download_env : DownloadEnv :=
  {| clock := fun _ => sample_datetime;
     move_fails := fun _ name => String.eqb name "locked.csv";
     rmtree_fails := fun _ => false |}.

(** The cooperative collaborators, except that [agent.run] raises. *)
Definition failing_run_driver : Driver :=
  {| setup_llms_outcome := Ok ();
     mkdir_outcome := Ok ();
     create_browser_outcome := Ok ();
     start_outcome := Ok ();
     add_init_script_outcome := Ok ();
     create_agent_outcome := Ok ();
     run_outcome := Raise (Exception "LLM unreachable");
     export_storage_state_outcome := Ok "{}";
     current_page := Ok (Some sample_page);
     evaluate_outcome := Ok ();
     write_outcome := Ok ();
     stop_outcome := Ok ();
     conversation_uuid8 := "89abcdef";
     conversation_now := sample_datetime;
     task_uuid8 := "01234567";
     download_env := quiet_download_env |}.

(** The cooperative collaborators, except that the browser has no
    current page when the session storage is exported. *)
Definition pageless_driver : Driver :=
  {| setup_llms_outcome := Ok ();
     mkdir_outcome := Ok ();
     create_browser_outcome := Ok ();
     start_outcome := Ok ();
     add_init_script_outcome := Ok ();
     create_agent_outcome := Ok ();
     run_outcome := Ok sample_history;
     export_storage_state_outcome := Ok "{}";
     current_page := Ok None;
     evaluate_outcome := Ok ();
     write_outcome := Ok ();
     stop_outcome := Ok ();
     conversation_uuid8 := "89abcdef";
     conversation_now := sample_datetime;
     task_uuid8 := "01234567";
     download_env := quiet_download_env |}.

(** The cooperative collaborators, except that
    [browser.export_storage_state] raises. *)
Definition failing_export_driver : Driver :=
  {| setup_llms_outcome := Ok ();
     mkdir_outcome := Ok ();
     create_browser_outcome := Ok ();
     start_outcome := Ok ();
     add_init_script_outcome := Ok ();
     create_agent_outcome := Ok ();
     run_outcome := Ok sample_history;
     export_storage_state_outcome := Raise (Exception "CDP connection closed");
     current_page := Ok (Some sample_page);
     evaluate_outcome := Ok ();
     write_outcome := Ok ();
     stop_outcome := Ok ();
     conversation_uuid8 := "89abcdef";
     conversation_now := sample_datetime;
     task_uuid8 := "01234567";
     download_env := quiet_download_env |}.

(** A request of customer 7 with session persistence switched off. *)
Definition sessionless_request : TaskRequest :=
  {| rq_task := "Read the news";
     rq_task_id := None;
     rq_llm_provider := "gemini";
     rq_max_steps := 100;
     rq_generate_gif := false;
     rq_timeout := 900;
     rq_calculate_cost := true;
     rq_debug_mode := false;
     rq_save_conversation := false;
     rq_customer_id := Some 7%Z;
     rq_session_enabled := false |}.

Definition sample_state_path : list string :=
  ["storage"; "auth"; "customer_7"; "storage_state.json"].

Definition sample_session_path : list string :=
  ["storage"; "auth"; "customer_7"; "session_storage.json"].

(** An agent that reports its current state, a browser process that
    cannot be signalled, and a registry in which the task [t9] holds
    both. *)
Definition reporting_agent : Agent :=
  {| get_current_state := Ok (Some "step 2 of 5") |}.

Definition stubborn_process : Process :=
  {| send_signal := Raise (Exception "No such process") |}.

Definition running_task : BrowserTask :=
  {| bt_task_id := "t9";
     bt_agent := Some reporting_agent;
     bt_browser_process := Some stubborn_process;
     bt_status := "running";
     bt_partial_result := None;
     bt_cancelled := false |}.

Definition running_registry : Registry :=
  {| objects := {[ 0%nat := running_task ]};
     active_tasks := {[ "t9" := 0%nat ]} |}.

(* ===================================================================== *)
(** * Part II. Properties                                                 *)
(* ===================================================================== *)

(** ** Tactics *)

Ltac split_keys Hk :=
  repeat (apply not_elem_of_cons in Hk as [? Hk]).

Ltac other_key Hk :=
  split_keys Hk;
  rewrite ?lookup_insert_ne by congruence;
  try rewrite lookup_empty; try done.

Ltac lookups_in H :=
  repeat first [ rewrite lookup_insert_eq in H
               | rewrite lookup_insert_ne in H by done
               | rewrite lookup_empty in H ];
  simpl in H.

Ltac lookups :=
  repeat first [ rewrite lookup_insert_eq
               | rewrite lookup_insert_ne by done
               | rewrite lookup_empty ].

Ltac not_in_keys :=
  let H := fresh in
  intros H; repeat (apply elem_of_cons in H as [H|H]; [discriminate H|]);
  by apply elem_of_nil in H.

Ltac use_answers H :=
  destruct H as (Herrors & Hfinal & Hdone & Hsucc & Hhas & Hurls & Hsteps & Hdur).

Lemma judge_verdict_returns h :
  guarded (judgement h) →
  ∃ v, extract_judge_verdict h = Ok v
       ∧ (∀ e, judgement h = Some (Raise e) → v = None).
Proof.
  intros Hg. unfold extract_judge_verdict.
  destruct (judgement h) as [[[d|]|e]|] eqn:Hj; simpl.
  - case_bool_decide; eexists; (split; [reflexivity | intros ? [=]]).
  - eexists; (split; [reflexivity | intros ? [=]]).
  - rewrite (Hg e eq_refl). eexists; split; [reflexivity | done].
  - eexists; (split; [reflexivity | intros ? [=]]).
Qed.

Lemma basic_results_returns h c request gif_path :
  answers h c → guarded (judgement h) →
  ∃ basic verdict,
    extract_basic_results h request gif_path = Ok basic
    ∧ extract_judge_verdict h = Ok verdict
    ∧ basic !! "final_result" = Some (opt_str (c_final_result c))
    ∧ basic !! "is_done" = Some (VBool (c_is_done c))
    ∧ basic !! "is_successful" = Some (opt_bool (c_is_successful c))
    ∧ basic !! "has_errors" = Some (VBool (c_has_errors c))
    ∧ basic !! "urls" = Some (VList (VStr <$> c_urls c))
    ∧ basic !! "steps" = Some (VInt (c_steps c))
    ∧ basic !! "duration" = Some (VFloat (c_duration c))
    ∧ basic !! "errors" = Some (VList (VStr <$> truthy_errors (c_errors c)))
    ∧ basic !! "openai_empty_json" =
        Some (VBool (classify_errors (rq_llm_provider request) (truthy_errors (c_errors c))).1)
    ∧ basic !! "openai_rate_limit" =
        Some (VBool (classify_errors (rq_llm_provider request) (truthy_errors (c_errors c))).2)
    ∧ basic !! "judge_verdict" = Some (opt_str verdict)
    ∧ basic !! "gif_path" =
        (if rq_generate_gif request then VStr <$> gif_path else None)
    ∧ (∀ k, k ∉ basic_keys → basic !! k = None).
Proof.
  intros Ha Hg. use_answers Ha.
  destruct (judge_verdict_returns h Hg) as (verdict & Hv & _).
  unfold extract_basic_results.
  rewrite Herrors, Hfinal, Hdone, Hsucc, Hhas, Hurls, Hsteps, Hdur, Hv. simpl.
  eexists _, verdict. split; [reflexivity|]. split; [reflexivity|].
  destruct gif_path as [p|]; destruct (rq_generate_gif request);
    (repeat split; try reflexivity).
  all: intros k Hk; unfold basic_keys in Hk.
  all: other_key Hk.
Qed.

Lemma cost_data_shape h request cd :
  extract_cost_data h request = Ok cd →
  ∃ (price : option Q) (calls : option Z),
    cd !! "cost" = Some (opt_float price)
    ∧ (cd !! "cost_currency" = None ∨ cd !! "cost_currency" = Some (VStr "USD"))
    ∧ cd !! "llm_calls" = VInt <$> calls
    ∧ (∀ k, k ∉ ["cost"; "cost_currency"; "llm_calls"] → cd !! k = None).
Proof.
  unfold extract_cost_data, cost_try_block. intros H.
  destruct (rq_calculate_cost request);
    [ destruct (usage h) as [[[[[[tc|]|] [[cc|]|] [it|] [ot|]]|]|e]|];
      destruct (number_of_steps h) as [n|e'] | ].
  all: simpl in H; lookups_in H.
  all: repeat match type of H with
         | context [is_Exception ?x] => destruct (is_Exception x); simpl in H
         end.
  all: try discriminate H.
  all: match type of H with
       | Ok ?X = Ok _ => assert (cd = X) as -> by congruence; clear H
       end.
  all: match goal with
       | |- ∃ _ _, ?m !! "cost" = _ ∧ _ =>
           let v := eval vm_compute in (m !! "cost") in
           let c := eval vm_compute in (m !! "llm_calls") in
           match v with
           | Some (VFloat ?q) =>
               match c with
               | Some (VInt ?n) => exists (Some q), (Some n)
               | None => exists (Some q), None
               end
           | Some VNone =>
               match c with
               | Some (VInt ?n) => exists None, (Some n)
               | None => exists None, None
               end
           end
       end.
  all: split; [reflexivity|].
  all: split; [first [by left | by right]|].
  all: split; [reflexivity|].
  all: intros k Hk; other_key Hk.
Qed.

Lemma cost_data_returns h c request :
  answers h c → guarded (usage h) →
  ∃ cd, extract_cost_data h request = Ok cd.
Proof.
  intros Ha Hg. use_answers Ha.
  unfold extract_cost_data, cost_try_block. rewrite Hsteps.
  destruct (rq_calculate_cost request); [|by eexists].
  destruct (usage h) as [[[[[[tc|]|] [[cc|]|] [it|] [ot|]]|]|e]|] eqn:Hu;
    simpl; lookups; simpl; try (by eexists).
  rewrite (Hg e eq_refl). by eexists.
Qed.

Lemma debug_step_returns {A} (probe : option (res A)) key render dd :
  guarded probe → ∃ dd', debug_step probe key render dd = Ok dd'
    ∧ ∀ k, k ≠ key → dd' !! k = dd !! k.
Proof.
  intros Hg. unfold debug_step.
  destruct probe as [[x|e]|]; simpl.
  - eexists; split; [reflexivity|]. intros k Hk. by rewrite lookup_insert_ne.
  - rewrite (Hg e eq_refl). eexists; split; [reflexivity|].
    intros k Hk. by rewrite lookup_insert_ne.
  - by eexists.
Qed.

Lemma debug_data_returns h c request :
  answers h c → guarded (extracted_content h) → guarded (model_thoughts h) →
  ∃ dd, extract_debug_data h request = Ok dd
    ∧ (∀ k, k ≠ "debug_data" → dd !! k = None)
    ∧ if rq_debug_mode request
      then ∃ bundle performance,
             dd !! "debug_data" = Some (VDict bundle)
             ∧ bundle !! "performance" = Some (VDict performance)
             ∧ performance !! "steps" = Some (VInt (c_steps c))
             ∧ performance !! "total_duration" = Some (VFloat (c_duration c))
             ∧ performance !! "urls_visited" = Some (VInt (Z.of_nat (length (c_urls c))))
             ∧ performance !! "has_errors" = Some (VBool (c_has_errors c))
      else dd !! "debug_data" = Some VNone.
Proof.
  intros Ha Hc Ht. use_answers Ha. unfold extract_debug_data.
  destruct (rq_debug_mode request); simpl.
  - destruct (debug_step_returns (extracted_content h) "extracted_content"
                (fun extracted => VList (VStr <$> extracted)) ∅ Hc) as (d1 & -> & _).
    simpl.
    destruct (debug_step_returns (model_thoughts h) "model_thoughts"
                (fun thoughts => VList (enumerate_thoughts 1 thoughts)) d1 Ht)
      as (d2 & -> & _).
    simpl. rewrite Hdur, Hsteps, Hurls, Hhas. simpl.
    eexists. split; [reflexivity|]. split.
    + intros k Hk. by rewrite lookup_singleton_ne.
    + eexists _, _. rewrite lookup_singleton_eq. split; [reflexivity|].
      rewrite lookup_insert_eq. split; [reflexivity|].
      repeat split; lookups; reflexivity.
  - eexists. split; [reflexivity|]. split.
    + intros k Hk. by rewrite lookup_singleton_ne.
    + by rewrite lookup_singleton_eq.
Qed.

Lemma as_str_list_items_strs (l : list string) :
  as_str_list_items (VStr <$> l) = Ok l.
Proof.
  induction l as [|s l IH]; [done|].
  rewrite fmap_cons. simpl. by rewrite IH.
Qed.

Lemma merged_lookup (basic cd dd : dict) downloads conv k :
  k ≠ "downloaded_files" → k ≠ "conversation_path" →
  assemble_final_result basic cd dd downloads conv !! k =
    match dd !! k with
    | Some v => Some v
    | None => match cd !! k with
              | Some v => Some v
              | None => basic !! k
              end
    end.
Proof.
  intros H1 H2. unfold assemble_final_result, dict_merge.
  rewrite !lookup_insert_ne by done. rewrite !lookup_union.
  by destruct (dd !! k), (cd !! k), (basic !! k).
Qed.

Lemma as_opt_str_opt_str o : as_opt_str (opt_str o) = Ok o.
Proof. by destruct o. Qed.

Lemma as_opt_float_opt_float p : as_opt_float (opt_float p) = Ok p.
Proof. by destruct p. Qed.

Lemma as_str_list_strs (l : list string) : as_str_list (VList (VStr <$> l)) = Ok l.
Proof. apply as_str_list_items_strs. Qed.

Lemma determine_success_value (result : dict) s d final herr :
  result !! "is_successful" = Some (opt_bool s) →
  result !! "is_done" = Some (VBool d) →
  result !! "final_result" = Some (opt_str final) →
  result !! "has_errors" = Some (VBool herr) →
  as_bool (determine_success result) =
    Ok (match s with
        | Some b => b
        | None => d || (has_result final && negb herr)
        end).
Proof.
  intros H1 H2 H3 H4. unfold determine_success, dict_get, dict_get_or.
  rewrite H1, H2, H3, H4. simpl.
  destruct s as [b|]; [done|]. simpl.
  destruct d; [done|]. by destruct final.
Qed.

Lemma determine_error_value (result : dict) errs rate empty :
  result !! "errors" = Some (VList (VStr <$> errs)) →
  result !! "openai_rate_limit" = Some (VBool rate) →
  result !! "openai_empty_json" = Some (VBool empty) →
  determine_error result =
    Ok (match errs with
        | [] => None
        | _ =>
            if rate
            then Some (format_openai_error_message (join "; " errs) "rate_limit")
            else if empty
            then Some (format_openai_error_message (join "; " errs) "empty_json")
            else Some (join "; " errs)
        end).
Proof.
  intros H1 H2 H3. unfold determine_error, dict_get, dict_get_or.
  rewrite H1, H2, H3. unfold default, id. cbv zeta.
  destruct errs as [|e errs]; [done|].
  rewrite as_str_list_strs. by destruct rate, empty.
Qed.

Lemma pipeline_returns h c request gif_path downloads conv task_id t :
  answers h c → guarded (judgement h) → guarded (usage h) →
  guarded (extracted_content h) → guarded (model_thoughts h) →
  ∃ result verdict cd dd price calls,
    aggregate_results h request gif_path downloads conv = Ok result
    ∧ completed_response task_id t result =
        Ok (completed_reply c request gif_path verdict price calls
              (dd !! "debug_data") conv downloads task_id t)
    ∧ extract_judge_verdict h = Ok verdict
    ∧ extract_cost_data h request = Ok cd
    ∧ extract_debug_data h request = Ok dd
    ∧ cd !! "cost" = Some (opt_float price)
    ∧ cd !! "llm_calls" = VInt <$> calls
    ∧ result !! "judge_verdict" = Some (opt_str verdict)
    ∧ result !! "final_result" = Some (opt_str (c_final_result c))
    ∧ result !! "is_done" = Some (VBool (c_is_done c))
    ∧ result !! "is_successful" = Some (opt_bool (c_is_successful c))
    ∧ result !! "has_errors" = Some (VBool (c_has_errors c))
    ∧ result !! "urls" = Some (VList (VStr <$> c_urls c))
    ∧ result !! "steps" = Some (VInt (c_steps c))
    ∧ result !! "duration" = Some (VFloat (c_duration c))
    ∧ result !! "errors" = Some (VList (VStr <$> truthy_errors (c_errors c)))
    ∧ result !! "openai_rate_limit" =
        Some (VBool (classify_errors (rq_llm_provider request)
                                     (truthy_errors (c_errors c))).2)
    ∧ result !! "openai_empty_json" =
        Some (VBool (classify_errors (rq_llm_provider request)
                                     (truthy_errors (c_errors c))).1)
    ∧ result !! "cost" = cd !! "cost"
    ∧ result !! "llm_calls" = cd !! "llm_calls"
    ∧ result !! "debug_data" = dd !! "debug_data"
    ∧ result !! "downloaded_files" = Some (VList (VStr <$> downloads))
    ∧ result !! "conversation_path" = Some (opt_str conv).
Proof.
  intros Ha Hj Hu He Ht.
  destruct (basic_results_returns h c request gif_path Ha Hj)
    as (basic & verdict & Hb & Hv & Bfinal & Bdone & Bsucc & Bhas & Burls
        & Bsteps & Bdur & Berrs & Bempty & Brate & Bjudge & Bgif & Bother).
  destruct (cost_data_returns h c request Ha Hu) as (cd & Hcd).
  destruct (cost_data_shape h request cd Hcd)
    as (price & calls & Ccost & Ccur & Ccalls & Cother).
  destruct (debug_data_returns h c request Ha He Ht) as (dd & Hdd & Dother & Ddebug).
  unfold aggregate_results. rewrite Hb, Hcd, Hdd. simpl.
  set (result := assemble_final_result basic cd dd downloads conv).
  assert (Rbasic : ∀ k, bool_decide (k ∈ basic_keys) = true →
                        result !! k = basic !! k).
  { intros k Hk%bool_decide_eq_true_1. unfold result, basic_keys in *.
    repeat (apply elem_of_cons in Hk as [->|Hk];
            [by rewrite merged_lookup, Dother, Cother by first [done|not_in_keys]|]).
    by apply elem_of_nil in Hk. }
  assert (Rcost : ∀ k, bool_decide (k ∈ ["cost"; "cost_currency"; "llm_calls"]) = true →
                       result !! k = cd !! k).
  { intros k Hk%bool_decide_eq_true_1. unfold result.
    assert (basic !! k = None ∧ k ≠ "debug_data" ∧ k ≠ "downloaded_files"
            ∧ k ≠ "conversation_path") as (Hnone & Hk1 & Hk2 & Hk3).
    { repeat (apply elem_of_cons in Hk as [->|Hk];
              [split; [apply Bother; unfold basic_keys; not_in_keys|done]|]).
      by apply elem_of_nil in Hk. }
    rewrite merged_lookup, Dother, Hnone by done. by destruct (cd !! k). }
  assert (Rdebug : result !! "debug_data" = dd !! "debug_data").
  { unfold result. rewrite merged_lookup by done.
    destruct (dd !! "debug_data") eqn:E; [done|].
    destruct (rq_debug_mode request); [|congruence].
    destruct Ddebug as (? & ? & ? & _). congruence. }
  assert (Rdown : result !! "downloaded_files" = Some (VList (VStr <$> downloads))).
  { unfold result, assemble_final_result. by rewrite lookup_insert_ne, lookup_insert_eq. }
  assert (Rconv : result !! "conversation_path" = Some (opt_str conv)).
  { unfold result, assemble_final_result. by rewrite lookup_insert_eq. }
  clearbody result.
  pose proof (Rbasic "judge_verdict" eq_refl) as Rjudge. rewrite Bjudge in Rjudge.
  pose proof (Rbasic "final_result" eq_refl) as Rfinal. rewrite Bfinal in Rfinal.
  pose proof (Rbasic "is_done" eq_refl) as Rdone. rewrite Bdone in Rdone.
  pose proof (Rbasic "is_successful" eq_refl) as Rsucc. rewrite Bsucc in Rsucc.
  pose proof (Rbasic "has_errors" eq_refl) as Rhas. rewrite Bhas in Rhas.
  pose proof (Rbasic "urls" eq_refl) as Rurls. rewrite Burls in Rurls.
  pose proof (Rbasic "steps" eq_refl) as Rsteps. rewrite Bsteps in Rsteps.
  pose proof (Rbasic "duration" eq_refl) as Rdur. rewrite Bdur in Rdur.
  pose proof (Rbasic "errors" eq_refl) as Rerrs. rewrite Berrs in Rerrs.
  pose proof (Rbasic "openai_rate_limit" eq_refl) as Rrate. rewrite Brate in Rrate.
  pose proof (Rbasic "openai_empty_json" eq_refl) as Rempty. rewrite Bempty in Rempty.
  pose proof (Rbasic "gif_path" eq_refl) as Rgif. rewrite Bgif in Rgif.
  pose proof (Rcost "cost" eq_refl) as Rprice.
  pose proof (Rcost "cost_currency" eq_refl) as Rcur.
  pose proof (Rcost "llm_calls" eq_refl) as Rcalls.
  exists result, verdict, cd, dd, price, calls.
  split; [reflexivity|]. split; [|by repeat split].
  unfold completed_response.
  rewrite (determine_error_value result _ _ _ Rerrs Rrate Rempty).
  rewrite (determine_success_value result _ _ _ _ Rsucc Rdone Rfinal Rhas).
  unfold dict_get, dict_get_or.
  rewrite Rfinal, Rurls, Rsteps, Rgif, Rjudge, Rprice, Ccost, Rcur, Rcalls, Ccalls,
    Rdebug, Rconv, Rdown.
  unfold default, id. cbv zeta.
  rewrite !as_opt_str_opt_str, as_opt_float_opt_float, !as_str_list_strs.
  assert (Hurl : (if truthy (VList (VStr <$> c_urls c))
                  then Ok (c_urls c) else Ok []) = Ok (c_urls c)).
  { by destruct (c_urls c). }
  rewrite Hurl. clear Hurl.
  assert (Hdebug : ∃ od, as_opt_dict (default VNone (dd !! "debug_data")) = Ok od
            ∧ od = match dd !! "debug_data" with
                   | Some (VDict bundle) => Some bundle
                   | _ => None
                   end).
  { destruct (rq_debug_mode request).
    - destruct Ddebug as (b & p & -> & _). by eexists.
    - rewrite Ddebug. by eexists. }
  destruct Hdebug as (od & Hod & ->). unfold default, id in Hod.
  unfold completed_reply, error_text.
  destruct (rq_generate_gif request), gif_path, calls;
    destruct Ccur as [-> | ->]; simpl; rewrite ?Hod; reflexivity.
Qed.

(** *** Strings *)

Lemma startswith_app p x : startswith p (p +:+ x) = true.
Proof. induction p as [|a p IH]; [done|]. simpl. by rewrite Ascii.eqb_refl. Qed.

Lemma startswith_app_l p s x : startswith p s = true → startswith p (s +:+ x) = true.
Proof.
  revert s. induction p as [|a p IH]; intros s H; [done|].
  destruct s as [|ch s]; [done|]. simpl in *.
  destruct (Ascii.eqb a ch); [by apply IH|done].
Qed.

Lemma str_in_app_r p a s : str_in p s = true → str_in p (a +:+ s) = true.
Proof.
  intros H. induction a as [|ch a IH]; [done|].
  simpl. rewrite IH. by destruct (startswith p (String ch (a +:+ s))).
Qed.

Lemma str_in_intro p a b : str_in p (a +:+ p +:+ b) = true.
Proof.
  apply str_in_app_r. destruct (p +:+ b) eqn:E; simpl;
    rewrite <- E, startswith_app; done.
Qed.

Lemma startswith_inv p s : startswith p s = true → ∃ b, s = p +:+ b.
Proof.
  revert s. induction p as [|a p IH]; intros s H; [by exists s|].
  destruct s as [|ch s]; [done|]. simpl in H.
  destruct (Ascii.eqb_spec a ch) as [->|]; [|done].
  destruct (IH s H) as (b & ->). by exists b.
Qed.

Lemma str_in_inv p s : str_in p s = true → ∃ a b, s = a +:+ p +:+ b.
Proof.
  induction s as [|ch s IH]; simpl.
  - destruct (startswith p "") eqn:E; [|done]. intros _.
    destruct (startswith_inv _ _ E) as (b & Hb). by exists "", b.
  - destruct (startswith p (String ch s)) eqn:E.
    + intros _. destruct (startswith_inv _ _ E) as (b & Hb). by exists "", b.
    + intros H. destruct (IH H) as (a & b & ->). by exists (String ch a), b.
Qed.

Lemma lower_app a b : lower (a +:+ b) = lower a +:+ lower b.
Proof. induction a as [|ch a IH]; [done|]. simpl. by rewrite IH. Qed.

Lemma str_in_lower p s :
  lower p = p → str_in p s = true → str_in p (lower s) = true.
Proof.
  intros Hp H. destruct (str_in_inv p s H) as (a & b & ->).
  rewrite !lower_app, Hp. apply str_in_intro.
Qed.

Lemma str_in_truthy p s : str_truthy p = true → str_in p s = true → str_truthy s = true.
Proof.
  intros Hp H. destruct (str_in_inv p s H) as (a & b & ->).
  destruct a; [|done]. by destruct p.
Qed.

Lemma str_in_refl s : str_in s s = true.
Proof.
  destruct s as [|c s]; [done|].
  change (str_in (String c s) (String c s)) with
    (if startswith (String c s) (String c s) then true else str_in (String c s) s).
  replace (startswith (String c s) (String c s)) with true; [done|].
  symmetry. generalize (String c s). intros p.
  induction p as [|a p IH]; [done|]. simpl. by rewrite Ascii.eqb_refl.
Qed.

Lemma str_in_join sep e (l : list string) :
  e ∈ l → str_in e (join sep l) = true.
Proof.
  induction l as [|x l IH]; intros Hin; [by apply elem_of_nil in Hin|].
  apply elem_of_cons in Hin as [->|Hin].
  - destruct l as [|y l]; [apply str_in_refl|].
    change (join sep (x :: y :: l)) with (x +:+ sep +:+ join sep (y :: l)).
    apply (str_in_intro x "").
  - destruct l as [|y l]; [by apply elem_of_nil in Hin|].
    change (join sep (x :: y :: l)) with (x +:+ sep +:+ join sep (y :: l)).
    apply str_in_app_r, str_in_app_r, IH, Hin.
Qed.

Lemma rate_limit_guidance_prefix original :
  startswith rate_limit_guidance
    (format_openai_error_message original "rate_limit") = true.
Proof.
  unfold format_openai_error_message.
  change (String.eqb "rate_limit" "empty_json") with false.
  change (String.eqb "rate_limit" "rate_limit") with true.
  cbv iota beta zeta.
  destruct (str_truthy original);
    [do 2 apply startswith_app_l | apply startswith_app_l];
    apply startswith_app.
Qed.

Lemma rate_limit_marker_detected e :
  str_in "rate_limit_exceeded" e = true → is_rate_limit_error e = true.
Proof.
  intros H. unfold is_rate_limit_error.
  rewrite (str_in_truthy "rate_limit_exceeded" e eq_refl H). simpl.
  rewrite (str_in_lower "rate_limit_exceeded" e eq_refl H).
  by destruct (str_in "rate limit" (lower e)).
Qed.

Lemma truthy_errors_elem e (errs : list (option string)) :
  Some e ∈ errs → str_truthy e = true → e ∈ truthy_errors errs.
Proof.
  intros Hin He. unfold truthy_errors. apply list_elem_of_omap.
  exists (Some e). by rewrite He.
Qed.

Lemma cost_absent h request n cd :
  rq_calculate_cost request = true →
  lacks_direct_cost h ∨ cost_extraction_fails h →
  number_of_steps h = Ok n →
  extract_cost_data h request = Ok cd →
  cd !! "cost" = Some VNone ∧ cd !! "llm_calls" = Some (VInt n).
Proof.
  intros Hc Hcase Hn. unfold extract_cost_data, cost_try_block.
  rewrite Hc, Hn.
  destruct Hcase as [[Hu|[Hu|(u & Hu & Ht & Hcost)]]
                    |[(e & Hu)|(u & Hu & [Ht|[Ht Hcost]])]];
    rewrite Hu; try rewrite Ht; try rewrite Hcost; simpl; lookups; simpl.
  - intros [= <-]. by lookups.
  - intros [= <-]. by lookups.
  - destruct (input_tokens u), (output_tokens u); simpl; lookups; simpl;
      intros [= <-]; by lookups.
  - destruct (is_Exception e); [|done]. intros [= <-]. by lookups.
  - intros [= <-]. by lookups.
  - intros [= <-]. by lookups.
Qed.

Lemma cost_present h request u q cd :
  rq_calculate_cost request = true →
  usage h = Some (Ok (Some u)) → total_cost u = Some (Some q) →
  extract_cost_data h request = Ok cd →
  cd !! "cost" = Some (VFloat q) ∧ cd !! "cost_currency" = Some (VStr "USD").
Proof.
  intros Hc Hu Ht. unfold extract_cost_data, cost_try_block.
  rewrite Hc, Hu, Ht.
  destruct (input_tokens u), (output_tokens u); simpl; lookups; simpl;
    intros [= <-]; by lookups.
Qed.

Lemma cost_disabled h request cd :
  rq_calculate_cost request = false →
  extract_cost_data h request = Ok cd →
  cd !! "cost" = Some VNone ∧ cd !! "llm_calls" = Some (VInt 0).
Proof.
  intros Hc. unfold extract_cost_data. rewrite Hc. intros [= <-]. by lookups.
Qed.

Lemma execute_task_completes request d result env reg response :
  Qle_bool d (inject_Z (rq_timeout request)) = true →
  cancels env = [] →
  completed_response (assigned_task_id request env)
    (time_after_wait request (Some (d, Ok result)) env - start_time env) result
    = Ok response →
  execute_task_traced request (Some (d, Ok result)) env reg =
    ((registry_register reg (assigned_task_id request env)).2,
     Ok (ByCompletion, response)).
Proof.
  intros Hd Hq Hr. unfold execute_task_traced, registry_register.
  rewrite Hq. unfold serve_cancels. simpl foldl. cbv zeta.
  assert (Hw : wait_for (Some (d, Ok result)) (rq_timeout request) (overrun env)
               = (d, Ok result)).
  { unfold wait_for. by rewrite Hd. }
  rewrite Hw. simpl. rewrite lookup_insert_eq. simpl.
  unfold time_after_wait in Hr. rewrite Hw in Hr. simpl in Hr.
  unfold time_after_wait. rewrite Hw. simpl. by rewrite Hr.
Qed.

Section Completion.
Context (h : History) (c : Core) (request : TaskRequest).
Context (gif_path : option string) (downloads : list string).
Context (conv : option string) (d : Q) (env : Surroundings) (reg : Registry).

Let run := Some (d, aggregate_results h request gif_path downloads conv).

Hypothesis Hanswers : answers h c.
Hypothesis Hjudge : guarded (judgement h).
Hypothesis Husage : guarded (usage h).
Hypothesis Hcontent : guarded (extracted_content h).
Hypothesis Hthoughts : guarded (model_thoughts h).
Hypothesis Hdeadline : Qle_bool d (inject_Z (rq_timeout request)) = true.
Hypothesis Hquiet : cancels env = [].

Lemma completion_reply :
  ∃ result verdict cd dd price calls,
    aggregate_results h request gif_path downloads conv = Ok result
    ∧ extract_judge_verdict h = Ok verdict
    ∧ extract_cost_data h request = Ok cd
    ∧ extract_debug_data h request = Ok dd
    ∧ cd !! "cost" = Some (opt_float price)
    ∧ cd !! "llm_calls" = VInt <$> calls
    ∧ result !! "debug_data" = dd !! "debug_data"
    ∧ result !! "openai_rate_limit" =
        Some (VBool (classify_errors (rq_llm_provider request)
                                     (truthy_errors (c_errors c))).2)
    ∧ result !! "openai_empty_json" =
        Some (VBool (classify_errors (rq_llm_provider request)
                                     (truthy_errors (c_errors c))).1)
    ∧ execute_task request run env reg =
        ((registry_register reg (assigned_task_id request env)).2,
         Ok (completed_reply c request gif_path verdict price calls
               (dd !! "debug_data") conv downloads
               (assigned_task_id request env)
               (time_after_wait request run env - start_time env))).
Proof.
  destruct (pipeline_returns h c request gif_path downloads conv
              (assigned_task_id request env)
              (time_after_wait request run env - start_time env)
              Hanswers Hjudge Husage Hcontent Hthoughts)
    as (result & verdict & cd & dd & price & calls & Hagg & Hresp & Hv & Hcd
        & Hdd & Ccost & Ccalls & R).
  exists result, verdict, cd, dd, price, calls.
  repeat (split; [first [assumption | apply R]|]).
  unfold execute_task, run. rewrite Hagg.
  unfold run in Hresp. rewrite Hagg in Hresp.
  by rewrite (execute_task_completes _ _ _ _ _ _ Hdeadline Hquiet Hresp).
Qed.

(** C7. An error text containing "rate_limit_exceeded" is classified
    as a rate-limit error for the provider [openai], and the reply's
    error is then the rate-limit guidance; for any other provider it
    is left unclassified and the reply's error still contains it. *)
Theorem rate_limit_classification (e : string) :
  Some e ∈ c_errors c →
  str_in "rate_limit_exceeded" e = true →
  ∃ reg' response result,
    aggregate_results h request gif_path downloads conv = Ok result
    ∧ execute_task request run env reg = (reg', Ok response)
    ∧ (rq_llm_provider request = "openai" →
         result !! "openai_rate_limit" = Some (VBool true)
         ∧ ∃ text, rs_error response = Some text
                   ∧ text = format_openai_error_message
                              (join "; " (truthy_errors (c_errors c))) "rate_limit"
                   ∧ startswith rate_limit_guidance text = true)
    ∧ (rq_llm_provider request ≠ "openai" →
         result !! "openai_rate_limit" = Some (VBool false)
         ∧ result !! "openai_empty_json" = Some (VBool false)
         ∧ ∃ text, rs_error response = Some text
                   ∧ text = join "; " (truthy_errors (c_errors c))
                   ∧ str_in e text = true).
Proof.
  intros Hin Hmark.
  destruct completion_reply
    as (result & verdict & cd & dd & price & calls & Hagg & _ & _ & _ & _ & _
        & _ & Rrate & Rempty & Hexec).
  assert (Helem : e ∈ truthy_errors (c_errors c)).
  { apply truthy_errors_elem; [done|]. by apply (str_in_truthy "rate_limit_exceeded" e eq_refl Hmark). }
  eexists _, _, result. split; [exact Hagg|]. split; [exact Hexec|].
  simpl. unfold error_text.
  destruct (truthy_errors (c_errors c)) as [|x errs] eqn:Herrs;
    [by apply elem_of_nil in Helem|].
  rewrite Rrate, Rempty. unfold classify_errors. split.
  - intros ->. simpl String.eqb. cbv iota.
    assert (Hex : existsb is_rate_limit_error (x :: errs) = true).
    { apply existsb_exists. exists e. split; [by apply list_elem_of_In|].
      by apply rate_limit_marker_detected. }
    unfold snd, fst. rewrite Hex. split; [done|].
    eexists. split; [reflexivity|]. split; [reflexivity|].
    apply rate_limit_guidance_prefix.
  - intros Hne. apply String.eqb_neq in Hne. rewrite Hne. cbv iota.
    unfold snd, fst. split; [done|]. split; [done|].
    eexists. split; [reflexivity|]. split; [reflexivity|].
    by apply str_in_join.
Qed.

(** C10. When the history leaves [is_successful] undetermined, the
    reply's success flag is [is_done], or else "a non-empty final
    result and no errors"; a definite [is_successful] is used as is. *)
Theorem success_flag_rule :
  ∃ reg' response,
    execute_task request run env reg = (reg', Ok response)
    ∧ rs_success response =
        match c_is_successful c with
        | Some b => b
        | None =>
            c_is_done c
            || (has_result (c_final_result c) && negb (c_has_errors c))
        end.
Proof.
  destruct completion_reply
    as (result & verdict & cd & dd & price & calls & _ & _ & _ & _ & _ & _ & _
        & _ & _ & Hexec).
  eexists _, _. split; [exact Hexec | reflexivity].
Qed.

(** C9. Without debug mode the report carries no debug bundle at all
    (the value is [None], not an empty dictionary); with debug mode it
    carries one whose [performance.steps] is the reported step count. *)
Theorem debug_bundle_presence :
  ∃ reg' response result,
    aggregate_results h request gif_path downloads conv = Ok result
    ∧ execute_task request run env reg = (reg', Ok response)
    ∧ (rq_debug_mode request = false →
         result !! "debug_data" = Some VNone ∧ rs_debug_data response = None)
    ∧ (rq_debug_mode request = true →
         ∃ bundle performance,
           result !! "debug_data" = Some (VDict bundle)
           ∧ rs_debug_data response = Some bundle
           ∧ bundle !! "performance" = Some (VDict performance)
           ∧ performance !! "steps" = Some (VInt (rs_steps_taken response))).
Proof.
  destruct completion_reply
    as (result & verdict & cd & dd & price & calls & Hagg & _ & _ & Hdd & _ & _
        & Rdebug & _ & _ & Hexec).
  destruct (debug_data_returns h c request Hanswers Hcontent Hthoughts)
    as (dd' & Hdd' & _ & Ddebug).
  assert (dd' = dd) as -> by congruence.
  eexists _, _, result. split; [exact Hagg|]. split; [exact Hexec|].
  split; intros Hmode; rewrite Hmode in Ddebug.
  - simpl. rewrite Rdebug, Ddebug. done.
  - destruct Ddebug as (bundle & performance & Hb & Hp & Hs & _).
    exists bundle, performance. simpl. rewrite Rdebug, Hb. done.
Qed.

(** C8. With cost calculation on, a usage record without a directly
    computed cost, or a failing cost extraction, gives a report whose
    cost is absent while the call count is the history's step count; a
    usage record with a total cost gives that cost in USD; with cost
    calculation off the cost is absent and the call count is 0. *)
Theorem cost_reporting :
  ∃ reg' response,
    execute_task request run env reg = (reg', Ok response)
    ∧ rs_steps_taken response = c_steps c
    ∧ (rq_calculate_cost request = true →
       lacks_direct_cost h ∨ cost_extraction_fails h →
         rs_cost response = None ∧ rs_llm_calls response = c_steps c)
    ∧ (rq_calculate_cost request = true →
       ∀ u q, usage h = Some (Ok (Some u)) → total_cost u = Some (Some q) →
         rs_cost response = Some q ∧ rs_cost_currency response = "USD")
    ∧ (rq_calculate_cost request = false →
         rs_cost response = None ∧ rs_llm_calls response = 0%Z).
Proof.
  destruct completion_reply
    as (result & verdict & cd & dd & price & calls & _ & _ & Hcd & _ & Ccost
        & Ccalls & _ & _ & _ & Hexec).
  assert (Hsteps : number_of_steps h = Ok (c_steps c)) by apply Hanswers.
  eexists _, _. split; [exact Hexec|]. simpl. split; [done|].
  split; [|split].
  - intros Hc Hcase.
    destruct (cost_absent h request _ cd Hc Hcase Hsteps Hcd) as [H1 H2].
    rewrite H1 in Ccost. rewrite H2 in Ccalls.
    destruct price; [done|]. destruct calls; simplify_eq/=. done.
  - intros Hc u q Hu Ht.
    destruct (cost_present h request u q cd Hc Hu Ht Hcd) as [H1 _].
    rewrite H1 in Ccost. destruct price; by simplify_eq/=.
  - intros Hc. destruct (cost_disabled h request cd Hc Hcd) as [H1 H2].
    rewrite H1 in Ccost. rewrite H2 in Ccalls.
    destruct price; [done|]. destruct calls; simplify_eq/=. done.
Qed.
End Completion.


Lemma wait_for_expires {A} (run : option (Q * res A)) (timeout : Z) (over : Q) :
  (run = None ∨ ∃ d r, run = Some (d, r) ∧ (inject_Z timeout < d)%Q) →
  wait_for run timeout over = ((inject_Z timeout + over)%Q, Raise (TimeoutError "")).
Proof.
  intros [->|(d & r & -> & Hlt)]; [done|]. unfold wait_for.
  destruct (Qle_bool d (inject_Z timeout)) eqn:E; [|done].
  apply Qle_bool_iff in E. lra.
Qed.

Lemma error_paths_carry_time request (run : option (Q * res dict)) env reg reg' path reply :
  execute_task_traced request run env reg = (reg', Ok (path, reply)) →
  path = ByTimeout ∨ path = ByFailure →
  rs_success reply = false
  ∧ is_Some (rs_error reply)
  ∧ rs_execution_time reply = (time_after_wait request run env - start_time env)%Q.
Proof.
  unfold execute_task_traced, registry_register. cbv zeta.
  destruct (wait_for run (rq_timeout request) (overrun env)).2 as [result|e]; simpl.
  - destruct (objects (serve_cancels (cancels env) _) !! _) as [task|]; simpl.
    + destruct (bt_cancelled task); simpl.
      * destruct (BrowserTask_get_partial_result task) as [p|e]; simpl.
        -- intros [= <- <- <-] [|]; discriminate.
        -- destruct (is_TimeoutError e); [|destruct (is_Exception e)];
             intros [= <- <- <-] _; simpl; eauto.
      * destruct (completed_response _ _ result) as [r|e]; simpl.
        -- intros [= <- <- <-] [|]; discriminate.
        -- destruct (is_TimeoutError e); [|destruct (is_Exception e)];
             intros [= <- <- <-] _; simpl; eauto.
    + destruct (completed_response _ _ result) as [r|e]; simpl.
      * intros [= <- <- <-] [|]; discriminate.
      * destruct (is_TimeoutError e); [|destruct (is_Exception e)];
          intros [= <- <- <-] _; simpl; eauto.
  - destruct (is_TimeoutError e); [|destruct (is_Exception e)];
      intros [= <- <- <-] _; simpl; eauto.
Qed.


(** *** The registry *)

(** The reply to a cancel request for an id that is not registered. *)
Lemma cancel_unknown_task task_id reg :
  active_tasks reg !! task_id = None →
  cancel_browser_task task_id reg =
    (reg, Ok (<["task_id" := VStr task_id]>
             (<["error" := VStr not_found_message]>
             (<["success" := VBool false]> ∅)))).
Proof.
  intros H. unfold cancel_browser_task, registry_get. by rewrite H.
Qed.

(** A registered task is cancelled whatever its status, and stays
    registered. *)
Lemma cancel_registered_task task_id reg ref task :
  registry_get reg task_id = Some (ref, task) →
  bt_agent task = None → bt_browser_process task = None →
  ∃ reg' task',
    cancel_browser_task task_id reg =
      (reg', Ok (<["partial_result" := opt_str (bt_partial_result task)]>
                (<["message" := VStr "Task cancelled"]>
                (<["task_id" := VStr task_id]>
                (<["success" := VBool true]> ∅)))))
    ∧ registry_get reg' task_id = Some (ref, task')
    ∧ bt_cancelled task' = true ∧ bt_status task' = "cancelled"
    ∧ bt_agent task' = None ∧ bt_browser_process task' = None
    ∧ bt_partial_result task' = bt_partial_result task.
Proof.
  intros Hget Hagent Hproc. unfold cancel_browser_task. rewrite Hget.
  unfold BrowserTask_cancel. simpl. rewrite Hproc. simpl.
  unfold BrowserTask_get_partial_result. simpl. rewrite Hagent. simpl.
  eexists _, _. split; [reflexivity|].
  unfold registry_get in *. simpl.
  destruct (active_tasks reg !! task_id) as [r|] eqn:E; [|done]. simpl in *.
  destruct (objects reg !! r) eqn:E'; [|done]. simpl in Hget.
  assert (r = ref) as -> by congruence.
  rewrite lookup_insert_eq. simpl. split; [reflexivity|].
  by rewrite ?Hagent, ?Hproc.
Qed.

(** [execute_task] registers the task and never removes it. *)
Lemma execute_task_leaves_task_registered request run env reg :
  cancels env = [] →
  ∃ ref,
    registry_get (execute_task_traced request run env reg).1
                 (assigned_task_id request env)
    = Some (ref, BrowserTask_init (assigned_task_id request env) None).
Proof.
  intros Hq. unfold execute_task_traced, registry_register. cbv zeta.
  rewrite Hq. simpl. unfold registry_get. simpl.
  rewrite lookup_insert_eq. simpl. rewrite lookup_insert_eq. by eexists.
Qed.

(** C1. The task [t1] runs to natural completion; a cancel request for
    it is then answered with success and "Task cancelled", and so is a
    second cancel request: the task is still registered. A cancel
    request for an id that was never registered is answered with "Task
    not found or already completed". None of the three calls raises. *)
Theorem cancel_after_completion_reports_success :
  let run := Some (5%Q, aggregate_results sample_history sample_request None [] None) in
  let executed := execute_task sample_request run sample_surroundings empty_registry in
  let first := cancel_browser_task "t1" executed.1 in
  let second := cancel_browser_task "t1" first.1 in
  let unknown := cancel_browser_task "t2" second.1 in
  rs_success <$> executed.2 = Ok true
  ∧ (.!! "success") <$> first.2 = Ok (Some (VBool true))
  ∧ (.!! "message") <$> first.2 = Ok (Some (VStr "Task cancelled"))
  ∧ (.!! "error") <$> first.2 = Ok None
  ∧ (.!! "success") <$> second.2 = Ok (Some (VBool true))
  ∧ (.!! "message") <$> second.2 = Ok (Some (VStr "Task cancelled"))
  ∧ (.!! "error") <$> second.2 = Ok None
  ∧ (.!! "success") <$> unknown.2 = Ok (Some (VBool false))
  ∧ (.!! "error") <$> unknown.2
    = Ok (Some (VStr "Task not found or already completed")).
Proof. cbv zeta. repeat split; vm_compute; reflexivity. Qed.

(** *** The browser's lifetime *)

Ltac run_cases :=
  repeat match goal with
    | |- context [match ?x with _ => _ end] =>
        match type of x with
        | res _ => destruct x as [?|?] eqn:?
        | option _ => destruct x as [?|] eqn:?
        | bool => destruct x eqn:?
        end; simpl
    end.

(** Once [agent.run] has been called, [browser.stop] is called, last,
    and every export call lies between the two. *)
Lemma run_and_release_stops request drv state_path session_path m :
  ∃ exports,
    calls (run_and_release request drv state_path session_path m).1
    = calls m ++ [CallAgentRun] ++ exports ++ [CallStop]
    ∧ Forall export_call exports.
Proof.
  unfold run_and_release, try_finally, try_except_M, export_session_storage,
    try_except_M, call_driver, lift, write_storage_state, write_session_file,
    mbind, M_bind, mret, M_ret.
  simpl. run_cases.
  all: rewrite <- ?app_assoc; simpl.
  all: first
    [ exists []; split; [reflexivity|]
    | exists [CallExportStorageState]; split; [reflexivity|]
    | exists [CallExportStorageState; CallGetCurrentPage]; split; [reflexivity|]
    | exists [CallExportStorageState; CallGetCurrentPage; CallEvaluate];
      split; [reflexivity|] ].
  all: repeat first [ apply Forall_nil_2
                    | apply Forall_cons_2; [unfold export_call; tauto|] ].
Qed.

Lemma setup_directories_calls request drv m :
  calls (setup_directories request drv m).1 = calls m.
Proof.
  unfold setup_directories, mbind, M_bind, lift, mret, M_ret.
  destruct (rq_save_conversation request), (mkdir_outcome drv); reflexivity.
Qed.

Lemma setup_browser_profile_calls request drv m :
  calls (setup_browser_profile request drv m).1 = calls m.
Proof.
  unfold setup_browser_profile, mbind, M_bind, lift, mret, M_ret.
  destruct (rq_session_enabled request), (mkdir_outcome drv); reflexivity.
Qed.

Lemma restore_session_storage_calls drv p m :
  calls (restore_session_storage drv p m).1 = calls m
  ∨ calls (restore_session_storage drv p m).1 = calls m ++ [CallAddInitScript].
Proof.
  unfold restore_session_storage, read_session_file, try_except_M, call_driver,
    register_init_script, lift, mbind, M_bind, mret, M_ret.
  destruct (session_files m !! p) as [[doc|]|]; cbn [fst snd]; auto.
  destruct (bool_decide (doc_data doc = ∅)); cbn [fst snd]; auto.
  destruct (add_init_script_outcome drv) as [|e]; cbn [fst snd]; auto.
  destruct (is_Exception e); cbn [fst snd]; auto.
Qed.

Lemma create_agent_calls request drv dir name m :
  calls (create_agent request drv dir name m).1 = calls m.
Proof.
  unfold create_agent, mbind, M_bind, lift, mret, M_ret.
  destruct (create_agent_outcome drv); reflexivity.
Qed.

Lemma reconcile_downloads_calls drv dir m :
  calls (reconcile_downloads drv dir m).1 = calls m.
Proof.
  unfold reconcile_downloads.
  destruct (handle_downloads _ _ _). reflexivity.
Qed.

Lemma not_run_in (l : list call) (extra : list call) :
  CallAgentRun ∉ l → CallAgentRun ∉ extra → CallAgentRun ∉ l ++ extra.
Proof. intros H1 H2 [?|?]%elem_of_app; tauto. Qed.

(** The calls of a run either stop short of [agent.run] or end with
    [browser.stop]. *)
Lemma run_agent_task_calls (P : list call → Prop) request drv m :
  (∀ l, CallAgentRun ∉ l → P l) →
  (∀ l, P (l ++ [CallStop])) →
  CallAgentRun ∉ calls m →
  P (calls (run_agent_task request drv m).1).
Proof.
  intros Hshort Hstop Hnot. unfold run_agent_task.
  unfold mbind, M_bind. unfold lift at 1.
  destruct (setup_llms_outcome drv) as [|e]; [|by apply Hshort].
  pose proof (setup_directories_calls request drv m) as C1.
  destruct (setup_directories request drv m) as [m1 [[[conv dir] tdir]|e]];
    cbn [fst] in C1; [|cbn [fst]; rewrite C1; by apply Hshort].
  pose proof (setup_browser_profile_calls request drv m1) as C2.
  destruct (setup_browser_profile request drv m1) as [m2 [[sp ssp]|e]];
    cbn [fst] in C2; [|cbn [fst]; rewrite C2, C1; by apply Hshort].
  unfold lift at 1.
  destruct (create_browser_outcome drv) as [|e];
    [|cbn [fst]; rewrite C2, C1; by apply Hshort].
  unfold call_driver at 1.
  set (m3 := {| calls := calls m2 ++ [CallStart];
                init_scripts := init_scripts m2;
                session_files := session_files m2;
                storage_state_files := storage_state_files m2;
                download_fs := download_fs m2 |}).
  assert (C3 : CallAgentRun ∉ calls m3).
  { subst m3. cbn [calls]. rewrite C2, C1. apply not_run_in; [done|].
    by intros [=]%list_elem_of_singleton. }
  clearbody m3.
  destruct (start_outcome drv) as [|e]; [|cbn [fst]; by apply Hshort].
  assert (C4 : CallAgentRun ∉ calls
     (match ssp with
      | Some session_path => restore_session_storage drv session_path
      | None => mret ()
      end m3).1).
  { destruct ssp as [p|]; [|done].
    destruct (restore_session_storage_calls drv p m3) as [-> | ->]; [done|].
    apply not_run_in; [done|]. by intros [=]%list_elem_of_singleton. }
  destruct (match ssp with
            | Some session_path => restore_session_storage drv session_path
            | None => mret ()
            end m3) as [m4 [|e]]; cbn [fst] in C4; [|cbn [fst]; by apply Hshort].
  pose proof (create_agent_calls request drv dir tdir m4) as C5.
  destruct (create_agent request drv dir tdir m4) as [m5 [gif|e]];
    cbn [fst] in C5; [|cbn [fst]; rewrite C5; by apply Hshort].
  destruct (run_and_release_stops request drv sp ssp m5) as (exports & C6 & _).
  destruct (run_and_release request drv sp ssp m5) as [m6 [history|e]];
    cbn [fst] in C6.
  - pose proof (reconcile_downloads_calls drv dir m6) as C7.
    destruct (reconcile_downloads drv dir m6) as [m7 [files|e]]; cbn [fst] in C7.
    + unfold lift. cbn [fst]. rewrite C7, C6, !app_assoc. apply Hstop.
    + cbn [fst]. rewrite C7, C6, !app_assoc. apply Hstop.
  - cbn [fst]. rewrite C6, !app_assoc. apply Hstop.
Qed.

(** Whenever [run_agent_task] reaches [agent.run], the last call it
    makes is [browser.stop]. *)
Lemma run_agent_task_stops_after_run request drv m :
  CallAgentRun ∉ calls m →
  CallAgentRun ∈ calls (run_agent_task request drv m).1 →
  last (calls (run_agent_task request drv m).1) = Some CallStop.
Proof.
  intros Hnot.
  apply (run_agent_task_calls
           (fun l => CallAgentRun ∈ l → last l = Some CallStop)); [| |done].
  - by intros l Hl ?.
  - intros l _. apply last_snoc.
Qed.

(** C2. The [Agent] constructor raises after the browser has been
    started: [run_agent_task] ends with that exception and
    [browser.stop] has not been called. The same happens when the task
    is cancelled while the session storage is being restored. *)
Theorem browser_left_running_when_agent_creation_fails :
  let failed := run_agent_task sample_request failing_agent_driver empty_machine in
  let cancelled :=
    run_agent_task sample_request cancelled_restore_driver returning_machine in
  calls failed.1 = [CallStart]
  ∧ failed.2 = Raise (Exception "Agent could not be created")
  ∧ calls cancelled.1 = [CallStart; CallAddInitScript]
  ∧ cancelled.2 = Raise CancelledError.
Proof. cbv zeta. repeat split; vm_compute; reflexivity. Qed.

(** With cooperative collaborators the session is exported before the
    browser is stopped. *)
Example cooperative_run_calls :
  calls (run_agent_task sample_request cooperative_driver returning_machine).1
  = [ CallStart; CallAddInitScript; CallAgentRun; CallExportStorageState;
      CallGetCurrentPage; CallEvaluate; CallStop ].
Proof. vm_compute. reflexivity. Qed.

(** *** Session storage *)

Lemma js_object_idemp (entries : gmap string string) :
  js_object (js_object entries) = js_object entries.
Proof. unfold js_object. apply delete_id, lookup_delete_eq. Qed.

Lemma export_session_storage_writes drv p m page :
  current_page drv = Ok (Some page) → evaluate_outcome drv = Ok () →
  mkdir_outcome drv = Ok () → write_outcome drv = Ok () →
  ∃ m', export_session_storage drv p m = (m', Ok ())
        ∧ session_files m' = <[p := Document (capture page)]> (session_files m)
        ∧ init_scripts m' = init_scripts m.
Proof.
  intros Hp He Hm Hw.
  unfold export_session_storage, try_except_M, call_driver, lift,
    write_session_file, mbind, M_bind, mret, M_ret.
  rewrite Hp, He, Hm, Hw. cbn. by eexists.
Qed.

Lemma restore_session_storage_registers drv p m doc :
  session_files m !! p = Some (Document doc) →
  add_init_script_outcome drv = Ok () →
  ∃ m', restore_session_storage drv p m = (m', Ok ())
        ∧ init_scripts m' =
            init_scripts m ++
            (if bool_decide (doc_data doc = ∅) then []
             else [restoration_script (doc_origin doc) (doc_data doc)]).
Proof.
  intros Hf Ha.
  unfold restore_session_storage, read_session_file, try_except_M, call_driver,
    register_init_script, lift, mbind, M_bind, mret, M_ret.
  rewrite Hf. cbn.
  destruct (bool_decide (doc_data doc = ∅)); cbn.
  - eexists. split; [reflexivity|]. by rewrite app_nil_r.
  - rewrite Ha. cbn. by eexists.
Qed.


(** *** Download reconciliation *)

Lemma length_app_string (a b : string) :
  String.length (a +:+ b) = (String.length a + String.length b)%nat.
Proof.
  induction a as [|c a IH]; [done|].
  change (S (String.length (a +:+ b)) = S (String.length a + String.length b)).
  by rewrite IH.
Qed.

Lemma take_drop_string (n : nat) (s : string) : str_take n s +:+ str_drop n s = s.
Proof.
  revert s. induction n as [|n IH]; intros [|c s]; simpl; try done.
  change (String c (str_take n s +:+ str_drop n s) = String c s).
  by rewrite IH.
Qed.

Lemma stem_suffix (name : string) : stem name +:+ suffix name = name.
Proof.
  unfold stem, suffix. destruct (split_point name) as [i|].
  - apply take_drop_string.
  - clear. induction name as [|c s IH]; [done|].
    change (String c (s +:+ "") = String c s). by rewrite IH.
Qed.

(** The renamed file never has the name of the file it avoids. *)
Lemma timestamped_other_name now name : timestamped now name ≠ name.
Proof.
  intros H. apply (f_equal String.length) in H.
  rewrite <- (stem_suffix name) in H at 2. unfold timestamped in H.
  rewrite !length_app_string in H. simpl in H. lia.
Qed.

Section Reconciliation.
Context (env : DownloadEnv) (download_dir : list string).

#[local] Abbreviation step_closed := (step_closed env download_dir).
#[local] Abbreviation tracked := (tracked download_dir).
#[local] Abbreviation arrived := (arrived env).
#[local] Abbreviation renamed := (renamed env).

Lemma move_entries_closed P tmp_dir entries st :
  step_closed P →
  P (ds_target st) (ds_downloaded_files st) →
  P (ds_target (move_entries env download_dir tmp_dir entries st))
    (ds_downloaded_files (move_entries env download_dir tmp_dir entries st)).
Proof.
  intros Hstep. unfold move_entries. revert st.
  induction entries as [|e entries IH]; intros st HP; [done|].
  simpl. apply IH, Hstep, HP.
Qed.

Lemma process_scratch_closed P acc dir :
  step_closed P →
  P (ds_target acc.1) (ds_downloaded_files acc.1) →
  P (ds_target (process_scratch env download_dir acc dir).1)
    (ds_downloaded_files (process_scratch env download_dir acc dir).1).
Proof.
  intros Hstep HP. destruct acc as [st remaining]. unfold process_scratch.
  destruct dir.2 as [entries|]; [|done].
  destruct (rmtree_fails env dir.1); cbn [fst];
    by apply move_entries_closed.
Qed.

Lemma sweep_closed P dirs acc :
  step_closed P →
  P (ds_target acc.1) (ds_downloaded_files acc.1) →
  P (ds_target (foldl (process_scratch env download_dir) acc dirs).1)
    (ds_downloaded_files (foldl (process_scratch env download_dir) acc dirs).1).
Proof.
  intros Hstep. revert acc.
  induction dirs as [|d dirs IH]; intros acc HP; [done|].
  simpl. by apply IH, process_scratch_closed.
Qed.

(** A property that the step for one particular entry establishes,
    given an invariant, and that no later step breaks. *)
Lemma move_entries_reach (I Q : gmap string string → list string → Prop)
    tmp_dir entries entry st :
  entry ∈ entries →
  step_closed I → step_closed Q →
  (∀ st, I (ds_target st) (ds_downloaded_files st) →
         Q (ds_target (move_entry env download_dir tmp_dir st entry))
           (ds_downloaded_files (move_entry env download_dir tmp_dir st entry))) →
  I (ds_target st) (ds_downloaded_files st) →
  Q (ds_target (move_entries env download_dir tmp_dir entries st))
    (ds_downloaded_files (move_entries env download_dir tmp_dir entries st)).
Proof.
  intros Hin HI HQ Hest. unfold move_entries. revert st.
  induction entries as [|e entries IH]; intros st Hst;
    [by apply elem_of_nil in Hin|].
  apply elem_of_cons in Hin as [->|Hin]; simpl.
  - apply (move_entries_closed Q); [done|]. by apply Hest.
  - apply IH; [done|]. by apply HI.
Qed.

Lemma sweep_reach (I Q : gmap string string → list string → Prop)
    dirs tmp_dir entries entry acc :
  (tmp_dir, Some entries) ∈ dirs → entry ∈ entries →
  step_closed I → step_closed Q →
  (∀ st, I (ds_target st) (ds_downloaded_files st) →
         Q (ds_target (move_entry env download_dir tmp_dir st entry))
           (ds_downloaded_files (move_entry env download_dir tmp_dir st entry))) →
  I (ds_target acc.1) (ds_downloaded_files acc.1) →
  Q (ds_target (foldl (process_scratch env download_dir) acc dirs).1)
    (ds_downloaded_files (foldl (process_scratch env download_dir) acc dirs).1).
Proof.
  intros Hdir Hin HI HQ Hest. revert acc.
  induction dirs as [|d dirs IH]; intros acc Hacc;
    [by apply elem_of_nil in Hdir|].
  apply elem_of_cons in Hdir as [<-|Hdir]; simpl.
  - apply (sweep_closed Q); [done|].
    destruct acc as [st remaining]. unfold process_scratch. cbn [fst snd].
    destruct (rmtree_fails env tmp_dir); cbn [fst];
      by apply (move_entries_reach I Q tmp_dir entries entry).
  - apply IH; [done|]. by apply process_scratch_closed.
Qed.

(** What is in the target directory stays there. *)
Lemma present_closed n : step_closed (fun target _ => is_Some (target !! n)).
Proof.
  intros tmp_dir st [name nd] H. unfold move_entry. cbn [fst snd].
  destruct nd as [content|]; [|done].
  destruct (bool_decide (is_Some (ds_target st !! name)));
    destruct (move_fails env tmp_dir name); try done;
    destruct (relative_to _ _); cbn [ds_target];
    rewrite lookup_insert; case_decide; eauto.
Qed.

(** A file of the target directory keeps its content, unless a
    renamed file is given its name. *)
Lemma kept_closed n v :
  (∀ k n', timestamped (clock env k) n' ≠ n) →
  step_closed (fun target _ => target !! n = Some v).
Proof.
  intros Hts tmp_dir st [name nd] H. unfold move_entry. cbn [fst snd].
  destruct nd as [content|]; [|done].
  case_bool_decide as Hex;
    destruct (move_fails env tmp_dir name); try done;
    destruct (relative_to _ _); cbn [ds_target];
    rewrite lookup_insert_ne; try done;
    first [apply Hts | intros <-; apply Hex; by rewrite H].
Qed.

Lemma tracked_closed : step_closed tracked.
Proof.
  intros tmp_dir st [name nd] H. unfold move_entry. cbn [fst snd].
  destruct nd as [content|]; [|done].
  assert (Hgrow : ∀ dest f,
            f ∈ ds_downloaded_files st →
            ∃ name' rel,
              relative_to (download_dir ++ [name']) downloads_root = Ok rel
              ∧ f = join "/" rel
              ∧ is_Some (<[dest := content]> (ds_target st) !! name')).
  { intros dest f Hf. destruct (H f Hf) as (n & rel & ? & ? & ?).
    exists n, rel. repeat split; try done.
    rewrite lookup_insert. case_decide; eauto. }
  destruct (bool_decide (is_Some (ds_target st !! name)));
    destruct (move_fails env tmp_dir name); try done;
    destruct (relative_to _ _) as [rel|] eqn:Hrel;
    cbn [ds_target ds_downloaded_files]; intros f Hf;
    try (by apply Hgrow).
  all: apply elem_of_app in Hf as [Hf|Hf%list_elem_of_singleton];
    [by apply Hgrow|]; subst f.
  all: eexists _, rel; split; [exact Hrel|]; split; [done|];
    rewrite lookup_insert_eq; eauto.
Qed.

Lemma arrived_closed name : step_closed (arrived name).
Proof.
  intros tmp_dir st entry (dest & Hd & Hname).
  exists dest. split; [|done].
  by apply (present_closed dest tmp_dir st entry).
Qed.

Lemma move_entry_arrives tmp_dir name content st :
  move_fails env tmp_dir name = false →
  arrived name
    (ds_target (move_entry env download_dir tmp_dir st (name, RegularFile content)))
    (ds_downloaded_files
       (move_entry env download_dir tmp_dir st (name, RegularFile content))).
Proof.
  intros Hmove. unfold move_entry. cbn [fst snd]. rewrite Hmove.
  destruct (bool_decide (is_Some (ds_target st !! name)));
    destruct (relative_to _ _); cbn [ds_target];
    eexists; (split; [rewrite lookup_insert_eq; eauto|]); eauto.
Qed.

Lemma renamed_closed name : step_closed (renamed name).
Proof.
  intros tmp_dir st entry (k & Hk). exists k.
  by apply (present_closed _ tmp_dir st entry).
Qed.

Lemma move_entry_renames tmp_dir name content st :
  move_fails env tmp_dir name = false →
  is_Some (ds_target st !! name) →
  renamed name
    (ds_target (move_entry env download_dir tmp_dir st (name, RegularFile content)))
    (ds_downloaded_files
       (move_entry env download_dir tmp_dir st (name, RegularFile content))).
Proof.
  intros Hmove Hex. unfold move_entry. cbn [fst snd]. rewrite Hmove.
  rewrite bool_decide_eq_true_2 by done.
  exists (ds_ticks st).
  destruct (relative_to _ _); cbn [ds_target]; rewrite lookup_insert_eq; eauto.
Qed.

(** A scratch directory is still there afterwards only if its removal
    failed. *)
Lemma sweep_remaining dirs acc d left :
  (d, Some left) ∈ (foldl (process_scratch env download_dir) acc dirs).2 →
  (d, Some left) ∈ acc.2 ∨ rmtree_fails env d = true.
Proof.
  revert acc. induction dirs as [|dir dirs IH]; intros acc H; [by left|].
  simpl in H. apply IH in H as [H|H]; [|by right].
  destruct acc as [st remaining]. destruct dir as [path [entries|]];
    unfold process_scratch in H; cbn [fst snd] in H.
  - destruct (rmtree_fails env path) eqn:Hrm; cbn [snd] in H; [|by left].
    apply elem_of_app in H as [H|H%list_elem_of_singleton]; [by left|].
    right. by injection H as -> _.
  - apply elem_of_app in H as [H|H%list_elem_of_singleton]; [by left|].
    discriminate H.
Qed.

Lemma handle_downloads_sweep fs :
  let swept :=
    foldl (process_scratch env download_dir)
          ({| ds_target := target fs; ds_ticks := 0;
              ds_downloaded_files := []; ds_left := [] |}, [])
          (scratch fs) in
  handle_downloads env download_dir fs =
    (ds_downloaded_files swept.1,
     {| target := ds_target swept.1; scratch := swept.2 |}).
Proof. cbv zeta. unfold handle_downloads. by destruct (foldl _ _ _). Qed.
End Reconciliation.

Lemma timestamped_length now name :
  String.length (timestamped now name)
  = (String.length name + 1 + String.length (strftime_compact now))%nat.
Proof.
  rewrite <- (stem_suffix name) at 2. unfold timestamped.
  rewrite !length_app_string. simpl. lia.
Qed.

(** The timestamp has the granularity of a second: the microseconds of
    the clock reading do not show in the name. *)
Lemma timestamp_second_granularity now micro name :
  timestamped {| dt_year := dt_year now; dt_month := dt_month now;
                 dt_day := dt_day now; dt_hour := dt_hour now;
                 dt_minute := dt_minute now; dt_second := dt_second now;
                 dt_microsecond := micro |} name
  = timestamped now name.
Proof. reflexivity. Qed.




(** The same run on a file system that lets the directory go. *)
Example reconciliation_of_a_collision :
  let out := handle_downloads quiet_download_env sample_download_dir colliding_fs in
  out.1 = [ "customer_7/task_01234567/report_20240101_120000.pdf";
            "customer_7/task_01234567/notes.txt" ]
  ∧ target out.2 = {[ "report.pdf" := "old report";
                      "report_20240101_120000.pdf" := "new report";
                      "notes.txt" := "notes" ]}
  ∧ scratch out.2 = [].
Proof. cbv zeta. repeat split; vm_compute; reflexivity. Qed.

(** *** The statements at concrete inputs *)

Lemma sample_history_answers : answers sample_history sample_core.
Proof. repeat split. Defined.

Lemma sample_judgement_guarded : guarded (judgement sample_history).
Proof. intros e [= <-]. reflexivity. Defined.

Lemma sample_usage_guarded : guarded (usage sample_history).
Proof. intros e [=]. Defined.

Lemma sample_content_guarded : guarded (extracted_content sample_history).
Proof. intros e [=]. Defined.

Lemma sample_thoughts_guarded : guarded (model_thoughts sample_history).
Proof. intros e [=]. Defined.




Lemma rate_limit_classification_witness :
  str_in "rate_limit_exceeded" "Error code: 429 - rate_limit_exceeded" = true
  ∧ ∃ reg' response,
      execute_task sample_request
        (Some (5%Q, aggregate_results sample_history sample_request None [] None))
        sample_surroundings empty_registry = (reg', Ok response)
      ∧ ∃ text, rs_error response = Some text
                ∧ startswith rate_limit_guidance text = true.
Proof.
  split; [reflexivity|].
  destruct (rate_limit_classification sample_history sample_core sample_request
              None [] None 5 sample_surroundings empty_registry
              sample_history_answers sample_judgement_guarded sample_usage_guarded
              sample_content_guarded sample_thoughts_guarded eq_refl eq_refl
              "Error code: 429 - rate_limit_exceeded")
    as (reg' & response & result & _ & Hexec & Hopenai & _).
  - apply list_elem_of_further, list_elem_of_here.
  - reflexivity.
  - exists reg', response. split; [exact Hexec|].
    destruct (Hopenai eq_refl) as (_ & text & Htext & _ & Hprefix).
    exists text. split; assumption.
Defined.

Lemma cost_reporting_witness :
  lacks_direct_cost sample_history
  ∧ ∃ reg' response,
      execute_task sample_request
        (Some (5%Q, aggregate_results sample_history sample_request None [] None))
        sample_surroundings empty_registry = (reg', Ok response)
      ∧ rs_cost response = None ∧ rs_llm_calls response = 3%Z.
Proof.
  split; [by left|].
  destruct (cost_reporting sample_history sample_core sample_request
              None [] None 5 sample_surroundings empty_registry
              sample_history_answers sample_judgement_guarded sample_usage_guarded
              sample_content_guarded sample_thoughts_guarded eq_refl eq_refl)
    as (reg' & response & Hexec & _ & Hlacks & _).
  exists reg', response. split; [exact Hexec|].
  apply Hlacks; [reflexivity | by left; left].
Defined.

Lemma debug_bundle_presence_witness :
  rq_debug_mode sample_request = true
  ∧ ∃ reg' response bundle performance,
      execute_task sample_request
        (Some (5%Q, aggregate_results sample_history sample_request None [] None))
        sample_surroundings empty_registry = (reg', Ok response)
      ∧ rs_debug_data response = Some bundle
      ∧ bundle !! "performance" = Some (VDict performance)
      ∧ performance !! "steps" = Some (VInt (rs_steps_taken response)).
Proof.
  split; [reflexivity|].
  destruct (debug_bundle_presence sample_history sample_core sample_request
              None [] None 5 sample_surroundings empty_registry
              sample_history_answers sample_judgement_guarded sample_usage_guarded
              sample_content_guarded sample_thoughts_guarded eq_refl eq_refl)
    as (reg' & response & result & _ & Hexec & _ & Hdebug).
  destruct (Hdebug eq_refl) as (bundle & performance & _ & H1 & H2 & H3).
  exists reg', response, bundle, performance. repeat split; assumption.
Defined.

Lemma success_flag_rule_witness :
  c_is_successful sample_core = None
  ∧ ∃ reg' response,
      execute_task sample_request
        (Some (5%Q, aggregate_results sample_history sample_request None [] None))
        sample_surroundings empty_registry = (reg', Ok response)
      ∧ rs_success response = true.
Proof.
  split; [reflexivity|].
  destruct (success_flag_rule sample_history sample_core sample_request
              None [] None 5 sample_surroundings empty_registry
              sample_history_answers sample_judgement_guarded sample_usage_guarded
              sample_content_guarded sample_thoughts_guarded eq_refl eq_refl)
    as (reg' & response & Hexec & Hsuccess).
  exists reg', response. split; assumption.
Defined.

(** *** From the run to the reply *)

Lemma run_and_release_result request drv state_path session_path m history :
  (run_and_release request drv state_path session_path m).2 = Ok history →
  run_outcome drv = Ok history.
Proof.
  unfold run_and_release, try_finally, try_except_M, export_session_storage,
    try_except_M, call_driver, lift, write_storage_state, write_session_file,
    mbind, M_bind, mret, M_ret.
  simpl. run_cases; cbn [snd]; congruence.
Qed.

(** A run that returns hands [execute_task] the aggregated results of
    the history that [agent.run] returned. *)
Lemma run_agent_task_result request drv m result :
  (run_agent_task request drv m).2 = Ok result →
  ∃ history gif_path downloaded_files conversation_path,
    run_outcome drv = Ok history
    ∧ aggregate_results history request gif_path downloaded_files
        conversation_path = Ok result.
Proof.
  unfold run_agent_task. unfold mbind, M_bind. unfold lift at 1.
  destruct (setup_llms_outcome drv) as [|e]; [|done].
  destruct (setup_directories request drv m) as [m1 [[[conv dir] tdir]|e]];
    [|done].
  destruct (setup_browser_profile request drv m1) as [m2 [[sp ssp]|e]]; [|done].
  unfold lift at 1. destruct (create_browser_outcome drv) as [|e]; [|done].
  unfold call_driver at 1. destruct (start_outcome drv) as [|e]; [|done].
  destruct (match ssp with
            | Some session_path => restore_session_storage drv session_path
            | None => mret ()
            end _) as [m4 [|e]]; [|done].
  destruct (create_agent request drv dir tdir m4) as [m5 [gif|e]]; [|done].
  pose proof (run_and_release_result request drv sp ssp m5) as Hrun.
  destruct (run_and_release request drv sp ssp m5) as [m6 [history|e]]; [|done].
  destruct (reconcile_downloads drv dir m6) as [m7 [files|e]]; [|done].
  unfold lift. cbn [snd]. intros Hagg.
  exists history, gif, files, conv. split; [by apply Hrun|exact Hagg].
Qed.

Lemma awaited_run_result request drv m elapsed result :
  awaited_run request drv m elapsed = Some (elapsed, Ok result) →
  ∃ history gif_path downloaded_files conversation_path,
    run_outcome drv = Ok history
    ∧ aggregate_results history request gif_path downloaded_files
        conversation_path = Ok result.
Proof.
  unfold awaited_run. intros [= H]. by apply (run_agent_task_result request drv m).
Qed.

Lemma completed_response_time task_id t result response :
  completed_response task_id t result = Ok response →
  rs_execution_time response = t.
Proof.
  unfold completed_response, mbind, res_bind, mret, res_ret.
  repeat match goal with
    | |- context [match ?x with Ok _ => _ | Raise _ => _ end] =>
        destruct x; [|discriminate]
    end.
  by intros [= <-].
Qed.

(** The cancelled reply is built without an execution time: the field
    keeps its default. *)
Lemma cancelled_reply_time request run env reg reg' reply :
  execute_task_traced request run env reg = (reg', Ok (ByCancellation, reply)) →
  reply = cancelled_response (assigned_task_id request env)
  ∧ rs_execution_time reply = 0%Q.
Proof.
  unfold execute_task_traced, registry_register. cbv zeta.
  destruct (wait_for run (rq_timeout request) (overrun env)).2 as [result|e];
    simpl.
  - destruct (objects (serve_cancels (cancels env) _) !! _) as [task|]; simpl.
    + destruct (bt_cancelled task); simpl.
      * destruct (BrowserTask_get_partial_result task) as [p|e]; simpl.
        -- by intros [= _ <-].
        -- destruct (is_TimeoutError e); [|destruct (is_Exception e)];
             intros [=].
      * destruct (completed_response _ _ result) as [r|e]; simpl; [intros [=]|].
        destruct (is_TimeoutError e); [|destruct (is_Exception e)]; intros [=].
    + destruct (completed_response _ _ result) as [r|e]; simpl; [intros [=]|].
      destruct (is_TimeoutError e); [|destruct (is_Exception e)]; intros [=].
  - destruct (is_TimeoutError e); [|destruct (is_Exception e)]; intros [=].
Qed.

(** *** The definitions at small inputs *)

Example stem_suffix_report : stem "report.pdf" = "report" ∧ suffix "report.pdf" = ".pdf".
Proof. split; reflexivity. Qed.

Example stem_suffix_archive :
  stem "archive.tar.gz" = "archive.tar" ∧ suffix "archive.tar.gz" = ".gz".
Proof. split; reflexivity. Qed.

Example stem_suffix_hidden : stem ".bashrc" = ".bashrc" ∧ suffix ".bashrc" = "".
Proof. split; reflexivity. Qed.

Example strftime_compact_sample : strftime_compact sample_datetime = "20240101_120000".
Proof. reflexivity. Qed.

Example timestamped_report :
  timestamped sample_datetime "report.pdf" = "report_20240101_120000.pdf".
Proof. reflexivity. Qed.

Example rate_limit_detected :
  is_rate_limit_error "Error code: 429 - Rate_Limit_Exceeded" = true
  ∧ is_rate_limit_error "connection reset" = false
  ∧ is_rate_limit_error "" = false.
Proof. repeat split; reflexivity. Qed.

Example empty_json_detected :
  is_empty_json_error "1 validation error: Invalid JSON: EOF while parsing" = true
  ∧ is_empty_json_error "connection reset" = false.
Proof. split; reflexivity. Qed.

Example relative_to_root :
  relative_to (sample_download_dir ++ ["report.pdf"]) downloads_root
  = Ok ["customer_7"; "task_01234567"; "report.pdf"]
  ∧ relative_to ["tmp"; "report.pdf"] downloads_root
    = Raise (Exception "path is not in the subpath of the root").
Proof. split; reflexivity. Qed.

Example origin_literals :
  origin_literal_ok "https://example.com:8443" = true
  ∧ origin_literal_ok "https://exam'ple.com" = false.
Proof. split; reflexivity. Qed.

(** A usage record with a total cost, on the completion path. *)
Example priced_run_reports_cost :
  let run := Some (5%Q, aggregate_results priced_history sample_request None [] None) in
  let reply := (execute_task sample_request run sample_surroundings empty_registry).2 in
  rs_cost <$> reply = Ok (Some (1 # 4))
  ∧ rs_cost_currency <$> reply = Ok "USD"
  ∧ rs_llm_calls <$> reply = Ok 1%Z
  ∧ rs_steps_taken <$> reply = Ok 3%Z
  ∧ rs_execution_time <$> reply = Ok (1000 + 0 + 5 + 0 - 1000)%Q.
Proof. cbv zeta. repeat split; vm_compute; reflexivity. Qed.

(** A cancel request served while the task runs: the reply is the
    cancelled one. *)
Example cancelled_while_running :
  let run := Some (5%Q, aggregate_results sample_history sample_request None [] None) in
  let env := {| uuid_hex12 := "0123456789ab"; start_time := 1000; before_wait := 0;
                overrun := 0; after_wait := 0; cancels := ["t1"] |} in
  let reply := (execute_task sample_request run env empty_registry).2 in
  rs_success <$> reply = Ok false
  ∧ rs_error <$> reply = Ok (Some "Task cancelled")
  ∧ rs_execution_time <$> reply = Ok 0%Q.
Proof. cbv zeta. repeat split; vm_compute; reflexivity. Qed.

(** The whole chain on cooperative collaborators: the run, awaited
    under the deadline, and the reply built from its result. *)
Example cooperative_execution :
  let run := awaited_run sample_request cooperative_driver returning_machine 5 in
  let reply := (execute_task sample_request run sample_surroundings empty_registry).2 in
  rs_task_id <$> reply = Ok "t1"
  ∧ rs_success <$> reply = Ok true
  ∧ rs_result <$> reply = Ok (Some "report.pdf saved")
  ∧ rs_final_url <$> reply = Ok (Some "https://example.com/reports")
  ∧ rs_steps_taken <$> reply = Ok 3%Z
  ∧ rs_execution_time <$> reply = Ok 5%Q
  ∧ rs_llm_calls <$> reply = Ok 3%Z
  ∧ rs_judge_verdict <$> reply = Ok None
  ∧ rs_cost <$> reply = Ok None
  ∧ rs_downloaded_files <$> reply = Ok [].
Proof. cbv zeta. repeat split; vm_compute; reflexivity. Qed.

(** ** The helpers of [utils.py] *)

(** X1. [normalize_use_vision] yields [True], [False] or ["auto"] and
    nothing else, and normalising a normalised value changes nothing. *)
Theorem normalize_use_vision_idempotent (v : value) :
  normalize_use_vision v ∈ [VBool true; VBool false; VStr "auto"]
  ∧ normalize_use_vision (normalize_use_vision v) = normalize_use_vision v.
Proof.
  destruct v as [|[|]| | |s| |]; simpl;
    try (split; [set_solver|reflexivity]).
  destruct (String.eqb (lower s) "true"); [split; [set_solver|reflexivity]|].
  destruct (String.eqb (lower s) "false"); split; (set_solver || reflexivity).
Qed.

Lemma string_app_assoc (a b c : string) : (a +:+ b) +:+ c = a +:+ (b +:+ c).
Proof.
  induction a as [|x a IH]; [done|].
  change (String x ((a +:+ b) +:+ c) = String x (a +:+ (b +:+ c))). by rewrite IH.
Qed.

Lemma str_in_embedded p a s b : str_in p s = true → str_in p (a +:+ s +:+ b) = true.
Proof.
  intros (a' & b' & ->)%str_in_inv.
  replace (a +:+ (a' +:+ p +:+ b') +:+ b) with ((a +:+ a') +:+ p +:+ (b' +:+ b)).
  - apply str_in_intro.
  - by rewrite !string_app_assoc.
Qed.

Lemma str_truthy_lower s : str_truthy (lower s) = str_truthy s.
Proof. by destruct s. Qed.

Lemma str_truthy_embedded a s b :
  str_truthy s = true → str_truthy (a +:+ s +:+ b) = true.
Proof. destruct a; [|done]. by destruct s. Qed.

Lemma is_rate_limit_error_lower e :
  is_rate_limit_error e
  = negb (negb (str_truthy (lower e)))
    && existsb (fun indicator => str_in indicator (lower e)) rate_limit_indicators.
Proof.
  unfold is_rate_limit_error. rewrite str_truthy_lower.
  by destruct (str_truthy e).
Qed.

Lemma is_empty_json_error_lower e :
  is_empty_json_error e
  = negb (negb (str_truthy (lower e)))
    && existsb (fun indicator => str_in (lower indicator) (lower e))
               empty_json_indicators.
Proof.
  unfold is_empty_json_error. rewrite str_truthy_lower.
  by destruct (str_truthy e).
Qed.

(** X2. Whether an error text counts as a rate-limit error or as an
    empty-JSON error depends on the text only up to the case of its
    letters. *)
Theorem error_detection_ignores_case (e e' : string) :
  lower e = lower e' →
  is_rate_limit_error e = is_rate_limit_error e'
  ∧ is_empty_json_error e = is_empty_json_error e'.
Proof.
  intros H. rewrite !is_rate_limit_error_lower, !is_empty_json_error_lower.
  by rewrite H.
Qed.

Lemma error_detection_ignores_case_witness :
  lower "Rate Limit reached: Expecting Value" = lower "RATE LIMIT REACHED: expecting value"
  ∧ is_rate_limit_error "Rate Limit reached: Expecting Value"
    = is_rate_limit_error "RATE LIMIT REACHED: expecting value"
  ∧ is_empty_json_error "Rate Limit reached: Expecting Value"
    = is_empty_json_error "RATE LIMIT REACHED: expecting value".
Proof.
  split; [reflexivity|].
  apply (error_detection_ignores_case
           "Rate Limit reached: Expecting Value" "RATE LIMIT REACHED: expecting value").
  reflexivity.
Defined.

Lemma existsb_embedded (f : string → string) (l : list string) a s b :
  existsb (fun indicator => str_in (f indicator) s) l = true →
  existsb (fun indicator => str_in (f indicator) (a +:+ s +:+ b)) l = true.
Proof.
  rewrite !existsb_exists. intros (x & Hx & Hin).
  exists x. split; [done|]. by apply str_in_embedded.
Qed.

(** X3. An error text that embeds a rate-limit (empty-JSON) error text
    is itself a rate-limit (empty-JSON) error text: detection looks for
    the markers anywhere in the text. *)
Theorem error_detection_survives_embedding (e a b : string) :
  (is_rate_limit_error e = true → is_rate_limit_error (a +:+ e +:+ b) = true)
  ∧ (is_empty_json_error e = true → is_empty_json_error (a +:+ e +:+ b) = true).
Proof.
  rewrite !is_rate_limit_error_lower, !is_empty_json_error_lower.
  rewrite !negb_involutive, !str_truthy_lower, !lower_app.
  split; intros [He Hex]%andb_true_iff; apply andb_true_iff; split.
  - by apply str_truthy_embedded.
  - by apply (existsb_embedded (fun i => i)).
  - by apply str_truthy_embedded.
  - by apply (existsb_embedded lower).
Qed.

Lemma error_detection_survives_embedding_witness :
  is_rate_limit_error "429" = true
  ∧ is_rate_limit_error ("Error code: " +:+ "429" +:+ " - try again") = true.
Proof.
  split; [reflexivity|].
  apply (error_detection_survives_embedding "429" "Error code: " " - try again").
  reflexivity.
Defined.

Lemma str_take_length n s : (String.length (str_take n s) ≤ n)%nat.
Proof.
  revert s. induction n as [|n IH]; intros [|c s]; simpl; try lia.
  specialize (IH s). lia.
Qed.

(** X4. The guidance text is bounded: whatever the length of the
    original error, at most 200 of its characters are quoted (and at
    most 100 more in the heading of an unclassified error). *)
Theorem openai_error_message_bounded (original_error error_type : string) :
  (String.length (format_openai_error_message original_error error_type) ≤ 443)%nat
  ∧ (original_error = "" →
       str_in "Original error" (format_openai_error_message original_error error_type)
       = false).
Proof.
  split.
  - unfold format_openai_error_message.
    pose proof (str_take_length 100 original_error) as H100.
    pose proof (str_take_length 200 original_error) as H200.
    destruct (String.eqb error_type "empty_json");
      [|destruct (String.eqb error_type "rate_limit")];
      cbv beta iota zeta; destruct (str_truthy original_error);
      rewrite ?length_app_string;
      repeat match goal with
        | |- context [String.length (str_take ?n ?s)] =>
            generalize dependent (String.length (str_take n s)); intros
        end;
      vm_compute String.length; lia.
  - intros ->. unfold format_openai_error_message.
    destruct (String.eqb error_type "empty_json");
      [|destruct (String.eqb error_type "rate_limit")]; vm_compute; reflexivity.
Qed.

(** ** [llm_factory.py] *)

Ltac provider_cases p :=
  destruct (String.eqb_spec p "browseruse");
  [|destruct (String.eqb_spec p "gemini");
    [|destruct (String.eqb_spec p "google");
      [|destruct (String.eqb_spec p "openai");
        [|destruct (String.eqb_spec p "anthropic")]]]];
  try subst p.

(** X5. When the request names no model, the model that [create_llm]
    passes to the class it constructs is the one that
    [get_default_model] reports for the provider, whatever the case of
    the provider's name and also when the provider is unknown. *)
Theorem default_model_used
    (available : string → bool) (provider : string) (model : option string)
    (temperature : Q) (llm : LLM) :
  create_llm available provider model temperature = Ok llm →
  model = None ∨ model = Some "" →
  lower provider ≠ "browseruse" →
  llm_model llm = Some (get_default_model provider).
Proof.
  unfold create_llm, get_default_model, import_from_browser_use. cbv zeta.
  generalize (lower provider). intros p Hllm Hmodel Hp.
  assert (∀ dflt, model_or model dflt = dflt) as Hor
    by (by destruct Hmodel as [->| ->]).
  provider_cases p; try done; simpl in Hllm; rewrite ?Hor in Hllm;
    match type of Hllm with
    | context [available ?c] => destruct (available c); [|done]
    end;
    simpl in Hllm; injection Hllm as <-; simpl; f_equal;
    first [ by vm_compute
          | rewrite !lookup_insert_ne by congruence; by rewrite lookup_empty ].
Qed.

Lemma default_model_used_witness :
  create_llm (fun _ => true) "OpenAI" None 0 = Ok (ChatOpenAI "gpt-5-mini")
  ∧ llm_model (ChatOpenAI "gpt-5-mini") = Some (get_default_model "OpenAI").
Proof.
  split; [reflexivity|].
  apply (default_model_used (fun _ => true) "OpenAI" None 0 (ChatOpenAI "gpt-5-mini"));
    [reflexivity | by left | by vm_compute].
Defined.




Lemma classify_errors_other_provider provider errs :
  provider ≠ "openai" → classify_errors provider errs = (false, false).
Proof.
  intros Hp. unfold classify_errors. destruct errs; [done|].
  by destruct (String.eqb_spec provider "openai").
Qed.

(** X7. The provider's name is compared without regard to case when the
    LLM is created but literally when errors are classified: a request
    for [OpenAI] (any spelling other than [openai]) runs on ChatOpenAI,
    yet none of its errors is marked as an OpenAI rate-limit or
    empty-JSON error. *)
Theorem provider_spelling_mismatch
    (available : string → bool) (request : TaskRequest) (options : SetupOptions)
    (llm : LLM) (page_extraction_llm : option LLM)
    (h : History) (c : Core) (gif_path : option string) :
  lower (rq_llm_provider request) = "openai" →
  rq_llm_provider request ≠ "openai" →
  setup_llms available request options = Ok (llm, page_extraction_llm) →
  answers h c → guarded (judgement h) →
  (∃ model, llm = ChatOpenAI model)
  ∧ ∃ basic,
      extract_basic_results h request gif_path = Ok basic
      ∧ basic !! "openai_rate_limit" = Some (VBool false)
      ∧ basic !! "openai_empty_json" = Some (VBool false).
Proof.
  intros Hlower Hp Hsetup Hanswers Hjudge. split.
  - unfold setup_llms, create_llm, import_from_browser_use in Hsetup.
    cbv zeta in Hsetup. rewrite Hlower in Hsetup. simpl in Hsetup.
    destruct (available "ChatOpenAI"); [|done]. simpl in Hsetup.
    destruct (match rq_page_extraction_llm_provider options with
              | Some _ => _ | None => _ end) in Hsetup; [|done].
    simpl in Hsetup. injection Hsetup as <- _. by eexists.
  - destruct (basic_results_returns h c request gif_path Hanswers Hjudge)
      as (basic & verdict & Hbasic & _ & _ & _ & _ & _ & _ & _ & _ & _ & He & Hr & _).
    exists basic. split; [exact Hbasic|].
    rewrite (classify_errors_other_provider _ _ Hp) in He, Hr. by split.
Qed.

Lemma provider_spelling_mismatch_witness :
  is_rate_limit_error "Error code: 429 - rate_limit_exceeded" = true
  ∧ (∃ model, ChatOpenAI "gpt-5-mini" = ChatOpenAI model)
  ∧ ∃ basic,
      extract_basic_results sample_history capitalised_request None = Ok basic
      ∧ basic !! "openai_rate_limit" = Some (VBool false)
      ∧ basic !! "openai_empty_json" = Some (VBool false).
Proof.
  split; [reflexivity|].
  apply (provider_spelling_mismatch (fun _ => true) capitalised_request sample_options
           (ChatOpenAI "gpt-5-mini") None sample_history sample_core None).
  - reflexivity.
  - discriminate.
  - reflexivity.
  - exact sample_history_answers.
  - exact sample_judgement_guarded.
Defined.

(** ** [logging_config.py] *)

Lemma str_drop_app (a b : string) : str_drop (String.length a) (a +:+ b) = b.
Proof. induction a as [|x a IH]; [by destruct b|exact IH]. Qed.

(** The short path of a log record is its path without one leading
    [/app/]; a path elsewhere is kept as it is. *)
Lemma shortpathname_trims_prefix (pathname : string) :
  (startswith PATH_TRIM_PREFIX pathname = true
   ∧ PATH_TRIM_PREFIX +:+ shortpathname (Some pathname) = pathname)
  ∨ (startswith PATH_TRIM_PREFIX pathname = false
     ∧ shortpathname (Some pathname) = pathname).
Proof.
  unfold shortpathname. simpl default.
  destruct (startswith PATH_TRIM_PREFIX pathname) eqn:Hp; [left|right; done].
  split; [done|]. apply startswith_inv in Hp as [b ->].
  by rewrite str_drop_app.
Qed.

Lemma setup_logging_failure mkdir open_log_file st e :
  (setup_logging mkdir open_log_file st).2 = Raise e →
  LOGGING_CONFIGURED (setup_logging mkdir open_log_file st).1 = false
  ∧ root_handlers (setup_logging mkdir open_log_file st).1 = root_handlers st.
Proof.
  unfold setup_logging, _install_log_record_factory.
  destruct (LOGGING_CONFIGURED st) eqn:Hc; [done|].
  destruct mkdir; [destruct open_log_file; [done|]|];
    destruct (LOG_RECORD_FACTORY_CONFIGURED st); simpl; by intros _.
Qed.

(** X8. Logging is configured once: after a call of [setup_logging]
    that returned, a further call changes nothing, so the root logger
    gets its two handlers a single time, whatever has become of the
    log directory in between. *)
Theorem setup_logging_configures_once
    (mkdir open_log_file : res ()) (st : Logging) :
  (setup_logging mkdir open_log_file st).2 = Ok () →
  let st' := (setup_logging mkdir open_log_file st).1 in
  LOGGING_CONFIGURED st' = true
  ∧ (LOGGING_CONFIGURED st = false →
       length (root_handlers st') = (length (root_handlers st) + 2)%nat)
  ∧ ∀ mkdir' open_log_file',
      setup_logging mkdir' open_log_file' st' = (st', Ok ()).
Proof.
  unfold setup_logging, _install_log_record_factory.
  destruct (LOGGING_CONFIGURED st) eqn:Hc.
  - intros _. simpl. rewrite Hc. by repeat split.
  - destruct mkdir; [|done]. destruct open_log_file; [|done].
    intros _. simpl. repeat split.
    + intros _. destruct (LOG_RECORD_FACTORY_CONFIGURED st);
        rewrite length_app; simpl; lia.
Qed.

Lemma setup_logging_configures_once_witness :
  let st' := (setup_logging (Ok ()) (Ok ()) initial_logging).1 in
  LOGGING_CONFIGURED st' = true
  ∧ (LOGGING_CONFIGURED initial_logging = false →
       length (root_handlers st') = (length (root_handlers initial_logging) + 2)%nat)
  ∧ ∀ mkdir' open_log_file',
      setup_logging mkdir' open_log_file' st' = (st', Ok ()).
Proof.
  apply (setup_logging_configures_once (Ok ()) (Ok ()) initial_logging). reflexivity.
Defined.

(** ** The [/providers] listing *)

(** X30. The default model that [/providers] advertises for a provider
    is the one that [get_default_model] reports, and [create_llm] uses,
    for browseruse and gemini only; for openai and anthropic the listing
    names a model that the service does not use by default. *)
Theorem advertised_default_models (provider : string) :
  advertised_default_model provider = Some (VStr (get_default_model provider))
  ↔ provider = "browseruse" ∨ provider = "gemini".
Proof.
  unfold advertised_default_model, list_providers.
  rewrite lookup_insert_ne by done. rewrite lookup_insert_ne by done.
  rewrite lookup_insert_eq.
  destruct (decide (provider = "anthropic")) as [->|?];
    [split; [by vm_compute|intros [|]; done]|].
  rewrite lookup_insert_ne by done.
  destruct (decide (provider = "openai")) as [->|?];
    [split; [by vm_compute|intros [|]; done]|].
  rewrite lookup_insert_ne by done.
  destruct (decide (provider = "gemini")) as [->|?];
    [split; [by right|intros _; by vm_compute]|].
  rewrite lookup_insert_ne by done.
  destruct (decide (provider = "browseruse")) as [->|?];
    [split; [by left|intros _; by vm_compute]|].
  rewrite lookup_insert_ne by done. rewrite lookup_empty.
  split; [done|intros [|]; done].
Qed.

(** ** Setting up a run *)

Lemma setup_directories_machine request drv m :
  (setup_directories request drv m).1 = m.
Proof.
  unfold setup_directories, mbind, M_bind, lift, mret, M_ret.
  destruct (rq_save_conversation request), (mkdir_outcome drv); reflexivity.
Qed.

Lemma setup_browser_profile_machine request drv m :
  (setup_browser_profile request drv m).1 = m.
Proof.
  unfold setup_browser_profile, mbind, M_bind, lift, mret, M_ret.
  destruct (rq_session_enabled request), (mkdir_outcome drv); reflexivity.
Qed.

Lemma create_agent_machine request drv dir name m :
  (create_agent request drv dir name m).1 = m.
Proof.
  unfold create_agent, mbind, M_bind, lift, mret, M_ret.
  destruct (create_agent_outcome drv); reflexivity.
Qed.

Lemma customer_dir_effective r1 r2 :
  default "default" (customer_dir r1) = default "default" (customer_dir r2)
  ↔ effective_customer r1 = effective_customer r2.
Proof.
  unfold customer_dir, effective_customer.
  destruct (rq_customer_id r1) as [n1|], (rq_customer_id r2) as [n2|];
    try destruct (n1 =? 0)%Z; try destruct (n2 =? 0)%Z; simpl;
    split; try done; try discriminate.
  - intros [= H]. apply pretty_Z_inj in H. by subst.
  - by intros [= ->].
Qed.

(** X9. Two requests with session persistence share their
    [storage_state.json] and [session_storage.json] exactly when they
    are filed under the same customer, where the customer id [0] counts
    as no customer: distinct customers never read each other's session,
    and requests without a customer id all use the same one. *)
Theorem session_files_per_customer
    (r1 r2 : TaskRequest) (drv1 drv2 : Driver) (m1 m2 : Machine)
    (state1 session1 state2 session2 : list string) :
  (setup_browser_profile r1 drv1 m1).2 = Ok (Some state1, Some session1) →
  (setup_browser_profile r2 drv2 m2).2 = Ok (Some state2, Some session2) →
  (state1 = state2 ↔ effective_customer r1 = effective_customer r2)
  ∧ (session1 = session2 ↔ effective_customer r1 = effective_customer r2).
Proof.
  unfold setup_browser_profile, mbind, M_bind, lift, mret, M_ret.
  destruct (rq_session_enabled r1); [|done].
  destruct (rq_session_enabled r2); [|done].
  destruct (mkdir_outcome drv1); [|done]. destruct (mkdir_outcome drv2); [|done].
  cbn [negb fst snd]. intros [= <- <-] [= <- <-].
  rewrite <- customer_dir_effective.
  split; (split; [intros [= H]; exact H | intros ->; reflexivity]).
Qed.

Lemma session_files_per_customer_witness :
  (["storage"; "auth"; "customer_7"; "storage_state.json"]
   = ["storage"; "auth"; "customer_7"; "storage_state.json"]
   ↔ effective_customer sample_request = effective_customer capitalised_request)
  ∧ (["storage"; "auth"; "customer_7"; "session_storage.json"]
     = ["storage"; "auth"; "customer_7"; "session_storage.json"]
     ↔ effective_customer sample_request = effective_customer capitalised_request).
Proof.
  apply (session_files_per_customer sample_request capitalised_request
           cooperative_driver cooperative_driver empty_machine empty_machine);
    reflexivity.
Defined.

Lemma relative_to_app (root rest : list string) :
  relative_to (root ++ rest) root = Ok rest.
Proof.
  induction root as [|r root IH]; [by destruct rest|].
  simpl. by rewrite String.eqb_refl.
Qed.

Lemma setup_directories_download_dir request drv m m' conv download_dir task_dir_name :
  setup_directories request drv m = (m', Ok (conv, download_dir, task_dir_name)) →
  download_dir
  = downloads_root ++ [default "default" (customer_dir request); task_dir_name].
Proof.
  unfold setup_directories, mbind, M_bind, lift, mret, M_ret.
  destruct (rq_save_conversation request), (mkdir_outcome drv);
    try done; by intros [= _ _ <- <-].
Qed.

(** ** More on download reconciliation *)

(** X10. Reconciliation never removes a file from the target
    directory, and never changes the content of one either, unless the
    timestamped name made up for a conflicting download happens to be
    that file's name. *)
Theorem existing_downloads_survive
    (env : DownloadEnv) (download_dir : list string) (fs : DownloadFs) :
  let out := handle_downloads env download_dir fs in
  dom (target fs) ⊆ dom (target out.2)
  ∧ ∀ name old,
      target fs !! name = Some old →
      (∀ k n', timestamped (clock env k) n' ≠ name) →
      target out.2 !! name = Some old.
Proof.
  cbv zeta. rewrite handle_downloads_sweep. cbv zeta. cbn [fst snd target].
  split.
  - intros name Hname%elem_of_dom. apply elem_of_dom.
    by apply (sweep_closed env download_dir (fun t _ => is_Some (t !! name)));
      [apply present_closed|].
  - intros name old Hold Hts.
    by apply (sweep_closed env download_dir (fun t _ => t !! name = Some old));
      [apply kept_closed|].
Qed.

Lemma existing_downloads_survive_witness :
  let out := handle_downloads quiet_download_env sample_download_dir colliding_fs in
  dom (target colliding_fs) ⊆ dom (target out.2)
  ∧ target out.2 !! "report.pdf" = Some "old report".
Proof.
  destruct (existing_downloads_survive quiet_download_env sample_download_dir
              colliding_fs) as [Hdom Hkept].
  split; [exact Hdom|]. apply Hkept; [reflexivity|].
  intros k n' H. apply (f_equal String.length) in H.
  rewrite timestamped_length in H. simpl in H. lia.
Defined.

Lemma move_entries_idle env download_dir tmp_dir entries st :
  (∀ entry, entry ∈ entries →
     entry.2 = OtherNode ∨ move_fails env tmp_dir entry.1 = true) →
  ds_target (move_entries env download_dir tmp_dir entries st) = ds_target st
  ∧ ds_downloaded_files (move_entries env download_dir tmp_dir entries st)
    = ds_downloaded_files st.
Proof.
  unfold move_entries. revert st.
  induction entries as [|entry entries IH]; intros st Hidle; [done|].
  simpl.
  destruct (IH (move_entry env download_dir tmp_dir st entry)) as [-> ->].
  { intros e He. apply Hidle. by apply list_elem_of_further. }
  unfold move_entry.
  destruct (Hidle entry (list_elem_of_here _ _)) as [-> | Hfail].
  - done.
  - destruct entry.2 as [content|]; [|done]. rewrite Hfail.
    by destruct (bool_decide (is_Some (ds_target st !! entry.1))).
Qed.

Lemma sweep_idle env download_dir dirs acc :
  (∀ tmp_dir entries entry,
     (tmp_dir, Some entries) ∈ dirs → entry ∈ entries →
     entry.2 = OtherNode ∨ move_fails env tmp_dir entry.1 = true) →
  ds_target (foldl (process_scratch env download_dir) acc dirs).1 = ds_target acc.1
  ∧ ds_downloaded_files (foldl (process_scratch env download_dir) acc dirs).1
    = ds_downloaded_files acc.1.
Proof.
  revert acc. induction dirs as [|dir dirs IH]; intros acc Hidle; [done|].
  simpl.
  destruct (IH (process_scratch env download_dir acc dir)) as [-> ->].
  { intros tmp_dir entries entry Hdir. apply Hidle. by apply list_elem_of_further. }
  destruct acc as [st remaining], dir as [tmp_dir [entries|]];
    unfold process_scratch; cbn [fst snd]; [|done].
  destruct (move_entries_idle env download_dir tmp_dir entries
              {| ds_target := ds_target st; ds_ticks := ds_ticks st;
                 ds_downloaded_files := ds_downloaded_files st; ds_left := [] |})
    as [Ht Hf].
  { intros entry. apply Hidle. apply list_elem_of_here. }
  by destruct (rmtree_fails env tmp_dir).
Qed.



Lemma timestamped_same_second now now' name :
  strftime_compact now = strftime_compact now' →
  timestamped now name = timestamped now' name.
Proof. unfold timestamped. by intros ->. Qed.

(** The conflict branch of the inner loop, when the move succeeds. *)
Lemma move_entry_conflict env sub tmp_dir st name content :
  move_fails env tmp_dir name = false →
  is_Some (ds_target st !! name) →
  move_entry env (downloads_root ++ sub) tmp_dir st (name, RegularFile content)
  = {| ds_target :=
         <[timestamped (clock env (ds_ticks st)) name := content]> (ds_target st);
       ds_ticks := S (ds_ticks st);
       ds_downloaded_files :=
         ds_downloaded_files st
         ++ [join "/" (sub ++ [timestamped (clock env (ds_ticks st)) name])];
       ds_left := ds_left st |}.
Proof.
  intros Hmove Hex. unfold move_entry. cbn [fst snd].
  rewrite Hmove, bool_decide_eq_true_2 by done.
  by rewrite <- app_assoc, relative_to_app.
Qed.

(** X12. Two conflicting downloads of the same name within one second
    get the same timestamped name: the second overwrites the first, whose
    content is lost, and the one remaining file is reported twice. *)
Theorem same_second_downloads_collide
    (env : DownloadEnv) (sub : list string) (name old c1 c2 d1 d2 : string) :
  strftime_compact (clock env 0) = strftime_compact (clock env 1) →
  move_fails env d1 name = false →
  move_fails env d2 name = false →
  let fs := {| target := {[ name := old ]};
               scratch := [ (d1, Some [(name, RegularFile c1)]);
                            (d2, Some [(name, RegularFile c2)]) ] |} in
  let out := handle_downloads env (downloads_root ++ sub) fs in
  let renamed := timestamped (clock env 0) name in
  target out.2 = <[renamed := c2]> {[ name := old ]}
  ∧ out.1 = [ join "/" (sub ++ [renamed]); join "/" (sub ++ [renamed]) ].
Proof.
  intros Hclock Hm1 Hm2. cbv zeta.
  apply (timestamped_same_second _ _ name) in Hclock.
  rewrite handle_downloads_sweep. cbv zeta. cbn [fst snd target scratch foldl].
  assert (∀ st remaining d c,
            move_fails env d name = false →
            is_Some (ds_target st !! name) →
            (process_scratch env (downloads_root ++ sub) (st, remaining)
               (d, Some [(name, RegularFile c)])).1
            = {| ds_target :=
                   <[timestamped (clock env (ds_ticks st)) name := c]> (ds_target st);
                 ds_ticks := S (ds_ticks st);
                 ds_downloaded_files :=
                   ds_downloaded_files st
                   ++ [join "/" (sub ++ [timestamped (clock env (ds_ticks st)) name])];
                 ds_left := [] |}) as Hstep.
  { intros st remaining d c Hm Hex. unfold process_scratch. cbn [fst snd].
    unfold move_entries. cbn [foldl].
    rewrite move_entry_conflict by done.
    by destruct (rmtree_fails env d). }
  destruct (process_scratch env (downloads_root ++ sub) _ (d1, _))
    as [st1 remaining1] eqn:H1.
  apply (f_equal fst) in H1. rewrite Hstep in H1;
    [|done|cbn [ds_target]; by rewrite lookup_singleton_eq].
  cbn [fst ds_target ds_ticks ds_downloaded_files app] in H1. subst st1.
  rewrite Hstep; [|done|].
  - cbn [ds_target ds_ticks ds_downloaded_files app].
    by rewrite <- Hclock, insert_insert_eq.
  - cbn [ds_target].
    rewrite lookup_insert_ne by apply timestamped_other_name.
    by rewrite lookup_singleton_eq.
Qed.

Lemma same_second_downloads_collide_witness :
  let fs := {| target := {[ "report.pdf" := "old report" ]};
               scratch := [ ("/tmp/browser_use_agent_1/browseruse_agent_data",
                             Some [("report.pdf", RegularFile "first")]);
                            ("/tmp/browser_use_agent_2/browseruse_agent_data",
                             Some [("report.pdf", RegularFile "second")]) ] |} in
  let out := handle_downloads quiet_download_env
               (downloads_root ++ ["customer_7"; "task_01234567"]) fs in
  let renamed := timestamped (clock quiet_download_env 0) "report.pdf" in
  target out.2 = <[renamed := "second"]> {[ "report.pdf" := "old report" ]}
  ∧ out.1 = [ join "/" (["customer_7"; "task_01234567"] ++ [renamed]);
              join "/" (["customer_7"; "task_01234567"] ++ [renamed]) ].
Proof.
  apply (same_second_downloads_collide quiet_download_env
           ["customer_7"; "task_01234567"] "report.pdf" "old report" "first" "second");
    reflexivity.
Defined.

Lemma move_entry_files_grow env download_dir tmp_dir st entry f :
  f ∈ ds_downloaded_files st →
  f ∈ ds_downloaded_files (move_entry env download_dir tmp_dir st entry).
Proof.
  intros Hf. unfold move_entry.
  destruct entry.2 as [content|]; [|done].
  destruct (bool_decide (is_Some (ds_target st !! entry.1)));
    destruct (move_fails env tmp_dir entry.1); try done;
    destruct (relative_to _ _); cbn [ds_downloaded_files]; try done;
    apply elem_of_app; by left.
Qed.

(** X13. A run reports every download it brings in: with the download
    directory that [setup_directories] chooses, each file of a scratch
    directory whose move does not fail is listed by [handle_downloads],
    as [customer/task/name] with its own or its timestamped name. *)
Theorem every_moved_file_is_reported
    (request : TaskRequest) (drv : Driver) (m m' : Machine)
    (conversation_path : option string) (download_dir : list string)
    (task_dir_name : string) (fs : DownloadFs)
    (tmp_dir : string) (entries : list (string * node)) (name content : string) :
  setup_directories request drv m
  = (m', Ok (conversation_path, download_dir, task_dir_name)) →
  (tmp_dir, Some entries) ∈ scratch fs →
  (name, RegularFile content) ∈ entries →
  move_fails (download_env drv) tmp_dir name = false →
  ∃ dest,
    (dest = name ∨ ∃ k, dest = timestamped (clock (download_env drv) k) name)
    ∧ default "default" (customer_dir request) +:+ "/" +:+ task_dir_name
      +:+ "/" +:+ dest
      ∈ (handle_downloads (download_env drv) download_dir fs).1.
Proof.
  intros Hsetup Hdir Hentry Hmove.
  apply setup_directories_download_dir in Hsetup as ->.
  rewrite handle_downloads_sweep. cbv zeta. cbn [fst].
  set (env := download_env drv) in *.
  set (sub := [default "default" (customer_dir request); task_dir_name]).
  set (Q := fun (_ : gmap string string) (files : list string) =>
              ∃ dest, (dest = name ∨ ∃ k, dest = timestamped (clock env k) name)
                      ∧ join "/" (sub ++ [dest]) ∈ files).
  apply (sweep_reach env (downloads_root ++ sub) (fun _ _ => True) Q
           (scratch fs) tmp_dir entries (name, RegularFile content) _ Hdir Hentry);
    try done.
  - intros tmp st entry (dest & Hdest & Hin). exists dest. split; [done|].
    by apply move_entry_files_grow.
  - intros st _. unfold move_entry. cbn [fst snd]. rewrite Hmove.
    destruct (bool_decide (is_Some (ds_target st !! name)));
      rewrite <- app_assoc, relative_to_app; cbn [ds_downloaded_files];
      eexists; (split; [|apply elem_of_app; right; apply list_elem_of_here]);
      eauto.
Qed.

Lemma every_moved_file_is_reported_witness :
  ∃ dest,
    (dest = "notes.txt"
     ∨ ∃ k, dest = timestamped (clock (download_env cooperative_driver) k) "notes.txt")
    ∧ default "default" (customer_dir sample_request) +:+ "/" +:+ "task_01234567"
      +:+ "/" +:+ dest
      ∈ (handle_downloads (download_env cooperative_driver) sample_download_dir
           colliding_fs).1.
Proof.
  apply (every_moved_file_is_reported sample_request cooperative_driver
           empty_machine empty_machine None sample_download_dir "task_01234567"
           colliding_fs sample_scratch_dir
           [ ("report.pdf", RegularFile "new report");
             ("notes.txt", RegularFile "notes") ] "notes.txt" "notes").
  - reflexivity.
  - apply list_elem_of_here.
  - apply list_elem_of_further, list_elem_of_here.
  - reflexivity.
Defined.

(** ** More on the session state *)

Lemma not_Exception e : is_Exception e = false → e = CancelledError.
Proof. by destruct e. Qed.




(** ** More on the lifetime of the browser *)

Lemma export_session_storage_frame drv p m :
  storage_state_files (export_session_storage drv p m).1 = storage_state_files m
  ∧ init_scripts (export_session_storage drv p m).1 = init_scripts m
  ∧ download_fs (export_session_storage drv p m).1 = download_fs m.
Proof.
  unfold export_session_storage, try_except_M, call_driver, lift,
    write_session_file, mbind, M_bind, mret, M_ret.
  simpl. run_cases; done.
Qed.

Lemma run_and_release_without_state request drv session_path m :
  let r := run_and_release request drv None session_path m in
  calls r.1 = calls m ++ [CallAgentRun; CallStop]
  ∧ session_files r.1 = session_files m
  ∧ storage_state_files r.1 = storage_state_files m
  ∧ init_scripts r.1 = init_scripts m
  ∧ download_fs r.1 = download_fs m.
Proof.
  cbv zeta.
  unfold run_and_release, try_finally, try_except_M, call_driver, lift,
    mbind, M_bind, mret, M_ret.
  simpl. run_cases; rewrite <- ?app_assoc; done.
Qed.

Lemma reconcile_downloads_frame drv dir m :
  calls (reconcile_downloads drv dir m).1 = calls m
  ∧ session_files (reconcile_downloads drv dir m).1 = session_files m
  ∧ storage_state_files (reconcile_downloads drv dir m).1 = storage_state_files m
  ∧ init_scripts (reconcile_downloads drv dir m).1 = init_scripts m.
Proof. unfold reconcile_downloads. by destruct (handle_downloads _ _ _). Qed.

(** X16. A request with session persistence switched off neither reads
    nor writes session state: the run registers no init script, writes
    neither [storage_state.json] nor [session_storage.json], and asks the
    browser for nothing but to start, to run the agent and to stop. *)
Theorem no_session_state_when_disabled
    (request : TaskRequest) (drv : Driver) (m : Machine) :
  rq_session_enabled request = false →
  let r := run_agent_task request drv m in
  session_files r.1 = session_files m
  ∧ storage_state_files r.1 = storage_state_files m
  ∧ init_scripts r.1 = init_scripts m
  ∧ ∃ made, calls r.1 = calls m ++ made
            ∧ made `prefix_of` [CallStart; CallAgentRun; CallStop].
Proof.
  intros Hoff. cbv zeta.
  set (P := fun m' : Machine =>
         session_files m' = session_files m
         ∧ storage_state_files m' = storage_state_files m
         ∧ init_scripts m' = init_scripts m
         ∧ ∃ made, calls m' = calls m ++ made
                   ∧ made `prefix_of` [CallStart; CallAgentRun; CallStop]).
  change (P (run_agent_task request drv m).1).
  assert (Hnone : P m).
  { repeat split. exists []. split; [by rewrite app_nil_r|apply prefix_nil]. }
  unfold run_agent_task.
  unfold mbind, M_bind. unfold lift at 1.
  destruct (setup_llms_outcome drv) as [|e]; [|exact Hnone].
  pose proof (setup_directories_machine request drv m) as E1.
  destruct (setup_directories request drv m) as [m1 [[[conv dir] tdir]|e]];
    cbn [fst] in E1; subst m1; [|exact Hnone].
  unfold setup_browser_profile. rewrite Hoff. cbn [negb]. unfold mret at 1, M_ret.
  unfold lift at 1. destruct (create_browser_outcome drv) as [|e]; [|exact Hnone].
  unfold call_driver at 1.
  set (m3 := {| calls := calls m ++ [CallStart];
                init_scripts := init_scripts m;
                session_files := session_files m;
                storage_state_files := storage_state_files m;
                download_fs := download_fs m |}).
  assert (Hstart : P m3).
  { repeat split. exists [CallStart]. split; [done|].
    by exists [CallAgentRun; CallStop]. }
  destruct (start_outcome drv) as [|e]; [|exact Hstart].
  unfold mret at 1, M_ret.
  pose proof (create_agent_machine request drv dir tdir m3) as E5.
  destruct (create_agent request drv dir tdir m3) as [m5 [gif|e]];
    cbn [fst] in E5; subst m5; [|exact Hstart].
  destruct (run_and_release_without_state request drv None m3)
    as (C6 & F6 & S6 & I6 & _).
  assert (Hall : ∀ m6, calls m6 = calls m3 ++ [CallAgentRun; CallStop] →
                       session_files m6 = session_files m3 →
                       storage_state_files m6 = storage_state_files m3 →
                       init_scripts m6 = init_scripts m3 → P m6).
  { intros m6 Hc Hf Hs Hi. unfold P. rewrite Hc, Hf, Hs, Hi. repeat split.
    exists [CallStart; CallAgentRun; CallStop]. split; [|done].
    subst m3. cbn [calls]. by rewrite <- app_assoc. }
  destruct (run_and_release request drv None None m3) as [m6 [history|e]];
    cbn [fst] in C6, F6, S6, I6; [|by apply Hall].
  destruct (reconcile_downloads_frame drv dir m6) as (C7 & F7 & S7 & I7).
  destruct (reconcile_downloads drv dir m6) as [m7 [files|e]];
    cbn [fst] in C7, F7, S7, I7; unfold lift; cbn [fst];
    apply Hall; congruence.
Qed.

Lemma no_session_state_when_disabled_witness :
  let r := run_agent_task sessionless_request cooperative_driver returning_machine in
  session_files r.1 = session_files returning_machine
  ∧ storage_state_files r.1 = storage_state_files returning_machine
  ∧ init_scripts r.1 = init_scripts returning_machine
  ∧ ∃ made, calls r.1 = calls returning_machine ++ made
            ∧ made `prefix_of` [CallStart; CallAgentRun; CallStop].
Proof.
  cbv zeta. apply no_session_state_when_disabled. reflexivity.
Defined.

(** X17. Nothing is asked of the browser before it is started: either a
    step of the set-up raised and no call was made at all, or the first
    call of the run is [browser.start]. *)
Theorem browser_is_started_first
    (request : TaskRequest) (drv : Driver) (m : Machine) :
  let r := run_agent_task request drv m in
  (calls r.1 = calls m ∧ ∃ e, r.2 = Raise e)
  ∨ ∃ rest, calls r.1 = calls m ++ CallStart :: rest.
Proof.
  cbv zeta.
  set (P := fun r : Machine * res dict =>
         (calls r.1 = calls m ∧ ∃ e, r.2 = Raise e)
         ∨ ∃ rest, calls r.1 = calls m ++ CallStart :: rest).
  change (P (run_agent_task request drv m)).
  assert (Hnone : ∀ e, P (m, Raise e)) by (intros e; left; eauto).
  assert (Hsome : ∀ (r : Machine * res dict) rest,
            calls r.1 = calls m ++ CallStart :: rest → P r)
    by (intros r rest Hr; right; eauto).
  unfold run_agent_task.
  unfold mbind, M_bind. unfold lift at 1.
  destruct (setup_llms_outcome drv) as [|e]; [|exact (Hnone e)].
  pose proof (setup_directories_machine request drv m) as E1.
  destruct (setup_directories request drv m) as [m1 [[[conv dir] tdir]|e]];
    cbn [fst] in E1; subst m1; [|exact (Hnone e)].
  pose proof (setup_browser_profile_machine request drv m) as E2.
  destruct (setup_browser_profile request drv m) as [m2 [[sp ssp]|e]];
    cbn [fst] in E2; subst m2; [|exact (Hnone e)].
  unfold lift at 1. destruct (create_browser_outcome drv) as [|e]; [|exact (Hnone e)].
  unfold call_driver at 1.
  set (m3 := {| calls := calls m ++ [CallStart];
                init_scripts := init_scripts m;
                session_files := session_files m;
                storage_state_files := storage_state_files m;
                download_fs := download_fs m |}).
  destruct (start_outcome drv) as [|e]; [|by apply (Hsome _ [])].
  assert (C4 : ∃ rest, calls
     (match ssp with
      | Some session_path => restore_session_storage drv session_path
      | None => mret ()
      end m3).1 = calls m ++ CallStart :: rest).
  { destruct ssp as [p|]; [|by exists []].
    destruct (restore_session_storage_calls drv p m3) as [-> | ->];
      [by exists []|].
    exists [CallAddInitScript]. subst m3. cbn [calls]. by rewrite <- app_assoc. }
  destruct C4 as [rest4 C4].
  destruct (match ssp with
            | Some session_path => restore_session_storage drv session_path
            | None => mret ()
            end m3) as [m4 [|e]]; cbn [fst] in C4; [|by apply (Hsome _ rest4)].
  pose proof (create_agent_machine request drv dir tdir m4) as E5.
  destruct (create_agent request drv dir tdir m4) as [m5 [gif|e]];
    cbn [fst] in E5; subst m5; [|by apply (Hsome _ rest4)].
  destruct (run_and_release_stops request drv sp ssp m4) as (exports & C6 & _).
  rewrite C4, <- app_assoc in C6. cbn [app] in C6.
  destruct (run_and_release request drv sp ssp m4) as [m6 [history|e]];
    cbn [fst] in C6; [|by eapply Hsome].
  pose proof (reconcile_downloads_calls drv dir m6) as C7.
  destruct (reconcile_downloads drv dir m6) as [m7 [files|e]]; cbn [fst] in C7;
    unfold lift; eapply Hsome; cbn [fst]; rewrite C7; exact C6.
Qed.

(** X18. When [agent.run] raises, the browser is stopped straight away,
    no session state is saved (the files of an earlier run stay as they
    are), and the exception of [agent.run] is the one that leaves
    [run_agent_task]'s [try] block, unless [browser.stop] is itself
    interrupted. *)
Theorem failed_run_releases_browser
    (request : TaskRequest) (drv : Driver)
    (storage_state_path session_storage_path : option (list string))
    (m : Machine) (e : exn) :
  run_outcome drv = Raise e →
  let r := run_and_release request drv storage_state_path session_storage_path m in
  calls r.1 = calls m ++ [CallAgentRun; CallStop]
  ∧ session_files r.1 = session_files m
  ∧ storage_state_files r.1 = storage_state_files m
  ∧ (r.2 = Raise e
     ∨ (stop_outcome drv = Raise CancelledError ∧ r.2 = Raise CancelledError)).
Proof.
  intros Hrun. cbv zeta.
  unfold run_and_release, try_finally, try_except_M, call_driver, lift,
    mbind, M_bind, mret, M_ret.
  rewrite Hrun. cbn [fst snd calls].
  destruct (stop_outcome drv) as [[]|e'] eqn:Hstop; cbn [fst snd calls session_files
                                                       storage_state_files].
  - rewrite <- app_assoc. repeat split; auto.
  - destruct (is_Exception e') eqn:He';
      cbn [fst snd calls session_files storage_state_files];
      rewrite <- app_assoc; repeat split; auto.
    apply not_Exception in He' as ->. by right.
Qed.

Lemma failed_run_releases_browser_witness :
  let r := run_and_release sample_request failing_run_driver
             (Some sample_state_path) (Some sample_session_path)
             returning_machine in
  calls r.1 = calls returning_machine ++ [CallAgentRun; CallStop]
  ∧ session_files r.1 = session_files returning_machine
  ∧ storage_state_files r.1 = storage_state_files returning_machine
  ∧ (r.2 = Raise (Exception "LLM unreachable")
     ∨ (stop_outcome failing_run_driver = Raise CancelledError
        ∧ r.2 = Raise CancelledError)).
Proof.
  cbv zeta. apply failed_run_releases_browser. reflexivity.
Defined.

Lemma export_session_storage_returns drv p m :
  raises_only_exceptions (mkdir_outcome drv) →
  raises_only_exceptions (current_page drv) →
  raises_only_exceptions (evaluate_outcome drv) →
  raises_only_exceptions (write_outcome drv) →
  (export_session_storage drv p m).2 = Ok ().
Proof.
  intros Hmkdir Hpage Heval Hwrite.
  unfold export_session_storage, try_except_M, call_driver, lift,
    write_session_file, mbind, M_bind, mret, M_ret.
  destruct (current_page drv) as [[page|]|e] eqn:E1; cbn [fst snd];
    [| done | by rewrite (Hpage e eq_refl)].
  destruct (evaluate_outcome drv) as [[]|e] eqn:E2; cbn [fst snd];
    [| by rewrite (Heval e eq_refl)].
  destruct (mkdir_outcome drv) as [[]|e] eqn:E3; cbn [fst snd];
    [| by rewrite (Hmkdir e eq_refl)].
  destruct (write_outcome drv) as [[]|e] eqn:E4; cbn [fst snd];
    [done | by rewrite (Hwrite e eq_refl)].
Qed.

Lemma run_and_release_returns
    (request : TaskRequest) (drv : Driver)
    (storage_state_path session_storage_path : option (list string))
    (m : Machine) (history : History) :
  run_outcome drv = Ok history →
  raises_only_exceptions (mkdir_outcome drv) →
  raises_only_exceptions (export_storage_state_outcome drv) →
  raises_only_exceptions (current_page drv) →
  raises_only_exceptions (evaluate_outcome drv) →
  raises_only_exceptions (write_outcome drv) →
  raises_only_exceptions (stop_outcome drv) →
  let r := run_and_release request drv storage_state_path session_storage_path m in
  r.2 = Ok history
  ∧ ((∃ e, export_storage_state_outcome drv = Raise e) →
       session_files r.1 = session_files m
       ∧ storage_state_files r.1 = storage_state_files m).
Proof.
  intros Hrun Hmkdir Hexport Hpage Heval Hwrite Hstop. cbv zeta.
  pose proof (fun p mm => export_session_storage_returns drv p mm
                            Hmkdir Hpage Heval Hwrite) as Hreturns.
  set (P := fun r : Machine * res History =>
         r.2 = Ok history
         ∧ ((∃ e, export_storage_state_outcome drv = Raise e) →
              session_files r.1 = session_files m
              ∧ storage_state_files r.1 = storage_state_files m)).
  change (P (run_and_release request drv storage_state_path session_storage_path m)).
  assert (Hend : ∀ m1 : Machine,
            ((∃ e, export_storage_state_outcome drv = Raise e) →
               session_files m1 = session_files m
               ∧ storage_state_files m1 = storage_state_files m) →
            P (match try_except_M (call_driver CallStop (stop_outcome drv))
                       (fun _ => mret ()) m1 with
               | (m2, Ok _) => (m2, Ok history)
               | (m2, Raise e) => (m2, Raise e)
               end)).
  { intros m1 Hm1. unfold try_except_M, call_driver, mret, M_ret.
    destruct (stop_outcome drv) as [[]|e] eqn:E; [by split|].
    rewrite (Hstop e eq_refl). by split. }
  unfold run_and_release, try_finally.
  unfold mbind at 1, M_bind at 1. unfold call_driver at 1. rewrite Hrun.
  unfold mbind at 1, M_bind at 1.
  set (m0 := {| calls := calls m ++ [CallAgentRun];
                init_scripts := init_scripts m;
                session_files := session_files m;
                storage_state_files := storage_state_files m;
                download_fs := download_fs m |}).
  destruct storage_state_path as [state_path|];
    [|unfold mret at 1 2, M_ret; by apply Hend].
  unfold try_except_M at 1.
  unfold mbind at 1, M_bind at 1, lift at 1.
  destruct (mkdir_outcome drv) as [[]|e] eqn:E1;
    [|rewrite (Hmkdir e eq_refl); unfold mret at 1 2 3, M_ret; by apply Hend].
  unfold mbind at 1, M_bind at 1, call_driver at 1.
  destruct (export_storage_state_outcome drv) as [blob|e] eqn:E2;
    [|rewrite (Hexport e eq_refl); unfold mret at 1 2 3, M_ret; by apply Hend].
  unfold mbind at 1, M_bind at 1, write_storage_state at 1.
  cbn [calls init_scripts session_files storage_state_files download_fs].
  destruct session_storage_path as [session_path|].
  - match goal with
    | |- context [export_session_storage drv session_path ?mm] =>
        pose proof (Hreturns session_path mm) as Hret;
        destruct (export_session_storage drv session_path mm) as [m1 r1]
    end.
    cbn [snd] in Hret. subst r1. unfold mret at 1, M_ret.
    apply Hend. by intros [e He].
  - unfold mret at 1 2, M_ret. apply Hend. by intros [e He].
Qed.

(** X19. Failing to save the session state does not fail the task:
    whatever goes wrong between [agent.run] returning and the browser
    being stopped, [run_agent_task] goes on with the history.  The
    [sessionStorage] is saved only after the storage state: when that
    first export fails, neither file is written. *)
Theorem session_save_failure_is_not_fatal
    (request : TaskRequest) (drv : Driver)
    (storage_state_path session_storage_path : option (list string))
    (m : Machine) (history : History) :
  run_outcome drv = Ok history →
  raises_only_exceptions (mkdir_outcome drv) →
  raises_only_exceptions (export_storage_state_outcome drv) →
  raises_only_exceptions (current_page drv) →
  raises_only_exceptions (evaluate_outcome drv) →
  raises_only_exceptions (write_outcome drv) →
  raises_only_exceptions (stop_outcome drv) →
  let r := run_and_release request drv storage_state_path session_storage_path m in
  r.2 = Ok history
  ∧ ((∃ e, export_storage_state_outcome drv = Raise e) →
       session_files r.1 = session_files m
       ∧ storage_state_files r.1 = storage_state_files m).
Proof. apply run_and_release_returns. Qed.

Lemma cooperative_raises_nothing {A} (a : A) : raises_only_exceptions (Ok a).
Proof. intros e. discriminate. Qed.

Lemma session_save_failure_is_not_fatal_witness :
  let r := run_and_release sample_request failing_export_driver
             (Some sample_state_path) (Some sample_session_path)
             returning_machine in
  r.2 = Ok sample_history
  ∧ ((∃ e, export_storage_state_outcome failing_export_driver = Raise e) →
       session_files r.1 = session_files returning_machine
       ∧ storage_state_files r.1 = storage_state_files returning_machine).
Proof.
  cbv zeta. apply session_save_failure_is_not_fatal;
    first [ reflexivity
          | apply cooperative_raises_nothing
          | intros e [= <-]; reflexivity ].
Defined.

(** X20. What a run saves as storage state is what the browser of the
    next run loads: after a run whose export succeeded the file is there,
    and [create_browser] passes its path as [storage_state]; as long as no
    file has been saved the browser starts without one.  The browser is
    always created with [keep_alive]. *)
Theorem saved_storage_state_is_loaded_next_time
    (request : TaskRequest) (options : SetupOptions) (drv next : Driver)
    (storage_state_path : list string) (session_storage_path : option (list string))
    (download_dir : list string) (m : Machine) (history : History) (blob : string) :
  run_outcome drv = Ok history →
  mkdir_outcome drv = Ok () →
  export_storage_state_outcome drv = Ok blob →
  create_browser_outcome next = Ok () →
  let m' := (run_and_release request drv (Some storage_state_path)
               session_storage_path m).1 in
  storage_state_files m' !! storage_state_path = Some blob
  ∧ (∃ kwargs,
       (create_browser options next download_dir (Some storage_state_path)
          (relaunch m')).2 = Ok kwargs
       ∧ bk_storage_state kwargs = Some (path_str storage_state_path)
       ∧ bk_keep_alive kwargs = true)
  ∧ (storage_state_files m !! storage_state_path = None →
     ∃ kwargs,
       (create_browser options next download_dir (Some storage_state_path) m).2
       = Ok kwargs
       ∧ bk_storage_state kwargs = None
       ∧ bk_keep_alive kwargs = true).
Proof.
  intros Hrun Hmkdir Hexport Hnext. cbv zeta.
  assert (storage_state_files
            (run_and_release request drv (Some storage_state_path)
               session_storage_path m).1 !! storage_state_path = Some blob) as Hsaved.
  { unfold run_and_release, try_finally, try_except_M, call_driver, lift,
      write_storage_state, mbind, M_bind, mret, M_ret.
    rewrite Hrun, Hmkdir, Hexport. cbn [fst snd].
    destruct session_storage_path as [p|].
    - destruct (export_session_storage_frame drv p
                  {| calls := (calls m ++ [CallAgentRun]) ++ [CallExportStorageState];
                     init_scripts := init_scripts m;
                     session_files := session_files m;
                     storage_state_files :=
                       <[storage_state_path := blob]> (storage_state_files m);
                     download_fs := download_fs m |}) as (Hs & _ & _).
      destruct (export_session_storage drv p _) as [m1 [|e]]; cbn [fst] in Hs;
        [|destruct (is_Exception e)]; cbn [fst snd];
        destruct (stop_outcome drv) as [|e']; try destruct (is_Exception e');
        cbn [fst snd storage_state_files]; rewrite ?Hs; cbn [storage_state_files];
        by rewrite lookup_insert_eq.
    - unfold mret, M_ret. cbn [fst snd].
      destruct (stop_outcome drv) as [|e']; try destruct (is_Exception e');
        cbn [fst snd storage_state_files]; by rewrite lookup_insert_eq. }
  split; [exact Hsaved|]. split.
  - unfold create_browser, relaunch. cbn [snd storage_state_files].
    rewrite Hsaved, Hnext, bool_decide_eq_true_2 by eauto.
    eexists. split; [reflexivity|]. by split.
  - intros Hfresh. unfold create_browser. cbn [snd].
    rewrite Hfresh, Hnext, bool_decide_eq_false_2 by (by intros [? ?]).
    eexists. split; [reflexivity|]. by split.
Qed.

Lemma saved_storage_state_is_loaded_next_time_witness :
  let m' := (run_and_release sample_request cooperative_driver
               (Some sample_state_path) (Some sample_session_path)
               empty_machine).1 in
  storage_state_files m' !! sample_state_path = Some "{}"
  ∧ (∃ kwargs,
       (create_browser sample_options cooperative_driver sample_download_dir
          (Some sample_state_path) (relaunch m')).2 = Ok kwargs
       ∧ bk_storage_state kwargs = Some (path_str sample_state_path)
       ∧ bk_keep_alive kwargs = true)
  ∧ (storage_state_files empty_machine !! sample_state_path = None →
     ∃ kwargs,
       (create_browser sample_options cooperative_driver sample_download_dir
          (Some sample_state_path) empty_machine).2
       = Ok kwargs
       ∧ bk_storage_state kwargs = None
       ∧ bk_keep_alive kwargs = true).
Proof.
  cbv zeta.
  apply (saved_storage_state_is_loaded_next_time sample_request sample_options
           cooperative_driver cooperative_driver sample_state_path
           (Some sample_session_path) sample_download_dir empty_machine
           sample_history "{}"); reflexivity.
Defined.

(** ** More on the registry and on [execute_task] *)

Lemma BrowserTask_cancel_fields task :
  bt_cancelled (BrowserTask_cancel task).1 = true
  ∧ bt_status (BrowserTask_cancel task).1 = "cancelled"
  ∧ bt_agent (BrowserTask_cancel task).1 = bt_agent task
  ∧ bt_browser_process (BrowserTask_cancel task).1 = bt_browser_process task
  ∧ bt_partial_result (BrowserTask_cancel task).1 = bt_partial_result task
  ∧ bt_task_id (BrowserTask_cancel task).1 = bt_task_id task.
Proof. unfold BrowserTask_cancel. cbn. by destruct (bt_browser_process task). Qed.

Lemma BrowserTask_cancel_idemp task :
  (BrowserTask_cancel (BrowserTask_cancel task).1).1 = (BrowserTask_cancel task).1.
Proof.
  unfold BrowserTask_cancel. cbn.
  by destruct (bt_browser_process task).
Qed.

Lemma cancel_browser_task_registry task_id reg :
  (cancel_browser_task task_id reg).1
  = match registry_get reg task_id with
    | None => reg
    | Some (ref, task) =>
        {| objects := <[ref := (BrowserTask_cancel task).1]> (objects reg);
           active_tasks := active_tasks reg |}
    end.
Proof.
  unfold cancel_browser_task.
  destruct (registry_get reg task_id) as [[ref task]|]; [|done].
  by destruct (BrowserTask_cancel task).
Qed.

Lemma cancel_browser_task_active task_id reg :
  active_tasks (cancel_browser_task task_id reg).1 = active_tasks reg.
Proof.
  rewrite cancel_browser_task_registry.
  by destruct (registry_get reg task_id) as [[ref task]|].
Qed.

Lemma registry_get_Some reg task_id ref task :
  registry_get reg task_id = Some (ref, task)
  ↔ active_tasks reg !! task_id = Some ref ∧ objects reg !! ref = Some task.
Proof.
  unfold registry_get.
  destruct (active_tasks reg !! task_id) as [r|]; simpl; [|by split; [|intros []]].
  destruct (objects reg !! r) as [t|] eqn:Ht; simpl.
  - split; [by intros [= <- <-]|]. intros [[= <-] H]. by rewrite Ht in H; injection H as <-.
  - split; [done|]. intros [[= <-] H]. by rewrite Ht in H.
Qed.

(** X21. Cancelling is idempotent on the registry, and it never
    unregisters anything: a second cancel request for the same id leaves
    every task object as the first one left it, and the ids known to the
    registry are the same before and after. *)
Theorem cancel_is_idempotent (task_id : string) (reg : Registry) :
  let once := (cancel_browser_task task_id reg).1 in
  (cancel_browser_task task_id once).1 = once
  ∧ active_tasks once = active_tasks reg
  ∧ dom (objects once) = dom (objects reg).
Proof.
  cbv zeta. split; [|split].
  - rewrite (cancel_browser_task_registry task_id (cancel_browser_task task_id reg).1).
    rewrite (cancel_browser_task_registry task_id reg).
    destruct (registry_get reg task_id) as [[ref task]|] eqn:Hget.
    + apply registry_get_Some in Hget as [Ha Ho].
      assert (registry_get
                {| objects := <[ref := (BrowserTask_cancel task).1]> (objects reg);
                   active_tasks := active_tasks reg |} task_id
              = Some (ref, (BrowserTask_cancel task).1)) as ->.
      { apply registry_get_Some. cbn. by rewrite lookup_insert_eq. }
      cbn. by rewrite insert_insert_eq, BrowserTask_cancel_idemp.
    + by rewrite Hget.
  - apply cancel_browser_task_active.
  - rewrite cancel_browser_task_registry.
    destruct (registry_get reg task_id) as [[ref task]|] eqn:Hget; [|done].
    apply registry_get_Some in Hget as [Ha Ho]. cbn.
    apply dom_insert_lookup_L. by rewrite Ho.
Qed.

(** X22. A second task registered under an id that is already in use
    takes the id over: the registry then leads to the new task only, so a
    cancel request marks the new task and can no longer reach the older
    one, which stays uncancelled. *)
Theorem reused_task_id_hides_the_older_task (task_id : string) (reg : Registry) :
  let first := registry_register reg task_id in
  let second := registry_register first.2 task_id in
  let cancelled := (cancel_browser_task task_id second.2).1 in
  first.1 ≠ second.1
  ∧ bt_cancelled <$> objects cancelled !! first.1 = Some false
  ∧ bt_cancelled <$> objects cancelled !! second.1 = Some true.
Proof.
  cbv zeta. unfold registry_register. cbn [fst snd].
  set (r1 := fresh_ref reg).
  set (reg1 := {| objects := <[r1 := BrowserTask_init task_id None]> (objects reg);
                  active_tasks := <[task_id := r1]> (active_tasks reg) |}).
  set (r2 := fresh_ref reg1).
  assert (r1 ≠ r2) as Hne.
  { intros Heq. pose proof (is_fresh (dom (objects reg1))) as Hfresh.
    apply Hfresh. fold (fresh_ref reg1). fold r2. rewrite <- Heq.
    subst reg1. cbn. rewrite dom_insert_L.
    by apply elem_of_union_l, elem_of_singleton. }
  split; [exact Hne|].
  rewrite cancel_browser_task_registry.
  assert (registry_get
            {| objects := <[r2 := BrowserTask_init task_id None]> (objects reg1);
               active_tasks := <[task_id := r2]> (active_tasks reg1) |} task_id
          = Some (r2, BrowserTask_init task_id None)) as ->.
  { apply registry_get_Some. cbn [active_tasks objects].
    by rewrite !lookup_insert_eq. }
  cbn [objects]. split.
  - rewrite lookup_insert_ne by done. rewrite lookup_insert_ne by done.
    subst reg1. cbn [objects]. by rewrite lookup_insert_eq.
  - by rewrite lookup_insert_eq.
Qed.

(** X29. A cancel request marks the task before it reports: once the
    task is found it is flagged as cancelled, a [SIGTERM] that cannot be
    delivered is ignored, and the reply is a success carrying the agent's
    current state as partial result; the endpoint fails only if asking
    the agent for that state fails, and the task is flagged even then. *)
Theorem cancel_marks_before_it_reports
    (task_id : string) (reg : Registry) (ref : nat) (task : BrowserTask) :
  registry_get reg task_id = Some (ref, task) →
  (∀ process, bt_browser_process task = Some process →
     raises_only_exceptions (send_signal process)) →
  let r := cancel_browser_task task_id reg in
  (∃ task', registry_get r.1 task_id = Some (ref, task')
            ∧ bt_cancelled task' = true ∧ bt_status task' = "cancelled")
  ∧ r.2 = match BrowserTask_get_partial_result task with
          | Ok partial =>
              Ok (<["partial_result" := opt_str partial]>
                 (<["message" := VStr "Task cancelled"]>
                 (<["task_id" := VStr task_id]>
                 (<["success" := VBool true]> ∅))))
          | Raise e => Raise e
          end.
Proof.
  intros Hget Hsignal. cbv zeta. split.
  - rewrite cancel_browser_task_registry, Hget.
    apply registry_get_Some in Hget as [Ha Ho].
    exists (BrowserTask_cancel task).1.
    destruct (BrowserTask_cancel_fields task) as (Hc & Hs & _).
    split; [|by split]. apply registry_get_Some. cbn.
    by rewrite lookup_insert_eq.
  - unfold cancel_browser_task. rewrite Hget.
    unfold BrowserTask_cancel, BrowserTask_get_partial_result. cbn.
    destruct (bt_browser_process task) as [process|] eqn:Hp; cbn.
    + specialize (Hsignal process eq_refl).
      destruct (send_signal process) as [[]|e] eqn:Hs; cbn; [done|].
      by rewrite (Hsignal e eq_refl).
    + done.
Qed.

Lemma cancel_marks_before_it_reports_witness :
  let r := cancel_browser_task "t9" running_registry in
  (∃ task', registry_get r.1 "t9" = Some (0%nat, task')
            ∧ bt_cancelled task' = true ∧ bt_status task' = "cancelled")
  ∧ r.2 = Ok (<["partial_result" := VStr "step 2 of 5"]>
             (<["message" := VStr "Task cancelled"]>
             (<["task_id" := VStr "t9"]>
             (<["success" := VBool true]> ∅)))).
Proof.
  cbv zeta.
  apply (cancel_marks_before_it_reports "t9" running_registry 0%nat running_task).
  - unfold registry_get, running_registry. cbn [active_tasks objects].
    rewrite lookup_singleton_eq. cbn. rewrite lookup_singleton_eq. reflexivity.
  - cbn. intros process [= <-] e [= <-]. reflexivity.
Defined.

(** What a cancel request leaves of a task object. *)
Lemma cancel_browser_task_keeps task_id reg ref task :
  objects reg !! ref = Some task →
  ∃ task',
    objects (cancel_browser_task task_id reg).1 !! ref = Some task'
    ∧ bt_agent task' = bt_agent task
    ∧ (bt_cancelled task = true → bt_cancelled task' = true)
    ∧ (active_tasks reg !! task_id = Some ref → bt_cancelled task' = true)
    ∧ (active_tasks reg !! task_id ≠ Some ref →
       bt_cancelled task' = bt_cancelled task).
Proof.
  intros Href. rewrite cancel_browser_task_registry.
  destruct (registry_get reg task_id) as [[ref' found]|] eqn:Hget.
  - apply registry_get_Some in Hget as [Ha Ho]. cbn [objects].
    destruct (decide (ref' = ref)) as [->|Hne].
    + rewrite Href in Ho. injection Ho as <-.
      exists (BrowserTask_cancel task).1. rewrite lookup_insert_eq.
      destruct (BrowserTask_cancel_fields task) as (Hc & _ & Hag & _).
      repeat split; done.
    + exists task. rewrite lookup_insert_ne by done.
      repeat split; try done. intros Hid. rewrite Ha in Hid. by injection Hid.
  - exists task. repeat split; try done.
    intros Hid. unfold registry_get in Hget. rewrite Hid in Hget. cbn in Hget.
    by rewrite Href in Hget.
Qed.

Lemma serve_cancels_keeps task_ids reg ref task :
  objects reg !! ref = Some task →
  ∃ task',
    objects (serve_cancels task_ids reg) !! ref = Some task'
    ∧ bt_agent task' = bt_agent task
    ∧ active_tasks (serve_cancels task_ids reg) = active_tasks reg
    ∧ (bt_cancelled task = true → bt_cancelled task' = true)
    ∧ (∀ task_id, task_id ∈ task_ids → active_tasks reg !! task_id = Some ref →
         bt_cancelled task' = true)
    ∧ ((∀ task_id, task_id ∈ task_ids → active_tasks reg !! task_id ≠ Some ref) →
         bt_cancelled task' = bt_cancelled task).
Proof.
  unfold serve_cancels. revert reg task.
  induction task_ids as [|task_id task_ids IH]; intros reg task Href.
  - exists task. repeat split; try done.
    intros task_id Hin. by apply elem_of_nil in Hin.
  - cbn [foldl].
    destruct (cancel_browser_task_keeps task_id reg ref task Href)
      as (task1 & Href1 & Hag1 & Hmono1 & Hhit1 & Hmiss1).
    destruct (IH _ task1 Href1)
      as (task2 & Href2 & Hag2 & Hact2 & Hmono2 & Hhit2 & Hmiss2).
    rewrite cancel_browser_task_active in Hact2, Hhit2, Hmiss2.
    exists task2. repeat split; try done.
    + congruence.
    + auto.
    + intros id [->|Hin]%elem_of_cons Hid; [auto|]. by apply (Hhit2 id).
    + intros Hnone. rewrite Hmiss2, Hmiss1; [done| |].
      * apply Hnone, list_elem_of_here.
      * intros id Hin. by apply Hnone, list_elem_of_further.
Qed.

Lemma urls_agree (result : dict) (a b : list string) :
  (if truthy (dict_get result "urls")
   then as_str_list (dict_get result "urls") else Ok []) = Ok a →
  as_str_list (dict_get_or result "urls" (VList [])) = Ok b →
  a = b.
Proof.
  unfold dict_get, dict_get_or.
  destruct (result !! "urls") as [v|]; cbn [default from_option id].
  - destruct (truthy v) eqn:Hv; [congruence|].
    intros [= <-]. destruct v as [| | | | |l|]; try discriminate.
    destruct l; [by intros [= <-]|discriminate].
  - cbn. congruence.
Qed.

Lemma completed_response_fields task_id t result response :
  completed_response task_id t result = Ok response →
  rs_task_id response = task_id
  ∧ rs_final_url response = last (rs_urls_visited response).
Proof.
  unfold completed_response, mbind, res_bind, mret, res_ret.
  destruct (determine_error result); [|discriminate].
  destruct (as_bool _); [|discriminate].
  destruct (as_opt_str _); [|discriminate].
  destruct (if truthy (dict_get result "urls") then _ else _) as [urls|] eqn:Ha;
    [|discriminate].
  destruct (as_str_list (dict_get_or result "urls" (VList []))) as [visited|] eqn:Hb;
    [|discriminate].
  repeat match goal with
    | |- context [match ?x with Ok _ => _ | Raise _ => _ end] =>
        destruct x; [|discriminate]
    end.
  intros [= <-]. cbn. split; [done|]. by rewrite (urls_agree result urls visited Ha Hb).
Qed.

Lemma as_str_list_items_raises l e :
  as_str_list_items l = Raise e → e = validation_error.
Proof.
  induction l as [|v l IH]; [discriminate|]. cbn.
  destruct v; cbn; try (by intros [= <-]).
  destruct (as_str_list_items l); cbn; [discriminate|].
  intros [= <-]. by apply IH.
Qed.

Lemma as_str_list_raises v e : as_str_list v = Raise e → e = validation_error.
Proof.
  destruct v; cbn; try (by intros [= <-]). apply as_str_list_items_raises.
Qed.

(** Building the response fails with a validation error only. *)
Lemma completed_response_raises task_id t result e :
  completed_response task_id t result = Raise e → e = validation_error.
Proof.
  unfold completed_response, determine_error, mbind, res_bind, mret, res_ret.
  repeat match goal with
    | |- context [match ?x with Ok _ => _ | Raise _ => _ end] =>
        let E := fresh "E" in
        destruct x eqn:E;
        [| intros [= <-];
           first [ by eapply as_str_list_raises
                 | revert E;
                   repeat match goal with
                     | |- context [if ?b then _ else _] => destruct b
                     end;
                   first [ discriminate
                         | apply as_str_list_raises
                         | match goal with
                           | |- ?f ?v = _ → _ => destruct v; cbn; congruence
                           end ] ] ]
    | |- context [if ?b then _ else _] => destruct b
    end.
  all: discriminate.
Qed.

Lemma wait_for_cancelled {A} (run : option (Q * res A)) timeout over :
  (wait_for run timeout over).2 = Raise CancelledError →
  ∃ d, run = Some (d, Raise CancelledError).
Proof.
  unfold wait_for. destruct run as [[d outcome]|]; [|discriminate].
  destruct (Qle_bool d (inject_Z timeout)); [|discriminate].
  cbn. intros ->. by exists d.
Qed.

(** X23. [execute_task] answers whatever happens to the run: unless the
    awaited run is itself interrupted by a [BaseException], the endpoint
    returns a reply and raises nothing; the reply carries the id under
    which the task was registered, and its final URL is the last of the
    URLs it lists (none when it lists none). *)
Theorem execute_task_always_replies
    (request : TaskRequest) (run : option (Q * res dict))
    (env : Surroundings) (reg : Registry) :
  (∀ d, run ≠ Some (d, Raise CancelledError)) →
  ∃ reply,
    (execute_task request run env reg).2 = Ok reply
    ∧ rs_task_id reply = assigned_task_id request env
    ∧ rs_final_url reply = last (rs_urls_visited reply).
Proof.
  intros Hrun. unfold execute_task.
  destruct (execute_task_traced request run env reg) as [reg' reply] eqn:Hexec.
  cbn [snd]. revert Hexec.
  unfold execute_task_traced, registry_register. cbv zeta.
  set (task_id := assigned_task_id request env).
  set (reg1 := {| objects := <[fresh_ref reg := BrowserTask_init task_id None]>
                               (objects reg);
                  active_tasks := <[task_id := fresh_ref reg]> (active_tasks reg) |}).
  destruct (serve_cancels_keeps (cancels env) reg1 (fresh_ref reg)
              (BrowserTask_init task_id None))
    as (task' & Href & Hagent & _);
    [subst reg1; cbn [objects]; by rewrite lookup_insert_eq|].
  rewrite Href.
  destruct (wait_for run (rq_timeout request) (overrun env)).2 as [result|e] eqn:Hwait;
    cbn [mbind res_bind].
  - destruct (bt_cancelled task').
    + unfold BrowserTask_get_partial_result. rewrite Hagent. cbn.
      intros [= _ <-]. by eexists.
    + destruct (completed_response task_id _ result) as [response|e] eqn:Hresp; cbn.
      * intros [= _ <-]. exists response. split; [done|].
        by apply completed_response_fields in Hresp.
      * apply completed_response_raises in Hresp as ->. cbn.
        intros [= _ <-]. by eexists.
  - destruct e as [msg|msg|]; cbn.
    + intros [= _ <-]. by eexists.
    + intros [= _ <-]. by eexists.
    + apply wait_for_cancelled in Hwait as [d Hd]. by destruct (Hrun d).
Qed.

Lemma execute_task_always_replies_witness :
  ∃ reply,
    (execute_task sample_request
       (Some (5%Q, Raise (Exception "LLM unreachable")))
       sample_surroundings empty_registry).2 = Ok reply
    ∧ rs_task_id reply = assigned_task_id sample_request sample_surroundings
    ∧ rs_final_url reply = last (rs_urls_visited reply).
Proof.
  apply execute_task_always_replies. intros d. discriminate.
Defined.

(** X24. A cancel request does not interrupt the run: the reply comes
    only when the run has ended, and it says "Task cancelled" only if
    the run returned normally, in which case the result of the run is
    dropped.  A cancelled task whose run fails or overruns the deadline
    is answered as a failure or a timeout. *)
Theorem cancellation_waits_for_the_run
    (request : TaskRequest) (run : option (Q * res dict))
    (env : Surroundings) (reg : Registry) :
  assigned_task_id request env ∈ cancels env →
  let task_id := assigned_task_id request env in
  let reply := (execute_task_traced request run env reg).2 in
  let elapsed := (time_after_wait request run env - start_time env)%Q in
  (∀ d result,
     run = Some (d, Ok result) → Qle_bool d (inject_Z (rq_timeout request)) = true →
     reply = Ok (ByCancellation, cancelled_response task_id))
  ∧ (∀ d msg,
       run = Some (d, Raise (Exception msg)) →
       Qle_bool d (inject_Z (rq_timeout request)) = true →
       reply = Ok (ByFailure, failure_response task_id (Exception msg) elapsed))
  ∧ (run = None
     ∨ (∃ d r, run = Some (d, r) ∧ (inject_Z (rq_timeout request) < d)%Q) →
     reply = Ok (ByTimeout, timeout_response task_id (rq_timeout request) elapsed)).
Proof.
  intros Hcancel. cbv zeta.
  unfold execute_task_traced, registry_register. cbv zeta.
  set (task_id := assigned_task_id request env) in *.
  set (reg1 := {| objects := <[fresh_ref reg := BrowserTask_init task_id None]>
                               (objects reg);
                  active_tasks := <[task_id := fresh_ref reg]> (active_tasks reg) |}).
  destruct (serve_cancels_keeps (cancels env) reg1 (fresh_ref reg)
              (BrowserTask_init task_id None))
    as (task' & Href & Hagent & _ & _ & Hhit & _);
    [subst reg1; cbn [objects]; by rewrite lookup_insert_eq|].
  assert (bt_cancelled task' = true) as Hc.
  { apply (Hhit task_id Hcancel). subst reg1. cbn. by rewrite lookup_insert_eq. }
  cbn [snd]. rewrite Href, Hc.
  unfold BrowserTask_get_partial_result. rewrite Hagent.
  split; [|split].
  - intros d result -> Hd. unfold wait_for. rewrite Hd. reflexivity.
  - intros d msg -> Hd. unfold wait_for. rewrite Hd. reflexivity.
  - intros Hlate. rewrite wait_for_expires by done. reflexivity.
Qed.

Lemma cancellation_waits_for_the_run_witness :
  let env := {| uuid_hex12 := "0123456789ab"; start_time := 1000; before_wait := 0;
                overrun := 0; after_wait := 0; cancels := ["t1"] |} in
  let run := Some (5%Q, Raise (Exception "LLM unreachable")) in
  let reply := (execute_task_traced sample_request run env empty_registry).2 in
  let elapsed := (time_after_wait sample_request run env - start_time env)%Q in
  reply = Ok (ByFailure, failure_response "t1" (Exception "LLM unreachable") elapsed).
Proof.
  cbv zeta.
  destruct (cancellation_waits_for_the_run sample_request
              (Some (5%Q, Raise (Exception "LLM unreachable")))
              {| uuid_hex12 := "0123456789ab"; start_time := 1000; before_wait := 0;
                 overrun := 0; after_wait := 0; cancels := ["t1"] |}
              empty_registry) as (_ & Hfail & _).
  - apply list_elem_of_here.
  - by apply (Hfail 5%Q "LLM unreachable").
Defined.

(** ** More on the aggregated results *)

(** X25. A usage record that carries a cost, as [total_cost] or, when
    it has no such attribute, as [cost], is reported with that cost in
    USD; the call count is then 1 when the record has both token counts
    and is left out otherwise (so that the reply says 0), and the number
    of steps of the history is not consulted. *)
Theorem priced_usage_is_reported
    (h : History) (request : TaskRequest) (u : Usage) (q : Q) :
  rq_calculate_cost request = true →
  usage h = Some (Ok (Some u)) →
  total_cost u = Some (Some q) ∨ (total_cost u = None ∧ cost u = Some (Some q)) →
  extract_cost_data h request
  = Ok (let priced : dict :=
          <["cost_currency" := VStr "USD"]> (<["cost" := VFloat q]> ∅) in
        match input_tokens u, output_tokens u with
        | Some _, Some _ => <["llm_calls" := VInt 1]> priced
        | _, _ => priced
        end).
Proof.
  intros Hcalc Husage Hprice.
  unfold extract_cost_data, cost_try_block. rewrite Hcalc, Husage.
  destruct Hprice as [Ht | [Ht Hc]]; rewrite Ht, ?Hc;
    destruct (input_tokens u), (output_tokens u); cbv zeta; cbn iota beta;
    lookups; reflexivity.
Qed.

Lemma priced_usage_is_reported_witness :
  extract_cost_data priced_history sample_request
  = Ok (<["llm_calls" := VInt 1]>
       (<["cost_currency" := VStr "USD"]> (<["cost" := VFloat (1 # 4)]> ∅))).
Proof.
  apply (priced_usage_is_reported priced_history sample_request
           {| total_cost := Some (Some (1 # 4)); cost := None;
              input_tokens := Some 1200%Z; output_tokens := Some 300%Z |} (1 # 4));
    [reflexivity | reflexivity | by left].
Defined.

Lemma enumerate_thoughts_lookup start ts k t :
  ts !! k = Some t →
  enumerate_thoughts start ts !! k = Some (thought_entry (start + Z.of_nat k) t).
Proof.
  revert start k. induction ts as [|t0 ts IH]; intros start k; [done|].
  destruct k as [|k].
  - intros [= ->]. cbn [enumerate_thoughts]. simpl Z.of_nat.
    by rewrite Z.add_0_r.
  - intros Hk.
    change (enumerate_thoughts (start + 1) ts !! k
            = Some (thought_entry (start + Z.of_nat (S k)) t)).
    rewrite (IH (start + 1)%Z k Hk). do 2 f_equal. lia.
Qed.

Lemma enumerate_thoughts_length start ts :
  length (enumerate_thoughts start ts) = length ts.
Proof. revert start. induction ts as [|t ts IH]; intros start; cbn; [done|]. by rewrite IH. Qed.

(** X26. In debug mode each optional part of the bundle tells three
    cases apart: a history without the method leaves the key out, a
    method that raises gives an empty list, and otherwise the key holds
    what the method returned.  The model thoughts are numbered from 1 in
    their order. *)
Theorem debug_bundle_contents (h : History) (request : TaskRequest) (dd : dict) :
  rq_debug_mode request = true →
  extract_debug_data h request = Ok dd →
  ∃ bundle,
    dd !! "debug_data" = Some (VDict bundle)
    ∧ bundle !! "extracted_content"
      = match extracted_content h with
        | None => None
        | Some (Ok extracted) => Some (VList (VStr <$> extracted))
        | Some (Raise _) => Some (VList [])
        end
    ∧ bundle !! "model_thoughts"
      = match model_thoughts h with
        | None => None
        | Some (Ok thoughts) => Some (VList (enumerate_thoughts 1 thoughts))
        | Some (Raise _) => Some (VList [])
        end
    ∧ ∀ thoughts k thought,
        model_thoughts h = Some (Ok thoughts) → thoughts !! k = Some thought →
        enumerate_thoughts 1 thoughts !! k
        = Some (thought_entry (Z.of_nat k + 1) thought).
Proof.
  intros Hdebug. unfold extract_debug_data. rewrite Hdebug. cbn [negb].
  unfold debug_step, try_except, mbind, res_bind, mret, res_ret.
  intros Hdd.
  assert (∀ thoughts k thought,
            model_thoughts h = Some (Ok thoughts) → thoughts !! k = Some thought →
            enumerate_thoughts 1 thoughts !! k
            = Some (thought_entry (Z.of_nat k + 1) thought)) as Hnumbered.
  { intros thoughts k thought _ Hk.
    rewrite (enumerate_thoughts_lookup 1 thoughts k thought Hk). do 2 f_equal. lia. }
  revert Hdd.
  destruct (extracted_content h) as [[extracted|e1]|];
    try (destruct (is_Exception e1); [|discriminate]);
    (destruct (model_thoughts h) as [[thoughts|e2]|];
     try (destruct (is_Exception e2); [|discriminate]));
    destruct (total_duration_seconds h); try discriminate;
    destruct (number_of_steps h); try discriminate;
    destruct (urls h); try discriminate;
    destruct (has_errors h); try discriminate;
    intros [= <-]; eexists; (split; [apply lookup_singleton_eq|]);
    lookups; repeat split; try reflexivity; exact Hnumbered.
Qed.

Lemma debug_bundle_contents_witness :
  ∃ dd bundle,
    extract_debug_data sample_history sample_request = Ok dd
    ∧ dd !! "debug_data" = Some (VDict bundle)
    ∧ bundle !! "extracted_content" = Some (VList [VStr "Monthly report"])
    ∧ bundle !! "model_thoughts" = None.
Proof.
  assert (∃ dd, extract_debug_data sample_history sample_request = Ok dd)
    as [dd Hdd] by (eexists; vm_compute; reflexivity).
  destruct (debug_bundle_contents sample_history sample_request dd eq_refl Hdd)
    as (bundle & Hbundle & Hcontent & Hthoughts & _).
  exists dd, bundle. repeat split; assumption.
Defined.

(** ** From a failing agent to the reply *)

Lemma setup_directories_returns request drv m :
  mkdir_outcome drv = Ok () →
  ∃ paths, setup_directories request drv m = (m, Ok paths).
Proof.
  intros Hmkdir. unfold setup_directories, mbind, M_bind, lift, mret, M_ret.
  rewrite Hmkdir. destruct (rq_save_conversation request); by eexists.
Qed.

Lemma setup_browser_profile_returns request drv m :
  mkdir_outcome drv = Ok () →
  ∃ paths, setup_browser_profile request drv m = (m, Ok paths).
Proof.
  intros Hmkdir. unfold setup_browser_profile, mbind, M_bind, lift, mret, M_ret.
  rewrite Hmkdir. destruct (rq_session_enabled request); by eexists.
Qed.

Lemma restore_session_storage_returns drv p m :
  raises_only_exceptions (add_init_script_outcome drv) →
  (restore_session_storage drv p m).2 = Ok ().
Proof.
  intros Hadd.
  unfold restore_session_storage, read_session_file, try_except_M, call_driver,
    register_init_script, lift, mbind, M_bind, mret, M_ret.
  destruct (session_files m !! p) as [[doc|]|]; cbn [fst snd is_Exception]; try done.
  destruct (bool_decide (doc_data doc = ∅)); cbn [fst snd]; [done|].
  destruct (add_init_script_outcome drv) as [[]|e] eqn:E; cbn [fst snd]; [done|].
  by rewrite (Hadd e eq_refl).
Qed.

Lemma run_and_release_raises request drv state_path session_path m e :
  run_outcome drv = Raise e →
  raises_only_exceptions (stop_outcome drv) →
  (run_and_release request drv state_path session_path m).2 = Raise e.
Proof.
  intros Hrun Hstop.
  unfold run_and_release, try_finally, try_except_M, call_driver, lift,
    mbind, M_bind, mret, M_ret.
  rewrite Hrun. cbn [fst snd].
  destruct (stop_outcome drv) as [[]|e'] eqn:E; cbn [fst snd]; [done|].
  by rewrite (Hstop e' eq_refl).
Qed.

Lemma run_agent_task_raises request drv m e :
  setup_llms_outcome drv = Ok () →
  mkdir_outcome drv = Ok () →
  create_browser_outcome drv = Ok () →
  start_outcome drv = Ok () →
  raises_only_exceptions (add_init_script_outcome drv) →
  create_agent_outcome drv = Ok () →
  run_outcome drv = Raise e →
  raises_only_exceptions (stop_outcome drv) →
  (run_agent_task request drv m).2 = Raise e
  ∧ last (calls (run_agent_task request drv m).1) = Some CallStop.
Proof.
  intros Hllm Hmkdir Hbrowser Hstart Hadd Hagent Hrun Hstop.
  set (P := fun r : Machine * res dict =>
         r.2 = Raise e ∧ last (calls r.1) = Some CallStop).
  change (P (run_agent_task request drv m)).
  unfold run_agent_task. unfold mbind, M_bind. unfold lift at 1. rewrite Hllm.
  destruct (setup_directories_returns request drv m Hmkdir)
    as ([[conv dir] tdir] & ->).
  destruct (setup_browser_profile_returns request drv m Hmkdir) as ([sp ssp] & ->).
  unfold lift at 1. rewrite Hbrowser. unfold call_driver at 1. rewrite Hstart.
  match goal with
  | |- context [match ssp with Some _ => _ | None => _ end ?mm] =>
      assert ((match ssp with
               | Some session_path => restore_session_storage drv session_path
               | None => mret ()
               end mm).2 = Ok ()) as Hrestore
        by (destruct ssp; [by apply restore_session_storage_returns|done]);
      destruct (match ssp with
                | Some session_path => restore_session_storage drv session_path
                | None => mret ()
                end mm) as [m4 r4]
  end.
  cbn [snd] in Hrestore. subst r4.
  unfold create_agent, mbind, M_bind, lift, mret, M_ret. rewrite Hagent.
  pose proof (run_and_release_raises request drv sp ssp m4 e Hrun Hstop) as Hrel.
  destruct (run_and_release_stops request drv sp ssp m4) as (exports & Hcalls & _).
  destruct (run_and_release request drv sp ssp m4) as [m6 r6].
  cbn [fst snd] in Hrel, Hcalls. subst r6. split; [done|].
  cbn [fst]. rewrite Hcalls, !app_assoc. apply last_snoc.
Qed.

(** X27. When the agent raises an exception in the middle of a run that
    is otherwise in order, the client gets a reply, not an error: the
    task is reported as unsuccessful, the error is the text of the
    exception, and the execution time is the measured one. *)
Theorem agent_failure_is_reported
    (request : TaskRequest) (drv : Driver) (m : Machine) (elapsed : Q)
    (env : Surroundings) (reg : Registry) (msg : string) :
  setup_llms_outcome drv = Ok () →
  mkdir_outcome drv = Ok () →
  create_browser_outcome drv = Ok () →
  start_outcome drv = Ok () →
  raises_only_exceptions (add_init_script_outcome drv) →
  create_agent_outcome drv = Ok () →
  run_outcome drv = Raise (Exception msg) →
  raises_only_exceptions (stop_outcome drv) →
  Qle_bool elapsed (inject_Z (rq_timeout request)) = true →
  let run := awaited_run request drv m elapsed in
  ∃ reply,
    (execute_task request run env reg).2 = Ok reply
    ∧ rs_task_id reply = assigned_task_id request env
    ∧ rs_success reply = false
    ∧ rs_error reply = Some msg
    ∧ rs_execution_time reply
      = (start_time env + before_wait env + elapsed + after_wait env
         - start_time env)%Q
    ∧ last (calls (run_agent_task request drv m).1) = Some CallStop.
Proof.
  intros Hllm Hmkdir Hbrowser Hstart Hadd Hagent Hrun Hstop Hle. cbv zeta.
  destruct (run_agent_task_raises request drv m (Exception msg)
              Hllm Hmkdir Hbrowser Hstart Hadd Hagent Hrun Hstop)
    as [Hraise Hstopped].
  unfold execute_task, execute_task_traced, time_after_wait, awaited_run,
    registry_register. cbv zeta.
  rewrite Hraise. unfold wait_for. rewrite Hle. cbn.
  eexists. by repeat split.
Qed.

Lemma agent_failure_is_reported_witness :
  ∃ reply,
    (execute_task sample_request
       (awaited_run sample_request failing_run_driver returning_machine 5)
       sample_surroundings empty_registry).2 = Ok reply
    ∧ rs_task_id reply = assigned_task_id sample_request sample_surroundings
    ∧ rs_success reply = false
    ∧ rs_error reply = Some "LLM unreachable"
    ∧ rs_execution_time reply
      = (start_time sample_surroundings + before_wait sample_surroundings + 5
         + after_wait sample_surroundings - start_time sample_surroundings)%Q
    ∧ last (calls (run_agent_task sample_request failing_run_driver
                     returning_machine).1) = Some CallStop.
Proof.
  apply (agent_failure_is_reported sample_request failing_run_driver
           returning_machine 5 sample_surroundings empty_registry "LLM unreachable");
    first [ reflexivity | apply cooperative_raises_nothing ].
Defined.

(** ** The paths of the report *)

Lemma basic_results_gif h request gif_path basic :
  extract_basic_results h request gif_path = Ok basic →
  basic !! "gif_path" = (if rq_generate_gif request then VStr <$> gif_path else None).
Proof.
  unfold extract_basic_results, mbind, res_bind, mret, res_ret.
  repeat match goal with
    | |- context [match ?x with Ok _ => _ | Raise _ => _ end] =>
        destruct x; [|discriminate]
    end.
  intros [= <-].
  destruct gif_path as [p|], (rq_generate_gif request); cbn [fmap option_fmap option_map];
    lookups; reflexivity.
Qed.

Lemma debug_data_keys h request dd k :
  extract_debug_data h request = Ok dd → k ≠ "debug_data" → dd !! k = None.
Proof.
  unfold extract_debug_data, mbind, res_bind, mret, res_ret.
  destruct (negb (rq_debug_mode request)).
  - intros [= <-] Hk. by rewrite lookup_singleton_ne.
  - repeat match goal with
      | |- context [match ?x with Ok _ => _ | Raise _ => _ end] =>
          destruct x; [|discriminate]
      end.
    intros [= <-] Hk. by rewrite lookup_singleton_ne.
Qed.

Lemma aggregate_results_paths h request gif_path downloaded_files conversation_path
    result :
  aggregate_results h request gif_path downloaded_files conversation_path = Ok result →
  result !! "gif_path" = (if rq_generate_gif request then VStr <$> gif_path else None)
  ∧ result !! "conversation_path" = Some (opt_str conversation_path)
  ∧ result !! "downloaded_files" = Some (VList (VStr <$> downloaded_files)).
Proof.
  unfold aggregate_results, mbind, res_bind, mret, res_ret.
  destruct (extract_basic_results h request gif_path) as [basic|] eqn:Hbasic;
    [|discriminate].
  destruct (extract_cost_data h request) as [cd|] eqn:Hcost; [|discriminate].
  destruct (extract_debug_data h request) as [dd|] eqn:Hdebug; [|discriminate].
  intros [= <-]. split; [|split].
  - rewrite merged_lookup by done.
    rewrite (debug_data_keys h request dd "gif_path" Hdebug) by done.
    destruct (cost_data_shape h request cd Hcost) as (_ & _ & _ & _ & _ & Hkeys).
    rewrite Hkeys by not_in_keys.
    exact (basic_results_gif h request gif_path basic Hbasic).
  - unfold assemble_final_result. by rewrite lookup_insert_eq.
  - unfold assemble_final_result. rewrite lookup_insert_ne by done.
    by rewrite lookup_insert_eq.
Qed.

Lemma setup_directories_paths request drv m m' conv download_dir task_dir_name :
  setup_directories request drv m = (m', Ok (conv, download_dir, task_dir_name)) →
  conv = (if rq_save_conversation request
          then Some (path_str
                       (["home"; "browseruser"; ".conversations";
                         default "default" (customer_dir request)]
                        ++ ["task_" +:+ conversation_uuid8 drv +:+ "_"
                            +:+ strftime_dashed (conversation_now drv) +:+ ".json"]))
          else None)
  ∧ task_dir_name = "task_" +:+ task_uuid8 drv
  ∧ download_dir
    = downloads_root ++ [default "default" (customer_dir request); task_dir_name].
Proof.
  unfold setup_directories, mbind, M_bind, lift, mret, M_ret.
  destruct (rq_save_conversation request), (mkdir_outcome drv);
    try done; by intros [= _ <- <- <-].
Qed.

Lemma create_agent_gif request drv dir name m m' gif :
  create_agent request drv dir name m = (m', Ok gif) →
  gif = (if rq_generate_gif request
         then Some (path_str (dir ++ ["task_" +:+ name +:+ ".gif"])) else None).
Proof.
  unfold create_agent, mbind, M_bind, lift, mret, M_ret.
  destruct (create_agent_outcome drv); [|done]. by intros [= _ <-].
Qed.

(** X28. The report names the files that the agent was told to write:
    its [gif_path] is the [generate_gif] argument of the agent (left out
    unless a GIF was requested, and then a file of the task's download
    directory), and its [conversation_path] is the agent's
    [save_conversation_path] (none unless the conversation is to be
    saved). *)
Theorem report_names_the_agent_files
    (request : TaskRequest) (options : SetupOptions) (llm : LLM)
    (page_extraction_llm : option LLM) (browser : BrowserKwargs)
    (drv : Driver) (m : Machine) (result : dict) :
  (run_agent_task request drv m).2 = Ok result →
  let task_dir_name := "task_" +:+ task_uuid8 drv in
  let download_dir :=
    downloads_root ++ [default "default" (customer_dir request); task_dir_name] in
  let conversation_path :=
    if rq_save_conversation request
    then Some (path_str
                 (["home"; "browseruser"; ".conversations";
                   default "default" (customer_dir request)]
                  ++ ["task_" +:+ conversation_uuid8 drv +:+ "_"
                      +:+ strftime_dashed (conversation_now drv) +:+ ".json"]))
    else None in
  let kwargs :=
    agent_kwargs request options llm page_extraction_llm browser
                 download_dir task_dir_name conversation_path in
  result !! "gif_path" = VStr <$> ak_generate_gif kwargs
  ∧ result !! "conversation_path" = Some (opt_str (ak_save_conversation_path kwargs))
  ∧ (ak_generate_gif kwargs = None ↔ rq_generate_gif request = false)
  ∧ (ak_save_conversation_path kwargs = None ↔ rq_save_conversation request = false)
  ∧ ak_available_file_paths kwargs = [path_str download_dir].
Proof.
  unfold run_agent_task. unfold mbind, M_bind. unfold lift at 1.
  destruct (setup_llms_outcome drv) as [|e]; [|done].
  destruct (setup_directories request drv m) as [m1 [[[conv dir] tdir]|e]] eqn:Hdirs;
    [|done].
  apply setup_directories_paths in Hdirs as (Hconv & Htdir & Hdir).
  destruct (setup_browser_profile request drv m1) as [m2 [[sp ssp]|e]]; [|done].
  unfold lift at 1. destruct (create_browser_outcome drv) as [|e]; [|done].
  unfold call_driver at 1. destruct (start_outcome drv) as [|e]; [|done].
  destruct (match ssp with
            | Some session_path => restore_session_storage drv session_path
            | None => mret ()
            end _) as [m4 [|e]]; [|done].
  destruct (create_agent request drv dir tdir m4) as [m5 [gif|e]] eqn:Hgif; [|done].
  apply create_agent_gif in Hgif.
  destruct (run_and_release request drv sp ssp m5) as [m6 [history|e]]; [|done].
  destruct (reconcile_downloads drv dir m6) as [m7 [files|e]]; [|done].
  unfold lift. cbn [snd]. intros Hagg. cbv zeta.
  apply aggregate_results_paths in Hagg as (Hg & Hc & _).
  rewrite Hg, Hc, Hgif, Hconv, Hdir, Htdir. unfold agent_kwargs.
  cbn [ak_generate_gif ak_save_conversation_path ak_available_file_paths].
  destruct (rq_generate_gif request), (rq_save_conversation request);
    repeat split; try done.
Qed.

Lemma run_agent_task_returns request drv m history :
  setup_llms_outcome drv = Ok () →
  mkdir_outcome drv = Ok () →
  create_browser_outcome drv = Ok () →
  start_outcome drv = Ok () →
  raises_only_exceptions (add_init_script_outcome drv) →
  create_agent_outcome drv = Ok () →
  run_outcome drv = Ok history →
  raises_only_exceptions (export_storage_state_outcome drv) →
  raises_only_exceptions (current_page drv) →
  raises_only_exceptions (evaluate_outcome drv) →
  raises_only_exceptions (write_outcome drv) →
  raises_only_exceptions (stop_outcome drv) →
  ∃ gif_path downloaded_files conversation_path,
    (run_agent_task request drv m).2
    = aggregate_results history request gif_path downloaded_files conversation_path.
Proof.
  intros Hllm Hmkdir Hbrowser Hstart Hadd Hagent Hrun Hexport Hpage Heval Hwrite Hstop.
  assert (raises_only_exceptions (mkdir_outcome drv)) as Hmk
    by (rewrite Hmkdir; intros e; discriminate).
  unfold run_agent_task. unfold mbind, M_bind. unfold lift at 1. rewrite Hllm.
  destruct (setup_directories_returns request drv m Hmkdir)
    as ([[conv dir] tdir] & ->).
  destruct (setup_browser_profile_returns request drv m Hmkdir) as ([sp ssp] & ->).
  unfold lift at 1. rewrite Hbrowser. unfold call_driver at 1. rewrite Hstart.
  match goal with
  | |- context [match ssp with Some _ => _ | None => _ end ?mm] =>
      assert ((match ssp with
               | Some session_path => restore_session_storage drv session_path
               | None => mret ()
               end mm).2 = Ok ()) as Hrestore
        by (destruct ssp; [by apply restore_session_storage_returns|done]);
      destruct (match ssp with
                | Some session_path => restore_session_storage drv session_path
                | None => mret ()
                end mm) as [m4 r4]
  end.
  cbn [snd] in Hrestore. subst r4.
  unfold create_agent, mbind, M_bind, lift, mret, M_ret. rewrite Hagent.
  destruct (run_and_release_returns request drv sp ssp m4 history
              Hrun Hmk Hexport Hpage Heval Hwrite Hstop) as [Hrel _].
  destruct (run_and_release request drv sp ssp m4) as [m6 r6].
  cbn [snd] in Hrel. subst r6.
  unfold reconcile_downloads.
  destruct (handle_downloads (download_env drv) dir (download_fs m6)) as [files fs].
  cbn [snd]. by eexists _, files, conv.
Qed.

Lemma report_names_the_agent_files_witness :
  ∃ report,
    (run_agent_task sample_request cooperative_driver returning_machine).2 = Ok report
    ∧ report !! "gif_path" = None
    ∧ report !! "conversation_path" = Some VNone.
Proof.
  destruct (run_agent_task_returns sample_request cooperative_driver
              returning_machine sample_history)
    as (gif & files & conv & Hrun);
    try first [ reflexivity | apply cooperative_raises_nothing ].
  destruct (pipeline_returns sample_history sample_core sample_request gif files conv
              "t1" 0 sample_history_answers sample_judgement_guarded
              sample_usage_guarded sample_content_guarded sample_thoughts_guarded)
    as (report & _ & _ & _ & _ & _ & Hagg & _).
  rewrite Hagg in Hrun.
  exists report. split; [exact Hrun|].
  destruct (report_names_the_agent_files sample_request sample_options
              (ChatOpenAI "gpt-5-mini") None
              {| bk_headless := false; bk_window_size := (1920, 1080)%Z;
                 bk_chromium_sandbox := false; bk_highlight_elements := true;
                 bk_accept_downloads := true; bk_downloads_path := "";
                 bk_storage_state := None; bk_user_data_dir := None;
                 bk_keep_alive := true |}
              cooperative_driver returning_machine report Hrun)
    as (Hgif & Hconv & _).
  split; [exact Hgif|exact Hconv].
Defined.

(** ** The remaining endpoints and helpers at small inputs *)

(** [/health] answers "healthy" whether or not the library can be
    imported. *)
Lemma health_check_returns (browser_use_version : res (option string))
    (DISPLAY : option string) :
  raises_only_exceptions browser_use_version →
  ∃ response,
    health_check browser_use_version DISPLAY = Ok response
    ∧ hr_status response = "healthy".
Proof.
  intros Hversion. unfold health_check, try_except, mbind, res_bind, mret, res_ret.
  destruct browser_use_version as [v|e]; [by eexists|].
  rewrite (Hversion e eq_refl). by eexists.
Qed.

Example health_check_without_library :
  health_check (Raise (Exception "No module named 'browser_use'")) None
  = Ok {| hr_status := "healthy";
          hr_display := "not set";
          hr_browser_use_version := "unknown" |}.
Proof. reflexivity. Qed.

Example shortpathname_samples :
  shortpathname (Some "/app/browser_api.py") = "browser_api.py"
  ∧ shortpathname (Some "/usr/lib/python3/logging/__init__.py")
    = "/usr/lib/python3/logging/__init__.py"
  ∧ shortpathname (Some "/app//app/x.py") = "/app/x.py"
  ∧ shortpathname None = "".
Proof. repeat split; reflexivity. Qed.

Example normalize_use_vision_samples :
  normalize_use_vision (VStr "TRUE") = VBool true
  ∧ normalize_use_vision (VStr "False") = VBool false
  ∧ normalize_use_vision (VStr "yes") = VStr "auto"
  ∧ normalize_use_vision (VBool false) = VBool false
  ∧ normalize_use_vision VNone = VStr "auto".
Proof. repeat split; reflexivity. Qed.

Example create_llm_samples :
  create_llm (fun _ => true) "Anthropic" (Some "claude-opus") (1 # 2)
  = Ok (ChatAnthropic "claude-opus" (1 # 2))
  ∧ create_llm (fun _ => true) "browseruse" (Some "anything") 0 = Ok ChatBrowserUse
  ∧ create_llm (fun name => negb (String.eqb name "ChatGoogle")) "gemini" None 0
    = Raise (Exception "cannot import name 'ChatGoogle' from 'browser_use'").
Proof. repeat split; reflexivity. Qed.

Example agent_kwargs_sample :
  let kwargs :=
    agent_kwargs sample_request sample_options (ChatOpenAI "gpt-5-mini") None
      {| bk_headless := false; bk_window_size := (1920, 1080)%Z;
         bk_chromium_sandbox := false; bk_highlight_elements := true;
         bk_accept_downloads := true;
         bk_downloads_path := path_str sample_download_dir;
         bk_storage_state := None; bk_user_data_dir := None;
         bk_keep_alive := true |}
      sample_download_dir "task_01234567" None in
  ak_use_vision kwargs = VStr "auto"
  ∧ ak_available_file_paths kwargs
    = ["/home/browseruser/Downloads/customer_7/task_01234567"]
  ∧ ak_generate_gif kwargs = None
  ∧ ak_save_conversation_path kwargs = None.
Proof. cbv zeta. repeat split; reflexivity. Qed.

Example judge_verdict_sample :
  format_judge_verdict {[ "verdict" := JBool false;
                          "failure_reason" := JStr "The report was not found" ]}
  = glyph_scales +:+ "  Judge Verdict: " +:+ glyph_fail +:+ " FAIL" +:+ newline
    +:+ "Failure Reason: The report was not found".
Proof. vm_compute. reflexivity. Qed.
